(** * The ALSA output plugin (src/alsa/alsa.c): ring buffer, feeder thread,
    playback clock and mixer volume.

    The plugin keeps its whole state in file-level globals that are only
    touched with [alsa_mutex] held.  The embedding therefore has one record
    for the globals and one function for every critical section, that is for
    every stretch of code between taking the mutex (or returning from
    [pthread_cond_wait]) and releasing it (or calling [pthread_cond_wait]).
    Threads interleave at these points only; an interleaving is a list of
    events.  Waking from [pthread_cond_wait] is allowed at any time (POSIX
    permits spurious wake-ups and every loop of the source re-tests its
    condition).

    What the ALSA library answers (error codes, the hardware delay, the
    number of frames a write accepted) is an input of the event that makes
    the call. *)

From stdpp Require Import base numbers list option.
From Stdlib Require Import ZArith Lia Strings.Byte.

Open Scope Z_scope.

(** ** C arithmetic *)

(** [int] is 32 bits wide; converting a wider value to it keeps the low
    32 bits.  Signed overflow inside an expression is undefined in C and is
    not given a meaning here: expressions are evaluated exactly. *)
Definition int_range (z : Z) : Prop := - 2 ^ 31 <= z < 2 ^ 31.

Definition to_int (z : Z) : Z := (z + 2 ^ 31) mod 2 ^ 32 - 2 ^ 31.

(** C's [/] and [%] truncate towards zero. *)
Definition cdiv (a b : Z) : Z := Z.quot a b.
Definition cmod (a b : Z) : Z := Z.rem a b.

(** glib's [MIN] and [MAX] macros. *)
Definition MIN (a b : Z) : Z := if a <? b then a else b.
Definition MAX (a b : Z) : Z := if a >? b then a else b.

(** [CHECK (function, ...)] of alsa.h: the macro is declared outside the
    files at hand; every use is followed by a [FAILED:] label, which the
    macro jumps to when the call answers a negative error code.  In the
    option monad [None] is the jump to [FAILED:]. *)
Definition CHECK (error : Z) : option () :=
  if error <? 0 then None else Some ().

(** [memcpy (dst + off, src, n)] on a buffer held as a list. *)
Definition memcpy (dst : list byte) (off : Z) (src : list byte) (n : Z)
  : list byte :=
  list_inserts (Z.to_nat off) (take (Z.to_nat n) src) dst.

(** ** Configuration (alsa_config_* and aud_cfg) *)

Record config := {
  alsa_config_drain_workaround : bool;
  alsa_config_drop_workaround : bool;
  alsa_config_delay_workaround : bool;
  output_buffer_size : Z            (* aud_cfg->output_buffer_size, in ms *)
}.

(** ** The globals *)

(** Calls made on [alsa_handle] that change the device, oldest first. *)
Inductive pcm_call :=
| Pcm_set_buffer_time_max (useconds : Z)
| Pcm_prepare
| Pcm_pause (enable : Z)
| Pcm_drop
| Pcm_drain
| Pcm_recover (error : Z)
| Pcm_writei (chunk : list byte) (frames : Z)
| Pcm_close.

(** Where the pump thread stands. *)
Inductive pump_pc :=
| PumpLoop                                     (* at [while (! pump_quit)] *)
| PumpWriting (frames : Z) (chunk : list byte) (* inside [snd_pcm_writei] *)
| PumpExited.                                  (* returned *)

(** Where the thread of the playback engine stands: outside the plugin
    ([Idle]) or blocked inside one of its calls. *)
Inductive caller_pc :=
| Idle
| Writing (rest : list byte)   (* alsa_write_audio, [rest] not yet copied *)
| Draining                     (* alsa_drain *)
| Flushing                     (* alsa_flush *)
| Closing                      (* alsa_close_audio, in pthread_join *)
| Closed.

Record state := {
  alsa_buffer : list byte;
  alsa_buffer_length : Z;
  alsa_buffer_data_start : Z;
  alsa_buffer_data_length : Z;
  alsa_buffer_read_length : Z;
  alsa_rate : Z;
  frame_bytes : Z;          (* bytes per frame of the opened [alsa_handle] *)
  alsa_time : Z;            (* microseconds *)
  alsa_paused : bool;
  alsa_paused_time : Z;
  pump_quit : bool;
  pump_thread : pump_pc;
  caller : caller_pc;
  pcm_log : list pcm_call;  (* what was asked of the device *)
  played : list byte;       (* bytes snd_pcm_writei accepted, in order *)
  passed : list byte        (* bytes given to alsa_write_audio, in order *)
}.

Definition set_ring (s : state) (buf : list byte) (start len rd : Z) : state :=
  {| alsa_buffer := buf;
     alsa_buffer_length := alsa_buffer_length s;
     alsa_buffer_data_start := start;
     alsa_buffer_data_length := len;
     alsa_buffer_read_length := rd;
     alsa_rate := alsa_rate s; frame_bytes := frame_bytes s;
     alsa_time := alsa_time s; alsa_paused := alsa_paused s;
     alsa_paused_time := alsa_paused_time s;
     pump_quit := pump_quit s; pump_thread := pump_thread s;
     caller := caller s; pcm_log := pcm_log s;
     played := played s; passed := passed s |}.

Definition set_clock (s : state) (time : Z) (paused : bool) (ptime : Z)
  : state :=
  {| alsa_buffer := alsa_buffer s;
     alsa_buffer_length := alsa_buffer_length s;
     alsa_buffer_data_start := alsa_buffer_data_start s;
     alsa_buffer_data_length := alsa_buffer_data_length s;
     alsa_buffer_read_length := alsa_buffer_read_length s;
     alsa_rate := alsa_rate s; frame_bytes := frame_bytes s;
     alsa_time := time; alsa_paused := paused;
     alsa_paused_time := ptime;
     pump_quit := pump_quit s; pump_thread := pump_thread s;
     caller := caller s; pcm_log := pcm_log s;
     played := played s; passed := passed s |}.

Definition set_threads (s : state) (quit : bool) (pump : pump_pc)
  (c : caller_pc) : state :=
  {| alsa_buffer := alsa_buffer s;
     alsa_buffer_length := alsa_buffer_length s;
     alsa_buffer_data_start := alsa_buffer_data_start s;
     alsa_buffer_data_length := alsa_buffer_data_length s;
     alsa_buffer_read_length := alsa_buffer_read_length s;
     alsa_rate := alsa_rate s; frame_bytes := frame_bytes s;
     alsa_time := alsa_time s; alsa_paused := alsa_paused s;
     alsa_paused_time := alsa_paused_time s;
     pump_quit := quit; pump_thread := pump;
     caller := c; pcm_log := pcm_log s;
     played := played s; passed := passed s |}.

Definition set_io (s : state) (log : list pcm_call) (out inp : list byte)
  : state :=
  {| alsa_buffer := alsa_buffer s;
     alsa_buffer_length := alsa_buffer_length s;
     alsa_buffer_data_start := alsa_buffer_data_start s;
     alsa_buffer_data_length := alsa_buffer_data_length s;
     alsa_buffer_read_length := alsa_buffer_read_length s;
     alsa_rate := alsa_rate s; frame_bytes := frame_bytes s;
     alsa_time := alsa_time s; alsa_paused := alsa_paused s;
     alsa_paused_time := alsa_paused_time s;
     pump_quit := pump_quit s; pump_thread := pump_thread s;
     caller := caller s; pcm_log := log;
     played := out; passed := inp |}.

Definition set_caller (s : state) (c : caller_pc) : state :=
  set_threads s (pump_quit s) (pump_thread s) c.

Definition set_pump (s : state) (p : pump_pc) : state :=
  set_threads s (pump_quit s) p (caller s).

Definition pcm_do (s : state) (c : pcm_call) : state :=
  set_io s (pcm_log s ++ [c]) (played s) (passed s).

(** ** ALSA's frame arithmetic

    [snd_pcm_bytes_to_frames] and [snd_pcm_frames_to_bytes] belong to the
    ALSA library.  For the interleaved formats this plugin opens a frame is a
    whole number of bytes, [frame_bytes]. *)
Definition snd_pcm_bytes_to_frames (s : state) (bytes : Z) : Z :=
  cdiv bytes (frame_bytes s).

Definition snd_pcm_frames_to_bytes (s : state) (frames : Z) : Z :=
  frames * frame_bytes s.

(** What [snd_pcm_status] answers: its error code and, when that is not
    negative, the delay [snd_pcm_status_get_delay] reads from it. *)
Record pcm_status := {
  status_error : Z;
  status_delay : Z
}.

Section Plugin.

Variable cfg : config.

(** ** start_playback *)

(** [hw_paused] says whether [snd_pcm_state] answered
    [SND_PCM_STATE_PAUSED].  Both calls are under [CHECK] with [FAILED:]
    right behind them, so their answers change nothing. *)
Definition start_playback (hw_paused : bool) (s : state) : state :=
  let s1 := if hw_paused then pcm_do s (Pcm_pause 0) else pcm_do s Pcm_prepare in
  set_clock s1 (alsa_time s1) false (alsa_paused_time s1).

(** ** real_output_time, alsa_written_time, alsa_output_time *)

Definition real_output_time (st : pcm_status) (s : state) : Z :=
  match CHECK (status_error st) with
  | None => 0
  | Some _ =>
      to_int
        (cdiv
           (alsa_time s -
            cdiv
              ((snd_pcm_bytes_to_frames s
                  (alsa_buffer_data_length s - alsa_buffer_read_length s)
                + status_delay st) * 1000000)
              (alsa_rate s))
           1000)
  end.

Definition alsa_written_time (s : state) : Z :=
  to_int (cdiv (alsa_time s) 1000).

Definition alsa_output_time (st : pcm_status) (s : state) : Z :=
  if alsa_paused s then alsa_paused_time s else real_output_time st s.

(** ** alsa_write_audio *)

(** The [memcpy] calls of the loop body: [writable] bytes of [data] go
    behind the waiting data, in two parts when they reach past the end of the
    buffer. *)
Definition write_copy (data : list byte) (writable : Z) (s : state)
  : list byte :=
  let start :=
    cmod (alsa_buffer_data_start s + alsa_buffer_data_length s)
      (alsa_buffer_length s) in
  if writable >? alsa_buffer_length s - start then
    let part := alsa_buffer_length s - start in
    memcpy (memcpy (alsa_buffer s) start data part)
      0 (drop (Z.to_nat part) data) (writable - part)
  else memcpy (alsa_buffer s) start data writable.

(** One pass over the body of [while (1)] up to [if (! length)]: the state
    after it and the bytes still to be written. *)
Definition write_pass (data : list byte) (s : state) : state * list byte :=
  let length := Z.of_nat (length data) in
  let writable :=
    MIN (alsa_buffer_length s - alsa_buffer_data_length s) length in
  let s1 :=
    set_ring s (write_copy data writable s) (alsa_buffer_data_start s)
      (alsa_buffer_data_length s + writable) (alsa_buffer_read_length s) in
  let s2 :=
    set_clock s1
      (alsa_time s1 +
       cdiv (snd_pcm_bytes_to_frames s1 writable * 1000000) (alsa_rate s1))
      (alsa_paused s1) (alsa_paused_time s1) in
  (s2, drop (Z.to_nat writable) data).

(** The loop from its head to [break] or to [pthread_cond_wait]. *)
Definition write_loop (hw_paused : bool) (data : list byte) (s : state)
  : state :=
  let '(s1, rest) := write_pass data s in
  match rest with
  | [] => set_caller s1 Idle
  | _ :: _ =>
      let s2 := if alsa_paused s1 then start_playback hw_paused s1 else s1 in
      set_caller s2 (Writing rest)
  end.

Definition alsa_write_audio (hw_paused : bool) (data : list byte) (s : state)
  : state :=
  write_loop hw_paused data (set_io s (pcm_log s) (played s) (passed s ++ data)).

(** ** alsa_drain *)

(** The [while] loop from its test to [pthread_cond_wait], or past its end
    to the return. *)
Definition drain_loop (hw_paused : bool) (s : state) : state :=
  if alsa_buffer_data_length s >? 0 then
    let s1 := if alsa_paused s then start_playback hw_paused s else s in
    set_caller s1 Draining
  else
    let s1 :=
      if alsa_config_drain_workaround cfg then s else pcm_do s Pcm_drain in
    set_caller s1 Idle.

Definition alsa_drain (hw_paused : bool) (s : state) : state :=
  drain_loop hw_paused s.

(** ** alsa_set_written_time *)

Definition alsa_set_written_time (time : Z) (s : state) : state :=
  set_clock s (1000 * time) (alsa_paused s) (alsa_paused_time s).

(** ** alsa_flush *)

(** From [FAILED:] on: wait for the chunk in flight, then empty the ring. *)
Definition flush_wait (s : state) : state :=
  if alsa_buffer_read_length s =? 0 then
    set_caller
      (set_ring s (alsa_buffer s) 0 0 (alsa_buffer_read_length s)) Idle
  else set_caller s Flushing.

Definition alsa_flush (time : Z) (s : state) : state :=
  let s1 := set_clock s (time * 1000) true time in
  let s2 := if alsa_config_drop_workaround cfg then s1 else pcm_do s1 Pcm_drop in
  flush_wait s2.

(** ** alsa_pause *)

Definition alsa_pause (pause : Z) (st : pcm_status) (s : state) : state :=
  if pause =? 0 then s
  else
    let s1 := set_clock s (alsa_time s) true (alsa_paused_time s) in
    let s2 := set_clock s1 (alsa_time s1) true (real_output_time st s1) in
    pcm_do s2 (Pcm_pause pause).

(** ** alsa_close_audio *)

Definition alsa_close_audio (s : state) : state :=
  let s1 := set_threads s true (pump_thread s) (caller s) in
  let s2 := if alsa_config_drop_workaround cfg then s1 else pcm_do s1 Pcm_drop in
  set_caller s2 Closing.

(** [pthread_join] returns once the pump has left its loop. *)
Definition close_join (s : state) : state :=
  match pump_thread s with
  | PumpExited => set_caller (pcm_do s Pcm_close) Closed
  | _ => s
  end.

(** ** pump *)

(** From the head of the loop to [snd_pcm_writei] (the mutex is released
    there), to a [pthread_cond_wait], or out of the loop. *)
Definition pump_turn (s : state) : state :=
  if pump_quit s then set_pump s PumpExited
  else if alsa_paused s then s
  else
    let length :=
      snd_pcm_frames_to_bytes s
        (snd_pcm_bytes_to_frames s (cdiv (alsa_buffer_length s) 4)) in
    let length := MIN length (alsa_buffer_data_length s) in
    let length :=
      MIN length (alsa_buffer_length s - alsa_buffer_data_start s) in
    let length :=
      if alsa_config_delay_workaround cfg then
        MIN length (snd_pcm_frames_to_bytes s (cdiv (alsa_rate s) 100))
      else length in
    if length =? 0 then s
    else
      let s1 :=
        set_ring s (alsa_buffer s) (alsa_buffer_data_start s)
          (alsa_buffer_data_length s) length in
      let frames := snd_pcm_bytes_to_frames s1 length in
      let chunk :=
        take (Z.to_nat (snd_pcm_frames_to_bytes s1 frames))
          (drop (Z.to_nat (alsa_buffer_data_start s1)) (alsa_buffer s1)) in
      set_pump (pcm_do s1 (Pcm_writei chunk frames)) (PumpWriting frames chunk).

(** From the return of [snd_pcm_writei] to the end of the loop body.
    [written] is what the call answered: the number of frames it took from
    the front of [chunk], or a negative error code.  [recovered] is the
    answer of [snd_pcm_recover], should it be called. *)
Definition pump_written (chunk : list byte) (written recovered : Z) (s : state)
  : state :=
  let length := to_int written in
  let '(s1, length) :=
    if length <? 0 then
      ((if negb (pump_quit s) && negb (alsa_paused s)
        then pcm_do s (Pcm_recover length) else s), 0)
    else (s, length) in
  let length := snd_pcm_frames_to_bytes s1 length in
  let s2 :=
    set_ring s1 (alsa_buffer s1)
      (cmod (alsa_buffer_data_start s1 + length) (alsa_buffer_length s1))
      (alsa_buffer_data_length s1 - length) 0 in
  let s3 :=
    set_io s2 (pcm_log s2)
      (played s2 ++ take (Z.to_nat length) chunk) (passed s2) in
  set_pump s3 PumpLoop.

(** ** Interleavings *)

(** An event is one critical section of one thread.  The first four are
    the playback engine entering a blocking call, [Wake] is its return from
    [pthread_cond_wait] (or [pthread_join]) inside that call; [Pause] and
    [Set_written_time] never wait and may come from any thread; the last two
    are the pump thread. *)
Inductive event :=
| Write_audio (hw_paused : bool) (data : list byte)
| Drain (hw_paused : bool)
| Flush (time : Z)
| Close_audio
| Wake (hw_paused : bool)
| Pause (pause : Z) (st : pcm_status)
| Set_written_time (time : Z)
| Pump_turn
| Pump_written (written recovered : Z).

(** [snd_pcm_writei (handle, buffer, size)] answers the number of frames it
    took, at most [size], or a negative error code (an [int]). *)
Definition writei_answer (size written : Z) : bool :=
  (- 2 ^ 31 <=? written) && (written <=? size).

Definition step (e : event) (s : state) : option state :=
  match e, caller s, pump_thread s with
  | Write_audio hw data, Idle, _ => Some (alsa_write_audio hw data s)
  | Drain hw, Idle, _ => Some (alsa_drain hw s)
  | Flush time, Idle, _ => Some (alsa_flush time s)
  | Close_audio, Idle, _ => Some (alsa_close_audio s)
  | Wake hw, Writing rest, _ => Some (write_loop hw rest s)
  | Wake hw, Draining, _ => Some (drain_loop hw s)
  | Wake _, Flushing, _ => Some (flush_wait s)
  | Wake _, Closing, _ => Some (close_join s)
  | Pause _ _, Closed, _ => None
  | Pause pause st, _, _ => Some (alsa_pause pause st s)
  | Set_written_time _, Closed, _ => None
  | Set_written_time time, _, _ => Some (alsa_set_written_time time s)
  | Pump_turn, _, PumpLoop => Some (pump_turn s)
  | Pump_written written recovered, _, PumpWriting frames chunk =>
      if writei_answer frames written
      then Some (pump_written chunk written recovered s)
      else None
  | _, _, _ => None
  end.

Fixpoint run (tr : list event) (s : state) : option state :=
  match tr with
  | [] => Some s
  | e :: tr' =>
      match step e s with
      | Some s' => run tr' s'
      | None => None
      end
  end.

End Plugin.

(** ** The ring and what it holds *)

(** The [n] elements of a circular array from [start] on, wrapping at its
    end. *)
Definition window {A} (start n : nat) (l : list A) : list A :=
  take n (drop start (l ++ l)).

(** The bytes waiting in the ring, oldest first: [alsa_buffer_data_length]
    bytes from [alsa_buffer_data_start] on. *)
Definition ring_contents (s : state) : list byte :=
  window (Z.to_nat (alsa_buffer_data_start s))
    (Z.to_nat (alsa_buffer_data_length s)) (alsa_buffer s).

(** Bytes of the current [alsa_write_audio] call that are not yet in the
    ring. *)
Definition pending (c : caller_pc) : list byte :=
  match c with
  | Writing rest => rest
  | _ => []
  end.

(** The shape of the ring that every operation keeps. *)
Record ring_ok (s : state) : Prop := {
  ok_frame : 0 < frame_bytes s;
  ok_rate : 0 < alsa_rate s;
  ok_length : 0 < alsa_buffer_length s < 2 ^ 31;
  ok_buffer : Z.of_nat (length (alsa_buffer s)) = alsa_buffer_length s;
  ok_start : 0 <= alsa_buffer_data_start s < alsa_buffer_length s;
  ok_read : 0 <= alsa_buffer_read_length s <= alsa_buffer_data_length s;
  ok_data : alsa_buffer_data_length s <= alsa_buffer_length s;
  ok_pump :
    match pump_thread s with
    | PumpWriting frames chunk =>
        0 < alsa_buffer_read_length s /\
        0 <= frames /\
        frames * frame_bytes s <= alsa_buffer_read_length s /\
        alsa_buffer_data_start s + alsa_buffer_read_length s
          <= alsa_buffer_length s /\
        chunk = take (Z.to_nat (frames * frame_bytes s)) (ring_contents s)
    | _ => alsa_buffer_read_length s = 0
    end
}.

(** Byte accounting: everything passed to [alsa_write_audio] is either
    played, waiting in the ring, or still with the caller. *)
Definition stream_ok (s : state) : Prop :=
  passed s = played s ++ ring_contents s ++ pending (caller s).

(** ** alsa_open_audio *)

(** What the device answers while it is opened: the error code of each
    checked call in the order of the source, the buffer size in frames that
    [snd_pcm_get_params] reports, the frame size of the negotiated format,
    and what [malloc] left in the new buffer. *)
Record open_answers := {
  open_error : Z;
  hw_params_any_error : Z;
  set_access_error : Z;
  set_format_error : Z;
  set_channels_error : Z;
  set_rate_error : Z;
  set_buffer_time_max_error : Z;
  hw_params_error : Z;
  get_params_error : Z;
  get_params_frames : Z;
  negotiated_frame_bytes : Z;
  malloc_contents : nat -> byte
}.

Definition to_guint (z : Z) : Z := z mod 2 ^ 32.

(** A division by [d] in C is undefined when [d] is 0 (the process is
    stopped by a signal): the embedding goes no further there. *)
Definition divisor (d : Z) : option () :=
  if d =? 0 then None else Some ().

Definition hard_buffer (frames rate : Z) : Z :=
  to_int (cdiv (frames * 1000) rate).

Definition soft_buffer (cfg : config) (frames rate : Z) : Z :=
  MAX (cdiv (output_buffer_size cfg) 2)
      (output_buffer_size cfg - hard_buffer frames rate).

(** [Some] is the return of 1 with the session opened.  [None] is the
    return of 0 through [FAILED:]; it is also what is left of a call with
    [rate = 0] that gets past [snd_pcm_get_params]: the next line divides by
    [rate], and the call never returns.  The format and the channel count
    are only handed on to the library, whose answers are inputs here, so they
    are not arguments; [alsa_soft_init] touches the mixer's globals only and
    is found in [Mixer].  The new pump thread signals that it runs and then
    waits, the session being paused, so the state returned has it at the
    head of its loop. *)
Definition alsa_open_audio (cfg : config) (a : open_answers) (rate : Z)
  : option state :=
  CHECK (open_error a) ;;
  CHECK (hw_params_any_error a) ;;
  CHECK (set_access_error a) ;;
  CHECK (set_format_error a) ;;
  CHECK (set_channels_error a) ;;
  CHECK (set_rate_error a) ;;
  let useconds := to_guint (cdiv (1000 * output_buffer_size cfg) 2) in
  let useconds :=
    if alsa_config_drain_workaround cfg then MIN useconds 100000
    else useconds in
  CHECK (set_buffer_time_max_error a) ;;
  CHECK (hw_params_error a) ;;
  CHECK (get_params_error a) ;;
  let frames := get_params_frames a in
  divisor rate ;;
  let soft := soft_buffer cfg frames rate in
  let buffer_length :=
    to_int (cdiv (soft * rate) 1000 * negotiated_frame_bytes a) in
  Some
    {| alsa_buffer :=
         map (malloc_contents a) (seq 0 (Z.to_nat buffer_length));
       alsa_buffer_length := buffer_length;
       alsa_buffer_data_start := 0;
       alsa_buffer_data_length := 0;
       alsa_buffer_read_length := 0;
       alsa_rate := rate;
       frame_bytes := negotiated_frame_bytes a;
       alsa_time := 0;
       alsa_paused := true;
       alsa_paused_time := 0;
       pump_quit := false;
       pump_thread := PumpLoop;
       caller := Idle;
       pcm_log := [Pcm_set_buffer_time_max useconds];
       played := [];
       passed := [] |}.

(** ** The mixer *)

Module Mixer.

Inductive channel := SND_MIXER_SCHN_FRONT_LEFT | SND_MIXER_SCHN_FRONT_RIGHT.

Definition SND_MIXER_SCHN_MONO : channel := SND_MIXER_SCHN_FRONT_LEFT.

(** The part of ALSA's simple mixer element interface the plugin uses.
    Each call answers an error code; a setter also leaves a changed
    element and a getter a value. *)
Class Selem (E : Type) := {
  snd_mixer_selem_set_playback_volume_range : E -> Z -> Z -> Z * E;
  snd_mixer_selem_is_playback_mono : E -> bool;
  snd_mixer_selem_has_playback_switch : E -> bool;
  snd_mixer_selem_has_playback_switch_joined : E -> bool;
  snd_mixer_selem_get_playback_volume : E -> channel -> Z * Z;
  snd_mixer_selem_set_playback_volume : E -> channel -> Z -> Z * E;
  snd_mixer_selem_set_playback_switch : E -> channel -> Z -> Z * E;
  snd_mixer_handle_events : E -> Z * E
}.

(** [alsa_mixer] together with [alsa_mixer_element]: [None] is the NULL
    mixer. *)
Record mixer_state (E : Type) := {
  initted : bool;
  alsa_mixer : option E
}.

Arguments initted {E} _.
Arguments alsa_mixer {E} _.

(** What the system answers while the mixer is opened. *)
Record mixer_answers (E : Type) := {
  alsa_config_mixer_element : bool;     (* false: NULL *)
  mixer_open_error : Z;
  mixer_attach_error : Z;
  selem_register_error : Z;
  mixer_load_error : Z;
  find_selem : option E
}.

Arguments alsa_config_mixer_element {E} _.
Arguments mixer_open_error {E} _.
Arguments mixer_attach_error {E} _.
Arguments selem_register_error {E} _.
Arguments mixer_load_error {E} _.
Arguments find_selem {E} _.

Section Generic.

Context {E : Type} `{Selem E}.

(** The value of [alsa_mixer] when [alsa_open_mixer] returns. *)
Definition alsa_open_mixer (a : mixer_answers E) : option E :=
  if negb (alsa_config_mixer_element a) then None
  else
    CHECK (mixer_open_error a) ;;
    CHECK (mixer_attach_error a) ;;
    CHECK (selem_register_error a) ;;
    CHECK (mixer_load_error a) ;;
    e ← find_selem a ;
    let '(error, e1) := snd_mixer_selem_set_playback_volume_range e 0 100 in
    CHECK error ;;
    Some e1.

Definition alsa_soft_init (a : mixer_answers E) (m : mixer_state E)
  : mixer_state E :=
  if initted m then m
  else {| initted := true; alsa_mixer := alsa_open_mixer a |}.

(** The two values stored through [left] and [right], with the element as
    [snd_mixer_handle_events] leaves it. *)
Definition get_volume_of (e : E) : Z * Z * E :=
  let left_l := 0 in
  let right_l := 0 in
  let '(error, e1) := snd_mixer_handle_events e in
  match CHECK error with
  | None => (left_l, right_l, e1)
  | Some _ =>
      if snd_mixer_selem_is_playback_mono e1 then
        let '(error, v) :=
          snd_mixer_selem_get_playback_volume e1 SND_MIXER_SCHN_MONO in
        match CHECK error with
        | None => (left_l, right_l, e1)
        | Some _ => (v, v, e1)
        end
      else
        let '(error, v) :=
          snd_mixer_selem_get_playback_volume e1 SND_MIXER_SCHN_FRONT_LEFT in
        match CHECK error with
        | None => (left_l, right_l, e1)
        | Some _ =>
            let left_l := v in
            let '(error, v) :=
              snd_mixer_selem_get_playback_volume e1
                SND_MIXER_SCHN_FRONT_RIGHT in
            match CHECK error with
            | None => (left_l, right_l, e1)
            | Some _ => (left_l, v, e1)
            end
        end
  end.

Definition alsa_get_volume (a : mixer_answers E) (m : mixer_state E)
  : Z * Z * mixer_state E :=
  let m1 := alsa_soft_init a m in
  match alsa_mixer m1 with
  | None => (to_int 0, to_int 0, m1)
  | Some e =>
      let '(left_l, right_l, e1) := get_volume_of e in
      (to_int left_l, to_int right_l,
       {| initted := initted m1; alsa_mixer := Some e1 |})
  end.

(** [x != 0] as the [int] it is in C. *)
Definition nonzero (x : Z) : Z := if x =? 0 then 0 else 1.

(** A checked setter inside [alsa_set_volume]: [inl] is the jump to
    [FAILED:] with the element as the failed call left it. *)
Definition checked (r : Z * E) : E + E :=
  match CHECK r.1 with
  | None => inl r.2
  | Some _ => inr r.2
  end.

Definition and_then (r : E + E) (k : E -> E + E) : E + E :=
  match r with
  | inl e => inl e
  | inr e => k e
  end.

Definition set_volume_of (left right : Z) (e : E) : E :=
  let r :=
    if snd_mixer_selem_is_playback_mono e then
      and_then
        (checked (snd_mixer_selem_set_playback_volume e SND_MIXER_SCHN_MONO
                    (MAX left right)))
        (fun e =>
           if snd_mixer_selem_has_playback_switch e then
             checked (snd_mixer_selem_set_playback_switch e
                        SND_MIXER_SCHN_MONO (nonzero (MAX left right)))
           else inr e)
    else
      and_then
        (checked (snd_mixer_selem_set_playback_volume e
                    SND_MIXER_SCHN_FRONT_LEFT left))
        (fun e =>
      and_then
        (checked (snd_mixer_selem_set_playback_volume e
                    SND_MIXER_SCHN_FRONT_RIGHT right))
        (fun e =>
           if snd_mixer_selem_has_playback_switch e then
             if snd_mixer_selem_has_playback_switch_joined e then
               checked (snd_mixer_selem_set_playback_switch e
                          SND_MIXER_SCHN_FRONT_LEFT
                          (nonzero (MAX left right)))
             else
               and_then
                 (checked (snd_mixer_selem_set_playback_switch e
                             SND_MIXER_SCHN_FRONT_LEFT (nonzero left)))
                 (fun e =>
                    checked (snd_mixer_selem_set_playback_switch e
                               SND_MIXER_SCHN_FRONT_RIGHT (nonzero right)))
           else inr e)) in
  match and_then r (fun e => checked (snd_mixer_handle_events e)) with
  | inl e => e
  | inr e => e
  end.

Definition alsa_set_volume (a : mixer_answers E) (left right : Z)
  (m : mixer_state E) : mixer_state E :=
  let m1 := alsa_soft_init a m in
  match alsa_mixer m1 with
  | None => m1
  | Some e =>
      {| initted := initted m1;
         alsa_mixer := Some (set_volume_of left right e) |}
  end.

End Generic.

(** *** A mixer element that works

    ALSA's simple element, reduced to what the plugin can observe: one or
    two playback channels, a volume for each within a range, and an optional
    switch for each, possibly joined. *)
Record simple_selem := {
  mono : bool;
  pswitch : bool;
  pswitch_joined : bool;
  vol_min : Z;
  vol_max : Z;
  vol_left : Z;
  vol_right : Z;
  sw_left : bool;
  sw_right : bool
}.

Definition EINVAL : Z := 22.

Definition has_channel (e : simple_selem) (c : channel) : bool :=
  match c with
  | SND_MIXER_SCHN_FRONT_LEFT => true
  | SND_MIXER_SCHN_FRONT_RIGHT => negb (mono e)
  end.

Definition simple_set_range (e : simple_selem) (lo hi : Z)
  : Z * simple_selem :=
  (0, {| mono := mono e; pswitch := pswitch e;
         pswitch_joined := pswitch_joined e;
         vol_min := lo; vol_max := hi;
         vol_left := vol_left e; vol_right := vol_right e;
         sw_left := sw_left e; sw_right := sw_right e |}).

Definition simple_get_volume (e : simple_selem) (c : channel) : Z * Z :=
  if has_channel e c then
    (0, match c with
        | SND_MIXER_SCHN_FRONT_LEFT => vol_left e
        | SND_MIXER_SCHN_FRONT_RIGHT => vol_right e
        end)
  else (- EINVAL, 0).

(** A value outside the range or for a channel the element lacks is
    ignored without an error. *)
Definition simple_set_volume (e : simple_selem) (c : channel) (v : Z)
  : Z * simple_selem :=
  if has_channel e c && (vol_min e <=? v) && (v <=? vol_max e) then
    (0, {| mono := mono e; pswitch := pswitch e;
           pswitch_joined := pswitch_joined e;
           vol_min := vol_min e; vol_max := vol_max e;
           vol_left :=
             match c with
             | SND_MIXER_SCHN_FRONT_LEFT => v
             | _ => vol_left e
             end;
           vol_right :=
             match c with
             | SND_MIXER_SCHN_FRONT_RIGHT => v
             | _ => vol_right e
             end;
           sw_left := sw_left e; sw_right := sw_right e |})
  else (0, e).

Definition simple_set_switch (e : simple_selem) (c : channel) (v : Z)
  : Z * simple_selem :=
  if negb (pswitch e) then (- EINVAL, e)
  else if has_channel e c then
    let c := if pswitch_joined e then SND_MIXER_SCHN_FRONT_LEFT else c in
    let on := negb (v =? 0) in
    (0, {| mono := mono e; pswitch := pswitch e;
           pswitch_joined := pswitch_joined e;
           vol_min := vol_min e; vol_max := vol_max e;
           vol_left := vol_left e; vol_right := vol_right e;
           sw_left :=
             match c with
             | SND_MIXER_SCHN_FRONT_LEFT => on
             | _ => sw_left e
             end;
           sw_right :=
             match c with
             | SND_MIXER_SCHN_FRONT_RIGHT => on
             | _ => sw_right e
             end |})
  else (0, e).

#[export] Instance simple_selem_ops : Selem simple_selem := {
  snd_mixer_selem_set_playback_volume_range := simple_set_range;
  snd_mixer_selem_is_playback_mono := mono;
  snd_mixer_selem_has_playback_switch := pswitch;
  snd_mixer_selem_has_playback_switch_joined := pswitch_joined;
  snd_mixer_selem_get_playback_volume := simple_get_volume;
  snd_mixer_selem_set_playback_volume := simple_set_volume;
  snd_mixer_selem_set_playback_switch := simple_set_switch;
  snd_mixer_handle_events := fun e => (0, e)
}.

(** The plugin asks for the range 0..100 when it opens the mixer; an
    element it holds has that range. *)
Definition mixer_ok (m : mixer_state simple_selem) : Prop :=
  initted m = true ->
  forall e, alsa_mixer m = Some e -> vol_min e = 0 /\ vol_max e = 100.

(** [alsa_init] and the zero-initialised statics. *)
Definition mixer_initial : mixer_state simple_selem :=
  {| initted := false; alsa_mixer := None |}.

(** A mono element with a mute switch, as the sound card offers it before
    the plugin sets its range, and a system in which opening the mixer
    finds it. *)
Definition demo_selem : simple_selem :=
  {| mono := true; pswitch := true; pswitch_joined := false;
     vol_min := 0; vol_max := 31; vol_left := 12; vol_right := 0;
     sw_left := false; sw_right := false |}.

Definition demo_mixer_answers : mixer_answers simple_selem :=
  {| alsa_config_mixer_element := true;
     mixer_open_error := 0; mixer_attach_error := 0;
     selem_register_error := 0; mixer_load_error := 0;
     find_selem := Some demo_selem |}.

End Mixer.

(** The bytes the calls of [alsa_write_audio] in an interleaving were
    given, in the order of the calls. *)
Fixpoint written_by (tr : list event) : list byte :=
  match tr with
  | [] => []
  | Write_audio _ data :: tr' => data ++ written_by tr'
  | _ :: tr' => written_by tr'
  end.

Definition is_flush (e : event) : bool :=
  match e with
  | Flush _ => true
  | _ => false
  end.

(** The chunks handed to [snd_pcm_writei], whole and in the order of the
    calls. *)
Fixpoint handed (log : list pcm_call) : list byte :=
  match log with
  | [] => []
  | Pcm_writei chunk _ :: log' => chunk ++ handed log'
  | _ :: log' => handed log'
  end.

(** The chunk the pump has handed to the device and not yet heard about. *)
Definition in_flight (p : pump_pc) : list byte :=
  match p with
  | PumpWriting _ chunk => chunk
  | _ => []
  end.

(** Every device write of the interleaving, run from [s], takes all the
    frames it is offered. *)
Fixpoint whole_writes (cfg : config) (tr : list event) (s : state) : bool :=
  match tr with
  | [] => true
  | e :: tr' =>
      match e, pump_thread s with
      | Pump_written written _, PumpWriting frames _ => written =? frames
      | _, _ => true
      end &&
      match step cfg e s with
      | Some s' => whole_writes cfg tr' s'
      | None => true
      end
  end.

(** What an event of the caller or of [alsa_pause] leaves alone. *)
Definition same_feed (s s' : state) : Prop :=
  handed (pcm_log s') = handed (pcm_log s) /\
  played s' = played s /\ pump_thread s' = pump_thread s.

(** ** Kinds of events *)

(** [alsa_write_audio] cannot finish in this pass: it will wait, and it
    starts playback first when the session is paused. *)
Definition write_blocks (data : list byte) (s : state) : bool :=
  match (write_pass data s).2 with
  | [] => false
  | _ :: _ => true
  end.

(** The event reaches one of the two places that call [start_playback]:
    a write that has to wait, or a drain with data still waiting. *)
Definition restarts (e : event) (s : state) : bool :=
  match e, caller s with
  | Write_audio _ data, Idle => write_blocks data s
  | Wake _ , Writing rest => write_blocks rest s
  | Drain _, Idle => alsa_buffer_data_length s >? 0
  | Wake _, Draining => alsa_buffer_data_length s >? 0
  | _, _ => false
  end.

(** The event stores a new value in [alsa_paused_time]. *)
Definition resnapshots (e : event) : bool :=
  match e with
  | Flush _ => true
  | Pause pause _ => negb (pause =? 0)
  | _ => false
  end.

(** No event of the interleaving, run from [s], restarts playback or takes
    a new snapshot. *)
Fixpoint quiet (cfg : config) (tr : list event) (s : state) : bool :=
  match tr with
  | [] => true
  | e :: tr' =>
      negb (restarts e s) && negb (resnapshots e) &&
      match step cfg e s with
      | Some s' => quiet cfg tr' s'
      | None => true
      end
  end.

(** Events of the pump thread, and the waiting caller looking again. *)
Definition feeder_event (e : event) : bool :=
  match e with
  | Pump_turn | Pump_written _ _ | Wake _ => true
  | _ => false
  end.

(** The event assigns [alsa_time] outright. *)
Definition sets_time (e : event) : bool :=
  match e with
  | Flush _ | Set_written_time _ => true
  | _ => false
  end.

(** What holds from the first assignment of [alsa_flush (time)] until its
    caller goes on: the clock is set and frozen, and the call is either
    still waiting for the chunk in flight or has emptied the ring. *)
Definition flushed (time : Z) (s : state) : Prop :=
  alsa_time s = time * 1000 /\ alsa_paused s = true /\
  (caller s = Flushing \/
   (caller s = Idle /\ alsa_buffer_data_length s = 0 /\
    alsa_buffer_read_length s = 0)).

(** ** A small session for the examples

    Eight frames a second, two bytes a frame, a target buffer of 1000 ms
    and a hardware buffer of 4 frames: the ring gets 8 bytes. *)
Definition demo_cfg : config :=
  {| alsa_config_drain_workaround := false;
     alsa_config_drop_workaround := false;
     alsa_config_delay_workaround := false;
     output_buffer_size := 1000 |}.

Definition demo_answers : open_answers :=
  {| open_error := 0; hw_params_any_error := 0; set_access_error := 0;
     set_format_error := 0; set_channels_error := 0; set_rate_error := 0;
     set_buffer_time_max_error := 0; hw_params_error := 0;
     get_params_error := 0; get_params_frames := 4;
     negotiated_frame_bytes := 2; malloc_contents := fun _ => x00 |}.

Definition demo_open : state :=
  {| alsa_buffer := [x00; x00; x00; x00; x00; x00; x00; x00];
     alsa_buffer_length := 8;
     alsa_buffer_data_start := 0;
     alsa_buffer_data_length := 0;
     alsa_buffer_read_length := 0;
     alsa_rate := 8;
     frame_bytes := 2;
     alsa_time := 0;
     alsa_paused := true;
     alsa_paused_time := 0;
     pump_quit := false;
     pump_thread := PumpLoop;
     caller := Idle;
     pcm_log := [Pcm_set_buffer_time_max 500000];
     played := [];
     passed := [] |}.

(** Six bytes are written and drained, which leaves the ring empty with its
    start at offset 6; the next four bytes wrap around the end; one of the
    device writes fails with EPIPE and its chunk is offered again. *)
Definition demo_trace : list event :=
  [ Write_audio false [x01; x02; x03; x04; x05; x06];
    Drain false;
    Pump_turn; Pump_written 1 0;
    Pump_turn; Pump_written 1 0;
    Pump_turn; Pump_written 1 0;
    Wake false;
    Write_audio false [x07; x08; x09; x0a];
    Pump_turn; Pump_written 1 0;
    Pump_turn; Pump_written (-32) 0;
    Pump_turn; Pump_written 1 0 ].

(** The same session two seconds into a stream: the ring is full, the
    pump is inside [snd_pcm_writei] with one frame. *)
Definition demo_playing : state :=
  {| alsa_buffer := [x01; x02; x03; x04; x05; x06; x07; x08];
     alsa_buffer_length := 8;
     alsa_buffer_data_start := 0;
     alsa_buffer_data_length := 8;
     alsa_buffer_read_length := 2;
     alsa_rate := 8;
     frame_bytes := 2;
     alsa_time := 2000000;
     alsa_paused := false;
     alsa_paused_time := 0;
     pump_quit := false;
     pump_thread := PumpWriting 1 [x01; x02];
     caller := Idle;
     pcm_log := [Pcm_set_buffer_time_max 500000; Pcm_prepare;
                 Pcm_writei [x01; x02] 1];
     played := [];
     passed := [x01; x02; x03; x04; x05; x06; x07; x08] |}.

(** A successful status query that reports [delay] frames. *)
Definition status_ok (delay : Z) : pcm_status :=
  {| status_error := 0; status_delay := delay |}.

(** ** A session at 44100 Hz

    Four bytes a frame, a target buffer of 20 ms and a hardware buffer of
    441 frames (10 ms): the ring gets 441 frames, 1764 bytes.  A frame lasts
    22.67 microseconds at this rate, which [alsa_write_audio] adds to the
    clock as 22. *)
Definition cd_cfg : config :=
  {| alsa_config_drain_workaround := false;
     alsa_config_drop_workaround := false;
     alsa_config_delay_workaround := false;
     output_buffer_size := 20 |}.

Definition cd_answers : open_answers :=
  {| open_error := 0; hw_params_any_error := 0; set_access_error := 0;
     set_format_error := 0; set_channels_error := 0; set_rate_error := 0;
     set_buffer_time_max_error := 0; hw_params_error := 0;
     get_params_error := 0; get_params_frames := 441;
     negotiated_frame_bytes := 4; malloc_contents := fun _ => x00 |}.

(** ** Further notions *)

(** Events of the pump thread alone. *)
Definition pump_event (e : event) : bool :=
  match e with
  | Pump_turn | Pump_written _ _ => true
  | _ => false
  end.

(** Where the bytes given to [alsa_write_audio] are: played, waiting in
    the ring, or still with the blocked writer. *)
Definition delivery (s : state) : list byte :=
  played s ++ ring_contents s ++ pending (caller s).

(** The ring holds whole frames only. *)
Definition whole_frames (s : state) : Prop :=
  (frame_bytes s | alsa_buffer_length s) /\
  (frame_bytes s | alsa_buffer_data_start s) /\
  (frame_bytes s | alsa_buffer_data_length s).

(** The bounds of [pump] on a chunk leave room for a frame: a quarter of
    the ring holds one, and so does a hundredth of a second when the delay
    workaround is on. *)
Definition pump_can_feed (cfg : config) (s : state) : Prop :=
  4 * frame_bytes s <= alsa_buffer_length s /\
  (alsa_config_delay_workaround cfg = true -> 100 <= alsa_rate s).

(** The example session with a single byte, half a frame, in the ring and
    [alsa_drain] waiting for it. *)
Definition demo_partial : state :=
  {| alsa_buffer := [x01; x00; x00; x00; x00; x00; x00; x00];
     alsa_buffer_length := 8;
     alsa_buffer_data_start := 0;
     alsa_buffer_data_length := 1;
     alsa_buffer_read_length := 0;
     alsa_rate := 8;
     frame_bytes := 2;
     alsa_time := 0;
     alsa_paused := false;
     alsa_paused_time := 0;
     pump_quit := false;
     pump_thread := PumpLoop;
     caller := Draining;
     pcm_log := [Pcm_set_buffer_time_max 500000; Pcm_prepare];
     played := [];
     passed := [x01] |}.

(** The length [pump] settles on for its next chunk, before it tests it
    against 0. *)
Definition pump_length (cfg : config) (s : state) : Z :=
  let length :=
    snd_pcm_frames_to_bytes s
      (snd_pcm_bytes_to_frames s (cdiv (alsa_buffer_length s) 4)) in
  let length := MIN length (alsa_buffer_data_length s) in
  let length :=
    MIN length (alsa_buffer_length s - alsa_buffer_data_start s) in
  if alsa_config_delay_workaround cfg then
    MIN length (snd_pcm_frames_to_bytes s (cdiv (alsa_rate s) 100))
  else length.

(** A session in which the pump is free to feed the device whole frames. *)
Record feeding (cfg : config) (s : state) : Prop := {
  fd_ok : ring_ok s;
  fd_whole : whole_frames s;
  fd_feed : pump_can_feed cfg s;
  fd_quit : pump_quit s = false;
  fd_paused : alsa_paused s = false;
  fd_pump : pump_thread s = PumpLoop
}.

(** The same with the pump anywhere in its loop: at its head or inside
    [snd_pcm_writei]. *)
Record running (cfg : config) (s : state) : Prop := {
  rn_ok : ring_ok s;
  rn_whole : whole_frames s;
  rn_feed : pump_can_feed cfg s;
  rn_quit : pump_quit s = false;
  rn_paused : alsa_paused s = false;
  rn_pump : pump_thread s <> PumpExited
}.

(** ** A mixer element whose right channel cannot be read

    A stand-in for a faulty driver, for the error paths of
    [alsa_get_volume]: a stereo element holding one value, which it answers
    for the left channel; reading the right channel fails. *)
Module HalfMixer.

Import Mixer.

#[export] Instance half_selem : Selem Z := {
  snd_mixer_selem_set_playback_volume_range := fun e _ _ => (0, e);
  snd_mixer_selem_is_playback_mono := fun _ => false;
  snd_mixer_selem_has_playback_switch := fun _ => false;
  snd_mixer_selem_has_playback_switch_joined := fun _ => false;
  snd_mixer_selem_get_playback_volume := fun e c =>
    match c with
    | SND_MIXER_SCHN_FRONT_LEFT => (0, e)
    | SND_MIXER_SCHN_FRONT_RIGHT => (- EINVAL, 0)
    end;
  snd_mixer_selem_set_playback_volume := fun e c v =>
    match c with
    | SND_MIXER_SCHN_FRONT_LEFT => (0, v)
    | SND_MIXER_SCHN_FRONT_RIGHT => (0, e)
    end;
  snd_mixer_selem_set_playback_switch := fun e _ _ => (- EINVAL, e);
  snd_mixer_handle_events := fun e => (0, e)
}.

Definition half_mixer (v : Z) : mixer_state Z :=
  {| initted := true; alsa_mixer := Some v |}.

Definition no_answers : mixer_answers Z :=
  {| alsa_config_mixer_element := false;
     mixer_open_error := 0; mixer_attach_error := 0;
     selem_register_error := 0; mixer_load_error := 0;
     find_selem := None |}.

End HalfMixer.

(** ** A stereo element with a switch for each channel *)
Module StereoMixer.

Import Mixer.

Definition stereo_selem : simple_selem :=
  {| mono := false; pswitch := true; pswitch_joined := false;
     vol_min := 0; vol_max := 100; vol_left := 12; vol_right := 12;
     sw_left := true; sw_right := false |}.

Definition stereo_mixer : mixer_state simple_selem :=
  {| initted := true; alsa_mixer := Some stereo_selem |}.

End StereoMixer.

(** * Properties *)

(** ** C arithmetic *)

Lemma to_int_id z : int_range z -> to_int z = z.
Proof.
  unfold int_range, to_int. intros Hz.
  rewrite Z.mod_small by lia. lia.
Qed.

Lemma MIN_min a b : MIN a b = Z.min a b.
Proof. unfold MIN. destruct (Z.ltb_spec a b); lia. Qed.

Lemma MAX_max a b : MAX a b = Z.max a b.
Proof. unfold MAX. destruct (Z.gtb_spec a b); lia. Qed.

Lemma cmod_wrap x n :
  0 <= x < 2 * n ->
  cmod x n = if decide (x < n) then x else x - n.
Proof.
  intros Hx. unfold cmod. case_decide.
  - apply Z.rem_small. lia.
  - rewrite Z.rem_mod_nonneg by lia.
    symmetry. apply Z.mod_unique_pos with (q := 1); lia.
Qed.

Lemma cdiv_nonneg a b : 0 <= a -> 0 < b -> 0 <= cdiv a b.
Proof. intros. apply Z.quot_pos; lia. Qed.

Lemma cdiv_mul_le a b : 0 <= a -> 0 < b -> cdiv a b * b <= a.
Proof.
  intros. unfold cdiv. rewrite Z.mul_comm. apply Z.mul_quot_le; lia.
Qed.

Lemma CHECK_ok error : 0 <= error -> CHECK error = Some ().
Proof. unfold CHECK. destruct (Z.ltb_spec error 0); [lia | done]. Qed.

Lemma CHECK_failed error : error < 0 -> CHECK error = None.
Proof. unfold CHECK. destruct (Z.ltb_spec error 0); [done | lia]. Qed.

(** ** Circular windows *)

Section RingLists.

Context {A : Type}.
Implicit Types l k data : list A.

Lemma lookup_inserts_if l i k j :
  (j < length l)%nat ->
  list_inserts i k l !! j =
    if decide (i <= j < i + length k)%nat then k !! (j - i)%nat else l !! j.
Proof.
  intros Hj. case_decide.
  - by apply list_lookup_inserts.
  - destruct (decide (j < i)%nat).
    + by apply list_lookup_inserts_lt.
    + apply list_lookup_inserts_ge. lia.
Qed.

Lemma lookup_twice l j :
  (l ++ l) !! j =
    if decide (j < length l)%nat then l !! j else l !! (j - length l)%nat.
Proof.
  case_decide.
  - by apply lookup_app_l.
  - apply lookup_app_r. lia.
Qed.

Lemma length_window start n l :
  (start <= length l)%nat -> (n <= length l)%nat ->
  length (window start n l) = n.
Proof.
  intros. unfold window. rewrite length_take, length_drop, length_app. lia.
Qed.

Lemma lookup_window start n l i :
  window start n l !! i =
    if decide (i < n)%nat then
      if decide (start + i < length l)%nat then l !! (start + i)%nat
      else l !! (start + i - length l)%nat
    else None.
Proof.
  unfold window. by rewrite lookup_take, lookup_drop, lookup_twice.
Qed.

Lemma window_nil start l : window start 0 l = [].
Proof. done. Qed.

Lemma window_take start n c l :
  (c <= n)%nat -> take c (window start n l) = window start c l.
Proof.
  intros. unfold window. rewrite take_take. f_equal. lia.
Qed.

Lemma window_flat start c l :
  (start + c <= length l)%nat -> window start c l = take c (drop start l).
Proof.
  intros. unfold window. rewrite drop_app_le by lia.
  apply take_app_le. rewrite length_drop. lia.
Qed.

(** Taking [c] elements that do not wrap off the front of a window. *)
Lemma window_split start n c l :
  (c <= n)%nat -> (n <= length l)%nat -> (start + c <= length l)%nat ->
  window start n l =
    window start c l ++
    window (if decide (start + c < length l)%nat then start + c else 0)%nat
      (n - c) l.
Proof.
  intros Hc Hn Hs. apply list_eq. intros i.
  destruct (decide (i < c)%nat).
  - rewrite lookup_app_l by (rewrite length_window; lia).
    rewrite !lookup_window. repeat case_decide; try lia; done.
  - rewrite lookup_app_r by (rewrite length_window; lia).
    rewrite length_window by lia.
    rewrite !lookup_window. repeat case_decide; try lia; f_equal; lia.
Qed.

(** Writing [w] elements behind a window, where they fit without
    wrapping. *)
Lemma window_put_flat start n w l data :
  (start < length l)%nat -> (n + w <= length l)%nat ->
  (w <= length data)%nat ->
  let pos := (if decide (start + n < length l)%nat then start + n
              else start + n - length l)%nat in
  (pos + w <= length l)%nat ->
  window start (n + w) (list_inserts pos (take w data) l)
  = window start n l ++ take w data.
Proof.
  intros Hs Hn Hw pos Hpos. apply list_eq. intros i.
  assert (Hlen : length (take w data) = w) by (rewrite length_take; lia).
  rewrite lookup_window, length_inserts.
  destruct (decide (i < n)%nat) as [Hi|Hi].
  - rewrite lookup_app_l by (rewrite length_window; lia).
    rewrite lookup_window.
    subst pos. repeat case_decide; try lia;
      rewrite lookup_inserts_if by lia; rewrite Hlen;
      repeat case_decide; try lia; done.
  - rewrite lookup_app_r by (rewrite length_window; lia).
    rewrite length_window by lia.
    subst pos. repeat case_decide; try lia.
    all: try (symmetry; apply lookup_ge_None_2; lia).
    all: rewrite lookup_inserts_if by lia; rewrite Hlen;
      repeat case_decide; try lia; f_equal; lia.
Qed.

(** Writing [w] elements behind a window in two parts: up to the end of the
    array, and the rest from its beginning. *)
Lemma window_put_wrap start n w l data :
  (start + n < length l)%nat -> (n + w <= length l)%nat ->
  (w <= length data)%nat ->
  let part := (length l - (start + n))%nat in
  (part < w)%nat ->
  window start (n + w)
    (list_inserts 0 (take (w - part) (drop part data))
       (list_inserts (start + n) (take part data) l))
  = window start n l ++ take w data.
Proof.
  intros Hs Hn Hw part Hpart.
  pose proof (window_put_flat start n part l data) as H1.
  rewrite decide_True in H1 by lia. cbn zeta in H1.
  pose proof (window_put_flat start (n + part) (w - part)
                (list_inserts (start + n) (take part data) l)
                (drop part data)) as H2.
  rewrite length_inserts, decide_False in H2 by lia. cbn zeta in H2.
  replace (start + (n + part) - length l)%nat with 0%nat in H2 by lia.
  replace (n + part + (w - part))%nat with (n + w)%nat in H2 by lia.
  rewrite H2, H1; try (rewrite ?length_drop; lia).
  rewrite <- (assoc_L (++)), take_take_drop. do 2 f_equal. lia.
Qed.

End RingLists.

(** ** The ring under the plugin's operations *)

Lemma length_write_copy data writable s :
  length (write_copy data writable s) = length (alsa_buffer s).
Proof.
  unfold write_copy, memcpy. case_match; by rewrite !length_inserts.
Qed.

(** The copy of [alsa_write_audio] appends to the waiting bytes and
    touches nothing else of them. *)
Lemma window_write_copy data writable s :
  ring_ok s ->
  0 <= writable <= Z.of_nat (length data) ->
  writable <= alsa_buffer_length s - alsa_buffer_data_length s ->
  window (Z.to_nat (alsa_buffer_data_start s))
    (Z.to_nat (alsa_buffer_data_length s + writable))
    (write_copy data writable s)
  = ring_contents s ++ take (Z.to_nat writable) data.
Proof.
  intros [] Hw Hfree. unfold write_copy, ring_contents, memcpy.
  rewrite cmod_wrap by lia.
  rewrite Z2Nat.inj_add by lia.
  destruct (decide (alsa_buffer_data_start s + alsa_buffer_data_length s
                    < alsa_buffer_length s)) as [Hflat|Hwrapped].
  - destruct (Z.gtb_spec writable
                (alsa_buffer_length s -
                 (alsa_buffer_data_start s + alsa_buffer_data_length s))).
    + pose proof (window_put_wrap (Z.to_nat (alsa_buffer_data_start s))
                    (Z.to_nat (alsa_buffer_data_length s))
                    (Z.to_nat writable) (alsa_buffer s) data) as Hput.
      cbn zeta in Hput. rewrite <- Hput by lia. do 2 f_equal.
      * do 2 f_equal; lia.
      * f_equal; [lia | f_equal; lia].
    + pose proof (window_put_flat (Z.to_nat (alsa_buffer_data_start s))
                    (Z.to_nat (alsa_buffer_data_length s))
                    (Z.to_nat writable) (alsa_buffer s) data) as Hput.
      cbn zeta in Hput. rewrite decide_True in Hput by lia.
      rewrite <- Hput by lia. do 2 f_equal. lia.
  - rewrite Z.gtb_ltb. destruct (Z.ltb_spec
                (alsa_buffer_length s -
                 (alsa_buffer_data_start s + alsa_buffer_data_length s
                  - alsa_buffer_length s)) writable); [lia|].
    pose proof (window_put_flat (Z.to_nat (alsa_buffer_data_start s))
                  (Z.to_nat (alsa_buffer_data_length s))
                  (Z.to_nat writable) (alsa_buffer s) data) as Hput.
    cbn zeta in Hput. rewrite decide_False in Hput by lia.
    rewrite <- Hput by lia. do 2 f_equal. lia.
Qed.

(** [ring_ok] only looks at the ring, the format and the pump. *)
Lemma ring_ok_same s s' :
  alsa_buffer s' = alsa_buffer s ->
  alsa_buffer_length s' = alsa_buffer_length s ->
  alsa_buffer_data_start s' = alsa_buffer_data_start s ->
  alsa_buffer_data_length s' = alsa_buffer_data_length s ->
  alsa_buffer_read_length s' = alsa_buffer_read_length s ->
  alsa_rate s' = alsa_rate s ->
  frame_bytes s' = frame_bytes s ->
  pump_thread s' = pump_thread s ->
  ring_ok s -> ring_ok s'.
Proof.
  intros Hb Hl Hs Hd Hr Hrate Hf Hp [].
  split; unfold ring_contents in *;
    rewrite ?Hb, ?Hl, ?Hs, ?Hd, ?Hr, ?Hrate, ?Hf, ?Hp; done.
Qed.

Ltac ring_same := eapply ring_ok_same; [..|eassumption]; reflexivity.

Lemma length_ring_contents s :
  ring_ok s ->
  length (ring_contents s) = Z.to_nat (alsa_buffer_data_length s).
Proof.
  intros []. unfold ring_contents. apply length_window; lia.
Qed.

Lemma start_playback_ring_ok hw s : ring_ok s -> ring_ok (start_playback hw s).
Proof. intros. unfold start_playback. destruct hw; ring_same. Qed.

Lemma MIN_writable s (data : list byte) :
  ring_ok s ->
  let writable :=
    MIN (alsa_buffer_length s - alsa_buffer_data_length s)
      (Z.of_nat (length data)) in
  0 <= writable <= Z.of_nat (length data) /\
  writable <= alsa_buffer_length s - alsa_buffer_data_length s.
Proof. intros []. cbn zeta. rewrite MIN_min. lia. Qed.

Lemma write_pass_contents data s :
  ring_ok s ->
  ring_contents (write_pass data s).1 ++ (write_pass data s).2
  = ring_contents s ++ data.
Proof.
  intros Hok. destruct (MIN_writable s data Hok) as [Hw Hfree].
  unfold write_pass. cbn zeta. cbn [fst snd].
  unfold ring_contents at 1. cbn.
  rewrite window_write_copy by done.
  by rewrite <- (assoc_L (++)), take_drop.
Qed.

Lemma write_pass_ring_ok data s : ring_ok s -> ring_ok (write_pass data s).1.
Proof.
  intros Hok. destruct (MIN_writable s data Hok) as [Hw Hfree].
  pose proof (window_write_copy data _ s Hok Hw Hfree) as Hwin.
  pose proof (length_ring_contents s Hok) as Hlen.
  destruct Hok. unfold write_pass. cbn zeta. cbn [fst].
  split; cbn; try lia.
  - by rewrite length_write_copy.
  - destruct (pump_thread s) as [|frames chunk|]; try done.
    destruct ok_pump0 as (? & ? & ? & ? & ->).
    repeat split; try lia.
    unfold ring_contents at 2. cbn. rewrite Hwin.
    rewrite take_app_le by lia. done.
Qed.

Lemma write_loop_ring_ok hw data s : ring_ok s -> ring_ok (write_loop hw data s).
Proof.
  intros Hok%(write_pass_ring_ok data). unfold write_loop.
  destruct (write_pass data s) as [s1 [|b rest]]; cbn [fst] in Hok.
  - ring_same.
  - destruct (alsa_paused s1).
    + apply (start_playback_ring_ok hw) in Hok. ring_same.
    + ring_same.
Qed.

Lemma flush_wait_ring_ok s : ring_ok s -> ring_ok (flush_wait s).
Proof.
  intros Hok. unfold flush_wait.
  destruct (Z.eqb_spec (alsa_buffer_read_length s) 0) as [Hrd|Hrd];
    [|ring_same].
  destruct Hok. split; cbn; try lia.
  destruct (pump_thread s); [done | lia | done].
Qed.

Lemma pump_length_nonneg cfg s :
  ring_ok s ->
  let len :=
    snd_pcm_frames_to_bytes s
      (snd_pcm_bytes_to_frames s (cdiv (alsa_buffer_length s) 4)) in
  let len := MIN len (alsa_buffer_data_length s) in
  let len :=
    MIN len (alsa_buffer_length s - alsa_buffer_data_start s) in
  let len :=
    if alsa_config_delay_workaround cfg then
      MIN len (snd_pcm_frames_to_bytes s (cdiv (alsa_rate s) 100))
    else len in
  0 <= len /\ len <= alsa_buffer_data_length s /\
  len <= alsa_buffer_length s - alsa_buffer_data_start s.
Proof.
  intros []. cbn zeta. unfold snd_pcm_frames_to_bytes, snd_pcm_bytes_to_frames.
  assert (0 <= cdiv (cdiv (alsa_buffer_length s) 4) (frame_bytes s)
               * frame_bytes s).
  { apply Z.mul_nonneg_nonneg; [|lia].
    apply cdiv_nonneg; [|lia]. apply cdiv_nonneg; lia. }
  assert (0 <= cdiv (alsa_rate s) 100 * frame_bytes s).
  { apply Z.mul_nonneg_nonneg; [|lia]. apply cdiv_nonneg; lia. }
  destruct (alsa_config_delay_workaround cfg); rewrite !MIN_min; lia.
Qed.

Lemma pump_turn_ring_ok cfg s :
  pump_thread s = PumpLoop -> ring_ok s -> ring_ok (pump_turn cfg s).
Proof.
  intros Hpc Hok. pose proof (pump_length_nonneg cfg s Hok) as Hlen.
  unfold pump_turn. cbn zeta in *.
  destruct (pump_quit s).
  { destruct Hok. split; cbn; try done. by rewrite Hpc in ok_pump0. }
  destruct (alsa_paused s); [done|].
  set (length := if alsa_config_delay_workaround cfg then _ else _) in *.
  destruct (Z.eqb_spec length 0) as [|Hnz]; [done|].
  destruct Hlen as (Hl0 & Hl1 & Hl2).
  destruct Hok. split; cbn; try lia.
  unfold snd_pcm_frames_to_bytes, snd_pcm_bytes_to_frames. cbn.
  pose proof (cdiv_nonneg length (frame_bytes s)).
  pose proof (cdiv_mul_le length (frame_bytes s)).
  repeat split; try lia.
  unfold ring_contents. cbn.
  rewrite window_take, window_flat by lia. done.
Qed.

(** What [pump_written] does to the ring, with the number of bytes the
    device took made explicit. *)
Lemma pump_written_accepts chunk written recovered s frames :
  ring_ok s ->
  pump_thread s = PumpWriting frames chunk ->
  writei_answer frames written = true ->
  exists n,
    0 <= n <= frames * frame_bytes s /\
    n = (if written <? 0 then 0 else written) * frame_bytes s /\
    let s' := pump_written chunk written recovered s in
    alsa_buffer s' = alsa_buffer s /\
    alsa_buffer_length s' = alsa_buffer_length s /\
    alsa_buffer_data_start s' =
      (if decide (alsa_buffer_data_start s + n < alsa_buffer_length s)
       then alsa_buffer_data_start s + n else 0) /\
    alsa_buffer_data_length s' = alsa_buffer_data_length s - n /\
    alsa_buffer_read_length s' = 0 /\
    alsa_rate s' = alsa_rate s /\
    frame_bytes s' = frame_bytes s /\
    pump_thread s' = PumpLoop /\
    played s' = played s ++ take (Z.to_nat n) chunk.
Proof.
  intros [] Hpc Hans. rewrite Hpc in ok_pump0.
  destruct ok_pump0 as (Hrd & Hfr & Hfb & Hend & Hchunk).
  apply andb_true_iff in Hans as [Hlo%Z.leb_le Hhi%Z.leb_le].
  assert (frames <= frames * frame_bytes s) by nia.
  exists ((if written <? 0 then 0 else written) * frame_bytes s).
  assert (0 <= (if written <? 0 then 0 else written) * frame_bytes s
          <= frames * frame_bytes s) as Hn.
  { destruct (Z.ltb_spec written 0); nia. }
  split; [done|]. split; [done|].
  unfold pump_written. rewrite to_int_id by (unfold int_range; lia).
  cbn zeta.
  destruct (Z.ltb_spec written 0) as [Hneg|Hpos].
  - destruct (negb (pump_quit s) && negb (alsa_paused s)); cbn;
      unfold snd_pcm_frames_to_bytes; cbn;
      rewrite cmod_wrap by lia;
      (repeat split; try done; repeat case_decide; lia).
  - cbn. unfold snd_pcm_frames_to_bytes.
    rewrite cmod_wrap by lia.
    repeat split; try done. repeat case_decide; lia.
Qed.

Lemma pump_written_contents chunk written recovered s frames :
  ring_ok s ->
  pump_thread s = PumpWriting frames chunk ->
  writei_answer frames written = true ->
  let s' := pump_written chunk written recovered s in
  played s' ++ ring_contents s' = played s ++ ring_contents s.
Proof.
  intros Hok Hpc Hans.
  destruct (pump_written_accepts chunk written recovered s frames Hok Hpc Hans)
    as (n & Hn & _ & Hb & Hl & Hs & Hd & Hr & _ & _ & _ & Hplayed).
  cbn zeta. rewrite Hplayed. unfold ring_contents at 1. rewrite Hb, Hs, Hd.
  destruct Hok. rewrite Hpc in ok_pump0.
  destruct ok_pump0 as (Hrd & Hfr & Hfb & Hend & ->).
  rewrite take_take, Nat.min_l by lia.
  unfold ring_contents. rewrite window_take by lia.
  rewrite <- (assoc_L (++)). f_equal.
  rewrite (window_split (Z.to_nat (alsa_buffer_data_start s))
             (Z.to_nat (alsa_buffer_data_length s)) (Z.to_nat n)) by lia.
  f_equal. f_equal; [repeat case_decide; lia | lia].
Qed.

Lemma pump_written_ring_ok chunk written recovered s frames :
  ring_ok s ->
  pump_thread s = PumpWriting frames chunk ->
  writei_answer frames written = true ->
  ring_ok (pump_written chunk written recovered s).
Proof.
  intros Hok Hpc Hans.
  destruct (pump_written_accepts chunk written recovered s frames Hok Hpc Hans)
    as (n & Hn & _ & Hb & Hl & Hs & Hd & Hr & Hrate & Hf & Hp & _).
  cbn zeta in *. destruct Hok. rewrite Hpc in ok_pump0.
  destruct ok_pump0 as (Hrd & Hfr & Hfb & Hend & _).
  split; rewrite ?Hb, ?Hl, ?Hs, ?Hd, ?Hr, ?Hrate, ?Hf, ?Hp; try done; try lia.
  case_decide; lia.
Qed.

(** [step] at the events used below. *)
Lemma step_Flush cfg time s :
  caller s = Idle -> step cfg (Flush time) s = Some (alsa_flush cfg time s).
Proof. unfold step. by intros ->. Qed.

Lemma step_Write_audio cfg hw data s :
  caller s = Idle ->
  step cfg (Write_audio hw data) s = Some (alsa_write_audio hw data s).
Proof. unfold step. by intros ->. Qed.

Lemma step_Wake_Flushing cfg hw s :
  caller s = Flushing -> step cfg (Wake hw) s = Some (flush_wait s).
Proof. unfold step. by intros ->. Qed.

Lemma step_Pump_written cfg written recovered s frames chunk :
  pump_thread s = PumpWriting frames chunk ->
  writei_answer frames written = true ->
  step cfg (Pump_written written recovered) s
  = Some (pump_written chunk written recovered s).
Proof. unfold step. intros -> ->. by destruct (caller s). Qed.

Lemma step_Pump_written_inv cfg written recovered s s' :
  step cfg (Pump_written written recovered) s = Some s' ->
  exists frames chunk,
    pump_thread s = PumpWriting frames chunk /\
    writei_answer frames written = true /\
    s' = pump_written chunk written recovered s.
Proof.
  unfold step. intros Hstep.
  destruct (pump_thread s) as [|frames chunk|];
    try (destruct (caller s); by simplify_eq).
  destruct (writei_answer frames written) eqn:Hans;
    [|destruct (caller s); by simplify_eq].
  exists frames, chunk. destruct (caller s); by simplify_eq.
Qed.

Lemma step_Pump_turn_inv cfg s s' :
  step cfg Pump_turn s = Some s' ->
  pump_thread s = PumpLoop /\ s' = pump_turn cfg s.
Proof.
  unfold step. intros Hstep.
  destruct (caller s), (pump_thread s); by simplify_eq.
Qed.

Section Invariants.

Variable cfg : config.

Lemma drain_loop_ring_ok hw s : ring_ok s -> ring_ok (drain_loop cfg hw s).
Proof.
  intros Hok. unfold drain_loop. repeat case_match; try ring_same.
  apply (start_playback_ring_ok hw) in Hok. ring_same.
Qed.

Lemma alsa_flush_ring_ok time s : ring_ok s -> ring_ok (alsa_flush cfg time s).
Proof.
  intros Hok. unfold alsa_flush. apply flush_wait_ring_ok.
  case_match; ring_same.
Qed.

Lemma alsa_write_audio_ring_ok hw data s :
  ring_ok s -> ring_ok (alsa_write_audio hw data s).
Proof.
  intros Hok. unfold alsa_write_audio. apply write_loop_ring_ok. ring_same.
Qed.

Lemma alsa_pause_ring_ok pause st s : ring_ok s -> ring_ok (alsa_pause pause st s).
Proof. intros Hok. unfold alsa_pause. case_match; [done | ring_same]. Qed.

Lemma alsa_close_audio_ring_ok s : ring_ok s -> ring_ok (alsa_close_audio cfg s).
Proof. intros Hok. unfold alsa_close_audio. case_match; ring_same. Qed.

Lemma close_join_ring_ok s : ring_ok s -> ring_ok (close_join s).
Proof. intros Hok. unfold close_join. case_match; try done; ring_same. Qed.

Lemma step_ring_ok e s s' : step cfg e s = Some s' -> ring_ok s -> ring_ok s'.
Proof.
  intros Hstep Hok. unfold step in Hstep.
  destruct e; repeat case_match; simplify_eq;
    eauto using alsa_write_audio_ring_ok, drain_loop_ring_ok,
      alsa_flush_ring_ok, alsa_close_audio_ring_ok, write_loop_ring_ok,
      flush_wait_ring_ok, close_join_ring_ok, alsa_pause_ring_ok,
      pump_turn_ring_ok, pump_written_ring_ok.
  all: unfold alsa_set_written_time; ring_same.
Qed.

Lemma run_ring_ok tr s s' : run cfg tr s = Some s' -> ring_ok s -> ring_ok s'.
Proof.
  revert s. induction tr as [|e tr IH]; intros s Hrun Hok; cbn in Hrun.
  - by simplify_eq.
  - destruct (step cfg e s) as [s1|] eqn:Hstep; [|done].
    eauto using step_ring_ok.
Qed.

(** *** Byte accounting *)

Lemma write_loop_stream hw data s :
  ring_ok s ->
  let s' := write_loop hw data s in
  played s' = played s /\ passed s' = passed s /\
  ring_contents s' ++ pending (caller s') = ring_contents s ++ data.
Proof.
  intros Hok. pose proof (write_pass_contents data s Hok) as Hc.
  cbn zeta. unfold write_loop.
  assert (played (write_pass data s).1 = played s) as Hpl by done.
  assert (passed (write_pass data s).1 = passed s) as Hpa by done.
  destruct (write_pass data s) as [s1 [|b rest]]; cbn [fst snd] in *.
  - by rewrite <- Hc.
  - rewrite <- Hc. destruct (alsa_paused s1); [destruct hw|]; done.
Qed.

Lemma stream_ok_same s s' :
  passed s' = passed s -> played s' = played s ->
  ring_contents s' = ring_contents s ->
  pending (caller s') = pending (caller s) ->
  stream_ok s -> stream_ok s'.
Proof. unfold stream_ok. by intros -> -> -> ->. Qed.

Lemma drain_loop_stream_ok hw s :
  pending (caller s) = [] -> stream_ok s -> stream_ok (drain_loop cfg hw s).
Proof.
  intros Hp. apply stream_ok_same; unfold drain_loop;
    repeat case_match; try destruct hw; done.
Qed.

Lemma write_loop_stream_ok hw data s :
  ring_ok s ->
  passed s = played s ++ ring_contents s ++ data ->
  stream_ok (write_loop hw data s).
Proof.
  intros Hok Hst. destruct (write_loop_stream hw data s Hok) as (Hpl & Hpa & Hrc).
  unfold stream_ok. cbn zeta in *. by rewrite Hpl, Hpa, Hrc.
Qed.

Lemma write_loop_caller hw data s : caller (write_loop hw data s) <> Flushing.
Proof. unfold write_loop. repeat case_match; done. Qed.

Lemma drain_loop_caller hw s : caller (drain_loop cfg hw s) <> Flushing.
Proof. unfold drain_loop. repeat case_match; done. Qed.

Lemma alsa_pause_caller pause st s : caller (alsa_pause pause st s) = caller s.
Proof. unfold alsa_pause. case_match; done. Qed.

Lemma pump_turn_caller s : caller (pump_turn cfg s) = caller s.
Proof. unfold pump_turn. repeat case_match; done. Qed.

Lemma pump_written_caller chunk written recovered s :
  caller (pump_written chunk written recovered s) = caller s /\
  passed (pump_written chunk written recovered s) = passed s.
Proof.
  unfold pump_written. cbn zeta.
  destruct (to_int written <? 0);
    [destruct (negb (pump_quit s) && negb (alsa_paused s))|]; done.
Qed.

Lemma step_stream_ok e s s' :
  is_flush e = false -> caller s <> Flushing ->
  step cfg e s = Some s' ->
  ring_ok s -> stream_ok s ->
  stream_ok s' /\ caller s' <> Flushing.
Proof.
  intros Hnf Hc Hstep Hok Hst. unfold step in Hstep.
  destruct e; try done.
  - (* Write_audio *)
    destruct (caller s) eqn:Hcal; simplify_eq.
    split; [|apply write_loop_caller].
    unfold alsa_write_audio. apply write_loop_stream_ok; [ring_same|].
    unfold stream_ok in Hst. rewrite Hcal in Hst. cbn in *.
    unfold ring_contents in *. cbn.
    by rewrite Hst, app_nil_r, <- !(assoc_L (++)).
  - (* Drain *)
    destruct (caller s) eqn:Hcal; simplify_eq.
    split; [|apply drain_loop_caller].
    apply drain_loop_stream_ok; [by rewrite Hcal | done].
  - (* Close_audio *)
    destruct (caller s) eqn:Hcal; simplify_eq. split.
    + revert Hst. apply stream_ok_same; unfold alsa_close_audio;
        case_match; try done; by rewrite Hcal.
    + unfold alsa_close_audio. by case_match.
  - (* Wake *)
    destruct (caller s) eqn:Hcal; simplify_eq.
    + split; [|apply write_loop_caller].
      apply write_loop_stream_ok; [done|].
      unfold stream_ok in Hst. by rewrite Hcal in Hst.
    + split; [|apply drain_loop_caller].
      apply drain_loop_stream_ok; [by rewrite Hcal | done].
    + split.
      * revert Hst. apply stream_ok_same; unfold close_join;
          case_match; try done; by rewrite Hcal.
      * unfold close_join. case_match; cbn; by rewrite ?Hcal.
  - (* Pause *)
    assert (s' = alsa_pause pause st s) as ->
        by (destruct (caller s); by simplify_eq).
    clear Hstep. rewrite alsa_pause_caller. split; [|done].
    revert Hst. apply stream_ok_same; unfold alsa_pause; by case_match.
  - (* Set_written_time *)
    assert (s' = alsa_set_written_time time s) as ->
        by (destruct (caller s); by simplify_eq).
    done.
  - (* Pump_turn *)
    assert (s' = pump_turn cfg s) as ->
        by (destruct (caller s), (pump_thread s); by simplify_eq).
    clear Hstep. rewrite pump_turn_caller. split; [|done].
    revert Hst. apply stream_ok_same; unfold pump_turn;
      repeat case_match; done.
  - (* Pump_written *)
    destruct (pump_thread s) as [|frames chunk|] eqn:Hpc;
      try (destruct (caller s); by simplify_eq).
    destruct (writei_answer frames written) eqn:Hans;
      [|destruct (caller s); by simplify_eq].
    assert (s' = pump_written chunk written recovered s) as ->
        by (destruct (caller s); by simplify_eq).
    pose proof (pump_written_contents chunk written recovered s frames
                  Hok Hpc Hans) as Hrc.
    destruct (pump_written_caller chunk written recovered s) as [Hca Hpa].
    rewrite Hca. split; [|done]. unfold stream_ok in *. cbn zeta in Hrc.
    rewrite Hca, Hpa, Hst, !(assoc_L (++)). by rewrite Hrc.
Qed.

Lemma run_stream_ok tr s s' :
  Forall (fun e => is_flush e = false) tr ->
  caller s <> Flushing ->
  run cfg tr s = Some s' ->
  ring_ok s -> stream_ok s ->
  stream_ok s'.
Proof.
  intros Hnf. revert s.
  induction Hnf as [|e tr He Hnf IH]; intros s Hc Hrun Hok Hst; cbn in Hrun.
  - by simplify_eq.
  - destruct (step cfg e s) as [s1|] eqn:Hstep; [|done].
    destruct (step_stream_ok e s s1 He Hc Hstep Hok Hst).
    eauto using step_ring_ok.
Qed.

Lemma step_passed e s s' :
  step cfg e s = Some s' -> passed s' = passed s ++ written_by [e].
Proof.
  unfold step. intros Hstep.
  destruct e; repeat case_match; simplify_eq; cbn; rewrite ?app_nil_r;
    try done.
  - unfold alsa_write_audio, write_loop, write_pass. cbn zeta.
    repeat case_match; simplify_eq; try destruct hw_paused; done.
  - unfold alsa_drain, drain_loop. repeat case_match; try destruct hw_paused; done.
  - unfold alsa_flush, flush_wait. repeat case_match; done.
  - unfold alsa_close_audio. repeat case_match; done.
  - unfold write_loop, write_pass. cbn zeta.
    repeat case_match; simplify_eq; try destruct hw_paused; done.
  - unfold drain_loop. repeat case_match; try destruct hw_paused; done.
  - unfold flush_wait. repeat case_match; done.
  - unfold close_join. repeat case_match; done.
  - unfold alsa_pause. repeat case_match; done.
  - unfold alsa_pause. repeat case_match; done.
  - unfold alsa_pause. repeat case_match; done.
  - unfold alsa_pause. repeat case_match; done.
  - unfold alsa_pause. repeat case_match; done.
  - unfold pump_turn. repeat case_match; done.
  - apply pump_written_caller.
Qed.

End Invariants.

(** ** A freshly opened session *)

Lemma CHECK_bind {A} error (k : () -> option A) (x : A) :
  CHECK error ≫= k = Some x -> 0 <= error /\ k () = Some x.
Proof.
  unfold CHECK. destruct (Z.ltb_spec error 0); [done|]. by split.
Qed.

Lemma divisor_bind {A} d (k : () -> option A) (x : A) :
  divisor d ≫= k = Some x -> d <> 0 /\ k () = Some x.
Proof.
  unfold divisor. destruct (Z.eqb_spec d 0); [done|]. by split.
Qed.

Lemma divisor_ok d : d <> 0 -> divisor d = Some ().
Proof. unfold divisor. by intros ->%Z.eqb_neq. Qed.

Lemma alsa_open_audio_Some cfg a rate s :
  alsa_open_audio cfg a rate = Some s ->
  alsa_buffer_length s =
    to_int (cdiv (soft_buffer cfg (get_params_frames a) rate * rate) 1000
            * negotiated_frame_bytes a) /\
  length (alsa_buffer s) = Z.to_nat (alsa_buffer_length s) /\
  alsa_buffer_data_start s = 0 /\ alsa_buffer_data_length s = 0 /\
  alsa_buffer_read_length s = 0 /\
  alsa_rate s = rate /\ frame_bytes s = negotiated_frame_bytes a /\
  alsa_time s = 0 /\ alsa_paused s = true /\ alsa_paused_time s = 0 /\
  pump_quit s = false /\ pump_thread s = PumpLoop /\ caller s = Idle /\
  played s = [] /\ passed s = [].
Proof.
  unfold alsa_open_audio. intros Hopen.
  repeat apply CHECK_bind in Hopen as [_ Hopen].
  apply divisor_bind in Hopen as [_ Hopen].
  simplify_eq. repeat split.
  cbn [alsa_buffer alsa_buffer_length]. by rewrite length_map, length_seq.
Qed.

Lemma to_int_range z : int_range (to_int z).
Proof.
  unfold int_range, to_int.
  pose proof (Z.mod_pos_bound (z + 2 ^ 31) (2 ^ 32)). lia.
Qed.

Lemma alsa_open_audio_ok cfg a rate s :
  alsa_open_audio cfg a rate = Some s ->
  0 < rate -> 0 < negotiated_frame_bytes a -> 0 < alsa_buffer_length s ->
  ring_ok s /\ stream_ok s.
Proof.
  intros Hopen Hrate Hfb Hlen.
  destruct (alsa_open_audio_Some cfg a rate s Hopen)
    as (Hl & Hb & Hs & Hd & Hr & Hra & Hf & _ & _ & _ & _ & Hp & Hc & Hpl & Hpa).
  pose proof (to_int_range
                (cdiv (soft_buffer cfg (get_params_frames a) rate * rate) 1000
                 * negotiated_frame_bytes a)) as Hrange.
  rewrite <- Hl in Hrange. unfold int_range in Hrange.
  split.
  - split; rewrite ?Hs, ?Hd, ?Hr, ?Hra, ?Hf, ?Hp, ?Hb; try lia; done.
  - unfold stream_ok, ring_contents. by rewrite Hpl, Hpa, Hd, Hc.
Qed.

Lemma run_passed cfg tr s s' :
  run cfg tr s = Some s' -> passed s' = passed s ++ written_by tr.
Proof.
  revert s. induction tr as [|e tr IH]; intros s Hrun; cbn in Hrun.
  - simplify_eq. by rewrite app_nil_r.
  - destruct (step cfg e s) as [s1|] eqn:Hstep; [|done].
    rewrite (IH _ Hrun), (step_passed cfg _ _ _ Hstep).
    rewrite <- (assoc_L (++)). f_equal. cbn.
    destruct e; by rewrite ?app_nil_r.
Qed.

(** *** The chunks handed to the device *)

Lemma handed_app log log' : handed (log ++ log') = handed log ++ handed log'.
Proof.
  induction log as [|c log IH]; [done|].
  destruct c; cbn; rewrite ?IH; try done. by rewrite (assoc_L (++)).
Qed.

Ltac feed_same :=
  unfold same_feed; cbn; rewrite ?handed_app; cbn; rewrite ?app_nil_r;
  split_and!; reflexivity.

Lemma same_feed_trans s1 s2 s3 :
  same_feed s1 s2 -> same_feed s2 s3 -> same_feed s1 s3.
Proof.
  unfold same_feed. intros (? & ? & ?) (? & ? & ?). split_and!; congruence.
Qed.

Lemma start_playback_feed hw s : same_feed s (start_playback hw s).
Proof. unfold start_playback. destruct hw; feed_same. Qed.

Lemma write_loop_feed hw data s : same_feed s (write_loop hw data s).
Proof.
  unfold write_loop.
  assert (same_feed s (write_pass data s).1) as Hp by feed_same.
  destruct (write_pass data s) as [s1 [|b rest]]; cbn [fst] in Hp.
  - eapply same_feed_trans; [exact Hp|]. feed_same.
  - eapply same_feed_trans; [exact Hp|].
    destruct (alsa_paused s1); [|feed_same].
    eapply same_feed_trans; [apply (start_playback_feed hw)|]. feed_same.
Qed.

Lemma drain_loop_feed cfg hw s : same_feed s (drain_loop cfg hw s).
Proof.
  unfold drain_loop. repeat case_match; try feed_same.
  eapply same_feed_trans; [apply (start_playback_feed hw)|]. feed_same.
Qed.

Lemma step_feed cfg e s s' :
  step cfg e s = Some s' ->
  match e with
  | Pump_turn | Pump_written _ _ | Flush _ => True
  | _ => same_feed s s'
  end.
Proof.
  intros Hstep. destruct e; try done; unfold step in Hstep.
  - destruct (caller s); simplify_eq.
    apply (write_loop_feed hw_paused data
             (set_io s (pcm_log s) (played s) (passed s ++ data))).
  - destruct (caller s); simplify_eq. apply drain_loop_feed.
  - destruct (caller s); simplify_eq. unfold alsa_close_audio.
    case_match; feed_same.
  - destruct (caller s); simplify_eq.
    + apply write_loop_feed.
    + apply drain_loop_feed.
    + unfold flush_wait. case_match; feed_same.
    + unfold close_join. case_match; feed_same.
  - assert (s' = alsa_pause pause st s) as ->
        by (destruct (caller s); by simplify_eq).
    clear Hstep. unfold alsa_pause. case_match; feed_same.
  - destruct (caller s); simplify_eq; feed_same.
Qed.

Lemma step_handed cfg e s s' :
  is_flush e = false ->
  whole_writes cfg [e] s = true ->
  step cfg e s = Some s' ->
  ring_ok s ->
  handed (pcm_log s) = played s ++ in_flight (pump_thread s) ->
  handed (pcm_log s') = played s' ++ in_flight (pump_thread s').
Proof.
  intros Hnf Hw Hstep Hok Hh.
  pose proof (step_feed cfg e s s' Hstep) as Hf.
  destruct e; try done;
    try (destruct Hf as (-> & -> & ->); exact Hh).
  - (* Pump_turn *)
    apply step_Pump_turn_inv in Hstep as [Hpc ->].
    rewrite Hpc in Hh. unfold pump_turn.
    repeat case_match; cbn; rewrite ?Hpc; try done.
    all: rewrite ?handed_app, ?Hh; cbn; by rewrite ?app_nil_r.
  - (* Pump_written *)
    apply step_Pump_written_inv in Hstep as (frames & chunk & Hpc & Hans & ->).
    cbn [whole_writes] in Hw. rewrite Hpc in Hw.
    apply andb_true_iff in Hw as [Hw _]. apply Z.eqb_eq in Hw as ->.
    pose proof (ok_pump s Hok) as Hp. rewrite Hpc in Hp.
    destruct Hp as (Hrd & Hfr & Hle & _ & Hchunk).
    pose proof (length_ring_contents s Hok) as Hlen.
    destruct (pump_written_accepts chunk frames recovered s frames
                Hok Hpc Hans)
      as (n & _ & Hn & _ & _ & _ & _ & _ & _ & _ & -> & ->).
    assert (pcm_log (pump_written chunk frames recovered s) = pcm_log s) as ->.
    { unfold pump_written. cbn zeta.
      rewrite to_int_id by (destruct Hok; unfold int_range; nia).
      destruct (Z.ltb_spec frames 0); [lia | done]. }
    rewrite Hh, Hpc. cbn. rewrite app_nil_r. f_equal.
    destruct (Z.ltb_spec frames 0); [lia|]. subst n.
    symmetry. apply take_ge. rewrite Hchunk, length_take.
    destruct Hok. lia.
Qed.

Lemma run_handed cfg tr s s' :
  Forall (fun e => is_flush e = false) tr ->
  whole_writes cfg tr s = true ->
  run cfg tr s = Some s' ->
  ring_ok s ->
  handed (pcm_log s) = played s ++ in_flight (pump_thread s) ->
  handed (pcm_log s') = played s' ++ in_flight (pump_thread s').
Proof.
  intros Hnf. revert s.
  induction Hnf as [|e tr He Hnf IH]; intros s Hw Hrun Hok Hh; cbn in Hrun.
  - by simplify_eq.
  - destruct (step cfg e s) as [s1|] eqn:Hstep; [|done].
    cbn [whole_writes] in Hw. rewrite Hstep in Hw.
    apply andb_true_iff in Hw as [Hw1 Hw].
    apply (IH s1 Hw Hrun (step_ring_ok cfg e s s1 Hstep Hok)).
    apply (step_handed cfg e s s1 He); try done.
    cbn [whole_writes]. by rewrite Hw1, Hstep.
Qed.

(** ** The byte stream *)

(** C1.  In a session opened with a positive rate, frame size and buffer
    length, after any interleaving of writes, drains, pauses, closes and
    pump activity without a flush, the bytes the device write accepted,
    followed by the bytes waiting in the ring and the bytes the blocked
    writer still holds, are exactly the bytes passed to [alsa_write_audio]
    in the order of the calls.  So nothing is lost, duplicated or reordered,
    and once the ring is empty and no write is blocked the device has taken
    exactly what was written.  A chunk whose write fails or is cut short is
    handed to the device again; where every write takes its chunk whole, the
    chunks handed over are, end to end, the bytes accepted and the chunk in
    flight. *)
Theorem write_stream_delivered cfg a rate s0 tr s :
  alsa_open_audio cfg a rate = Some s0 ->
  0 < rate -> 0 < negotiated_frame_bytes a -> 0 < alsa_buffer_length s0 ->
  Forall (fun e => is_flush e = false) tr ->
  run cfg tr s0 = Some s ->
  played s ++ ring_contents s ++ pending (caller s) = written_by tr /\
  (alsa_buffer_data_length s = 0 -> pending (caller s) = [] ->
   played s = written_by tr) /\
  (whole_writes cfg tr s0 = true ->
   handed (pcm_log s) = played s ++ in_flight (pump_thread s)).
Proof.
  intros Hopen Hrate Hfb Hlen Hnf Hrun.
  destruct (alsa_open_audio_ok cfg a rate s0 Hopen Hrate Hfb Hlen)
    as [Hok Hst].
  assert (caller s0 = Idle /\ passed s0 = [] /\
          handed (pcm_log s0) = played s0 ++ in_flight (pump_thread s0))
    as (Hc & Hpa & Hh).
  { unfold alsa_open_audio in Hopen.
    repeat apply CHECK_bind in Hopen as [_ Hopen].
    apply divisor_bind in Hopen as [_ Hopen]. by simplify_eq. }
  assert (caller s0 <> Flushing) as Hnfl by (by rewrite Hc).
  pose proof (run_stream_ok cfg tr s0 s Hnf Hnfl Hrun Hok Hst) as Hs.
  pose proof (run_passed cfg tr s0 s Hrun) as Hp.
  rewrite Hpa in Hp. cbn in Hp. unfold stream_ok in Hs.
  rewrite <- Hp, Hs. split; [done|]. split.
  - intros Hd Hpend. unfold ring_contents. rewrite Hd, Hpend.
    change (Z.to_nat 0) with 0%nat. by rewrite window_nil, !app_nil_r.
  - intros Hw. by apply (run_handed cfg tr s0 s).
Qed.

Lemma write_stream_delivered_witness :
  (exists s,
     run demo_cfg demo_trace demo_open = Some s /\
     played s = [x01; x02; x03; x04; x05; x06; x07; x08; x09; x0a] /\
     played s = written_by demo_trace) /\
  (exists s,
     run demo_cfg (take 9 demo_trace) demo_open = Some s /\
     handed (pcm_log s) = [x01; x02; x03; x04; x05; x06]).
Proof.
  split.
  - assert (exists s, run demo_cfg demo_trace demo_open = Some s /\
                      alsa_buffer_data_length s = 0 /\
                      pending (caller s) = [] /\
                      played s
                      = [x01; x02; x03; x04; x05; x06; x07; x08; x09; x0a])
      as (s & Hrun & Hd & Hp & Hpl).
    { eexists. split; [vm_compute; reflexivity|]. vm_compute. done. }
    exists s. split; [done|]. split; [done|].
    refine (proj1 (proj2 (write_stream_delivered demo_cfg demo_answers 8
                            demo_open demo_trace s _ _ _ _ _ Hrun)) Hd Hp).
    + vm_compute. reflexivity.
    + lia.
    + cbn. lia.
    + cbn. lia.
    + unfold demo_trace. repeat constructor.
  - assert (exists s, run demo_cfg (take 9 demo_trace) demo_open = Some s /\
                      played s ++ in_flight (pump_thread s)
                      = [x01; x02; x03; x04; x05; x06])
      as (s & Hrun & Hpl).
    { eexists. split; [vm_compute; reflexivity|]. vm_compute. done. }
    exists s. split; [done|]. rewrite <- Hpl.
    refine (proj2 (proj2 (write_stream_delivered demo_cfg demo_answers 8
                            demo_open (take 9 demo_trace) s _ _ _ _ _ Hrun))
              _).
    + vm_compute. reflexivity.
    + lia.
    + cbn. lia.
    + cbn. lia.
    + cbn. repeat constructor.
    + vm_compute. reflexivity.
Defined.

(** ** The playback clock *)

(** C2.  While the session is not paused and the device reports its delay,
    [alsa_output_time] is the written time minus the time taken by the
    frames still ahead (those in the ring that are not in flight, plus the
    delay the hardware reports, times 1,000,000 over the rate), divided by
    1000 to give milliseconds and returned as an [int]. *)
Theorem output_time_not_paused st s :
  alsa_paused s = false ->
  0 <= status_error st ->
  let queued := alsa_buffer_data_length s - alsa_buffer_read_length s in
  let ahead :=
    cdiv ((snd_pcm_bytes_to_frames s queued + status_delay st) * 1000000)
      (alsa_rate s) in
  let ms := cdiv (alsa_time s - ahead) 1000 in
  alsa_output_time st s = to_int ms /\
  (int_range ms -> alsa_output_time st s = ms).
Proof.
  intros Hp Hst. cbn zeta. unfold alsa_output_time, real_output_time.
  rewrite Hp, (CHECK_ok _ Hst).
  split; [done|]. intros Hr. by apply to_int_id.
Qed.

Lemma output_time_not_paused_witness :
  alsa_output_time (status_ok 5) demo_playing = 1000.
Proof.
  refine (proj2 (output_time_not_paused (status_ok 5) demo_playing _ _) _).
  - reflexivity.
  - cbn. lia.
  - vm_compute. split; [discriminate | reflexivity].
Defined.

(** When [snd_pcm_status] fails there is no delay to use and the answer
    is 0. *)
Lemma output_time_status_failed st s :
  alsa_paused s = false -> status_error st < 0 -> alsa_output_time st s = 0.
Proof.
  intros Hp Hst. unfold alsa_output_time, real_output_time.
  by rewrite Hp, (CHECK_failed _ Hst).
Qed.

(** *** What keeps the snapshot *)

Lemma write_pass_clock data s :
  alsa_paused (write_pass data s).1 = alsa_paused s /\
  alsa_paused_time (write_pass data s).1 = alsa_paused_time s.
Proof. done. Qed.

Lemma write_loop_quiet hw data s :
  write_blocks data s = false ->
  alsa_paused (write_loop hw data s) = alsa_paused s /\
  alsa_paused_time (write_loop hw data s) = alsa_paused_time s.
Proof.
  unfold write_blocks, write_loop. intros Hb.
  destruct (write_pass_clock data s) as [Hp Ht].
  destruct (write_pass data s) as [s1 [|b rest]]; [|done]. done.
Qed.

Lemma write_loop_restarts hw data s :
  write_blocks data s = true -> alsa_paused (write_loop hw data s) = false.
Proof.
  unfold write_blocks, write_loop. intros Hb.
  destruct (write_pass data s) as [s1 [|b rest]]; [done|].
  destruct (alsa_paused s1) eqn:Hp; [by destruct hw | done].
Qed.

Lemma drain_loop_quiet cfg hw s :
(alsa_buffer_data_length s >? 0) = false ->
  alsa_paused (drain_loop cfg hw s) = alsa_paused s /\
  alsa_paused_time (drain_loop cfg hw s) = alsa_paused_time s.
Proof. unfold drain_loop. intros ->. by case_match. Qed.

Lemma drain_loop_restarts cfg hw s :
(alsa_buffer_data_length s >? 0) = true ->
  alsa_paused (drain_loop cfg hw s) = false.
Proof.
  unfold drain_loop. intros ->.
  destruct (alsa_paused s) eqn:Hp; [by destruct hw | done].
Qed.

Lemma pump_written_clock chunk written recovered s :
  alsa_paused (pump_written chunk written recovered s) = alsa_paused s /\
  alsa_paused_time (pump_written chunk written recovered s)
    = alsa_paused_time s /\
  alsa_time (pump_written chunk written recovered s) = alsa_time s.
Proof.
  unfold pump_written. cbn zeta.
  destruct (to_int written <? 0);
    [destruct (negb (pump_quit s) && negb (alsa_paused s))|]; done.
Qed.

Lemma step_quiet cfg e s s' :
  step cfg e s = Some s' ->
  restarts e s = false -> resnapshots e = false ->
  alsa_paused s' = alsa_paused s /\
  alsa_paused_time s' = alsa_paused_time s.
Proof.
  unfold step, restarts. intros Hstep Hr Hn.
  destruct e; try done.
  - destruct (caller s); simplify_eq.
    exact (write_loop_quiet hw_paused data
             (set_io s (pcm_log s) (played s) (passed s ++ data)) Hr).
  - destruct (caller s); simplify_eq. by apply drain_loop_quiet.
  - destruct (caller s); simplify_eq.
    unfold alsa_close_audio. by case_match.
  - destruct (caller s); simplify_eq.
    + by apply write_loop_quiet.
    + by apply drain_loop_quiet.
    + unfold flush_wait. by case_match.
    + unfold close_join. by case_match.
  - cbn in Hn. apply negb_false_iff in Hn.
    assert (s' = s) as ->; [|done].
    unfold alsa_pause in Hstep. rewrite Hn in Hstep.
    destruct (caller s); by simplify_eq.
  - destruct (caller s); by simplify_eq.
  - destruct (caller s), (pump_thread s); simplify_eq;
      unfold pump_turn; by repeat case_match.
  - destruct (pump_thread s) as [|frames chunk|];
      try (destruct (caller s); by simplify_eq).
    destruct (writei_answer frames written);
      [|destruct (caller s); by simplify_eq].
    destruct (pump_written_clock chunk written recovered s) as (? & ? & _).
    destruct (caller s); by simplify_eq.
Qed.

Lemma step_restarts cfg e s s' :
  step cfg e s = Some s' -> restarts e s = true -> alsa_paused s' = false.
Proof.
  unfold step, restarts. intros Hstep Hr.
  destruct e; try (destruct (caller s); done).
  - destruct (caller s); simplify_eq.
    exact (write_loop_restarts hw_paused data
             (set_io s (pcm_log s) (played s) (passed s ++ data)) Hr).
  - destruct (caller s); simplify_eq. by apply drain_loop_restarts.
  - destruct (caller s); simplify_eq.
    + by apply write_loop_restarts.
    + by apply drain_loop_restarts.
Qed.

Lemma run_quiet cfg tr s s' :
  quiet cfg tr s = true -> run cfg tr s = Some s' ->
  alsa_paused s' = alsa_paused s /\
  alsa_paused_time s' = alsa_paused_time s.
Proof.
  revert s. induction tr as [|e tr IH]; intros s Hq Hrun; cbn in *.
  - by simplify_eq.
  - destruct (step cfg e s) as [s1|] eqn:Hstep; [|done].
    apply andb_true_iff in Hq as [[Hr%negb_true_iff Hn%negb_true_iff]
                                    %andb_true_iff Hq].
    destruct (step_quiet cfg e s s1 Hstep Hr Hn) as [<- <-]. by apply IH.
Qed.

(** *** Pause *)

(** C3, as the code has it.  After [alsa_pause] with a non-zero argument,
    [alsa_output_time] answers the snapshot taken at that moment, whatever
    the device reports, through every interleaving of pump activity, writes
    that fit, [alsa_set_written_time] and [alsa_pause (0)].  The freeze
    ends when a write that has to wait or a drain with data waiting calls
    [start_playback]; [alsa_pause (0)] does not end it. *)
Theorem pause_freezes_output_time cfg pause st s tr s' :
  pause <> 0 ->
  quiet cfg tr (alsa_pause pause st s) = true ->
  run cfg tr (alsa_pause pause st s) = Some s' ->
  (forall st', alsa_output_time st' s' = real_output_time st s) /\
  (forall e s'', restarts e s' = true -> step cfg e s' = Some s'' ->
     alsa_paused s'' = false).
Proof.
  intros Hp Hq Hrun. split.
  - intros st'. destruct (run_quiet cfg tr _ s' Hq Hrun) as [Hpa Hpt].
    unfold alsa_output_time. rewrite Hpa, Hpt. unfold alsa_pause.
    apply Z.eqb_neq in Hp. by rewrite Hp.
  - intros e s'' Hr Hstep. by eapply step_restarts.
Qed.

Lemma pause_freezes_output_time_witness :
  exists s',
    run demo_cfg
      [Pause 0 (status_ok 5); Pump_written 1 0; Pump_turn;
       Set_written_time 7; Write_audio false [x09; x0a]]
      (alsa_pause 1 (status_ok 5) demo_playing) = Some s' /\
    alsa_output_time (status_ok 0) s' = 1000 /\
    alsa_output_time (status_ok 13) s' = 1000.
Proof.
  eexists. split; [vm_compute; reflexivity|].
  match goal with |- alsa_output_time _ ?s' = _ /\ _ =>
    pose proof (proj1 (pause_freezes_output_time demo_cfg 1 (status_ok 5)
                         demo_playing
                         [Pause 0 (status_ok 5); Pump_written 1 0; Pump_turn;
                          Set_written_time 7; Write_audio false [x09; x0a]]
                         s' ltac:(lia) ltac:(vm_compute; reflexivity)
                         ltac:(vm_compute; reflexivity))) as H
  end.
  split; rewrite H; vm_compute; reflexivity.
Defined.

(** C3 as stated fails: after [alsa_pause (1)] and then [alsa_pause (0)]
    the session is still paused, the device has not been asked to resume,
    and [alsa_output_time] keeps answering the snapshot (1000 ms) while the
    position computed from the device would be 1625 ms or 0 ms. *)
Lemma pause_false_does_not_resume :
  let s1 := alsa_pause 1 (status_ok 5) demo_playing in
  let s2 := alsa_pause 0 (status_ok 5) s1 in
  alsa_paused s2 = true /\
  pcm_log s2 = pcm_log s1 /\
  alsa_output_time (status_ok 0) s2 = 1000 /\
  real_output_time (status_ok 0) s2 = 1625 /\
  alsa_output_time (status_ok 13) s2 = 1000 /\
  real_output_time (status_ok 13) s2 = 0.
Proof. vm_compute. repeat split. Qed.

(** *** Flush *)

(** C10, as the code has it.  [alsa_flush (time)] leaves the session
    paused with the snapshot [time]: from its first critical section on
    (while it waits for the chunk in flight and after it has returned)
    [alsa_output_time] answers [time], through every interleaving of pump
    activity, writes that fit, [alsa_set_written_time] and [alsa_pause (0)].
    The freeze ends when a write that has to wait or a drain with data
    waiting calls [start_playback], which clears the pause; and the answer
    changes without any restart when [alsa_pause] with a non-zero argument
    or another [alsa_flush] stores a new snapshot. *)
Theorem flush_freezes_output_time cfg time s s1 tr s' :
  step cfg (Flush time) s = Some s1 ->
  quiet cfg tr s1 = true ->
  run cfg tr s1 = Some s' ->
  alsa_paused s' = true /\ alsa_paused_time s' = time /\
  (forall st, alsa_output_time st s' = time) /\
  (forall e s'', restarts e s' = true -> step cfg e s' = Some s'' ->
     alsa_paused s'' = false).
Proof.
  intros Hfl Hq Hrun.
  destruct (run_quiet cfg tr s1 s' Hq Hrun) as [Hpa Hpt].
  assert (alsa_paused s1 = true /\ alsa_paused_time s1 = time) as [Hp1 Ht1].
  { unfold step in Hfl. destruct (caller s); simplify_eq.
    unfold alsa_flush, flush_wait. by repeat case_match. }
  rewrite Hp1 in Hpa. rewrite Ht1 in Hpt.
  repeat split; try done.
  - intros st. unfold alsa_output_time. by rewrite Hpa.
  - intros e s'' Hr Hstep. by eapply step_restarts.
Qed.

Lemma flush_freezes_output_time_witness :
  exists s1 s',
    step demo_cfg (Flush 5000) demo_playing = Some s1 /\
    run demo_cfg
      [Pump_written 1 0; Wake false; Pump_turn;
       Write_audio false [x09; x0a]; Pause 0 (status_ok 3)] s1 = Some s' /\
    caller s' = Idle /\
    alsa_output_time (status_ok 3) s' = 5000.
Proof.
  eexists. eexists.
  split; [vm_compute; reflexivity|].
  split; [vm_compute; reflexivity|].
  split; [reflexivity|].
  refine (proj1 (proj2 (proj2 (flush_freezes_output_time demo_cfg 5000
            demo_playing _
            [Pump_written 1 0; Wake false; Pump_turn;
             Write_audio false [x09; x0a]; Pause 0 (status_ok 3)] _ _ _ _)))
          (status_ok 3)).
  - vm_compute. reflexivity.
  - vm_compute. reflexivity.
  - vm_compute. reflexivity.
Defined.

(** C10 as stated fails: no write has to wait and nothing is drained, yet
    the output time moves.  After [alsa_flush (5000)] two writes of one
    frame each fit the ring and leave the answer at 5000; [alsa_pause (1)]
    then stores what [real_output_time] computes, with the device reporting
    no delay: the clock stands at 5000044 microseconds, the two frames
    waiting count for 45, and the answer is 4999.  The session is paused
    throughout and [start_playback] is never called. *)
Lemma pause_after_flush_moves_output_time :
  let writes :=
    [Write_audio false [x01; x02; x03; x04];
     Write_audio false [x05; x06; x07; x08]] in
  exists s0 s1 s2 s3,
    alsa_open_audio cd_cfg cd_answers 44100 = Some s0 /\
    step cd_cfg (Flush 5000) s0 = Some s1 /\
    caller s1 = Idle /\
    run cd_cfg writes s1 = Some s2 /\
    quiet cd_cfg writes s1 = true /\
    caller s2 = Idle /\
    alsa_output_time (status_ok 0) s2 = 5000 /\
    restarts (Pause 1 (status_ok 0)) s2 = false /\
    step cd_cfg (Pause 1 (status_ok 0)) s2 = Some s3 /\
    alsa_paused s3 = true /\
    pcm_log s3 = [Pcm_set_buffer_time_max 10000; Pcm_drop; Pcm_pause 1] /\
    alsa_time s3 = 5000044 /\
    alsa_output_time (status_ok 0) s3 = 4999.
Proof.
  cbn zeta. eexists. eexists. eexists. eexists.
  do 9 (split; [vm_compute; reflexivity|]).
  vm_compute. repeat split.
Qed.

Lemma alsa_flush_flushed cfg time s :
  caller s = Idle -> flushed time (alsa_flush cfg time s).
Proof.
  intros Hc. unfold flushed, alsa_flush, flush_wait.
  destruct (alsa_config_drop_workaround cfg); cbn;
    destruct (Z.eqb_spec (alsa_buffer_read_length s) 0); cbn; naive_solver.
Qed.

Lemma step_flushed cfg time e s s' :
  feeder_event e = true ->
  step cfg e s = Some s' ->
  ring_ok s -> flushed time s -> flushed time s'.
Proof.
  unfold flushed. intros Hfe Hstep Hok (Ht & Hp & Hc).
  destruct e; try done.
  - (* Wake *)
    destruct Hc as [Hc | (Hc & _)].
    + rewrite (step_Wake_Flushing _ _ _ Hc) in Hstep. simplify_eq.
      unfold flush_wait.
      destruct (Z.eqb_spec (alsa_buffer_read_length s) 0); cbn; naive_solver.
    + unfold step in Hstep. by rewrite Hc in Hstep.
  - (* Pump_turn *)
    apply step_Pump_turn_inv in Hstep as [_ ->].
    unfold pump_turn. rewrite Hp. by destruct (pump_quit s).
  - (* Pump_written *)
    apply step_Pump_written_inv in Hstep as (frames & chunk & Hpc & _ & ->).
    destruct (pump_written_clock chunk written recovered s) as (-> & _ & ->).
    destruct (pump_written_caller chunk written recovered s) as [-> _].
    repeat split; try done.
    destruct Hc as [Hc | (Hc & _ & Hrd)]; [by left|].
    destruct Hok. rewrite Hpc in ok_pump0. lia.
Qed.

Lemma run_flushed cfg time tr s s' :
  forallb feeder_event tr = true ->
  run cfg tr s = Some s' ->
  ring_ok s -> flushed time s -> flushed time s'.
Proof.
  revert s. induction tr as [|e tr IH]; intros s Hfe Hrun Hok Hfl; cbn in *.
  - by simplify_eq.
  - apply andb_true_iff in Hfe as [He Hfe].
    destruct (step cfg e s) as [s1|] eqn:Hstep; [|done].
    eauto using step_flushed, step_ring_ok.
Qed.

Lemma alsa_flush_pcs cfg time s :
  pump_thread (alsa_flush cfg time s) = pump_thread s /\
  alsa_buffer_read_length (alsa_flush cfg time s) = alsa_buffer_read_length s /\
  (alsa_buffer_read_length s = 0 -> caller (alsa_flush cfg time s) = Idle) /\
  (alsa_buffer_read_length s <> 0 ->
   caller (alsa_flush cfg time s) = Flushing).
Proof.
  unfold alsa_flush, flush_wait.
  destruct (alsa_config_drop_workaround cfg); cbn;
    destruct (Z.eqb_spec (alsa_buffer_read_length s) 0); cbn; naive_solver.
Qed.

Lemma alsa_written_time_ms time s :
  int_range time -> alsa_time s = time * 1000 -> alsa_written_time s = time.
Proof.
  intros Hr Ht. unfold alsa_written_time, cdiv. rewrite Ht.
  rewrite Z.quot_mul by lia. by apply to_int_id.
Qed.

(** C4.  [alsa_flush (time)] returns, at the latest when the device write
    in flight has returned, and when its caller goes on
    [alsa_written_time] answers [time] and the ring holds no data. *)
Theorem flush_sets_written_time cfg time s :
  ring_ok s -> caller s = Idle -> int_range time ->
  (exists wait s',
     forallb feeder_event wait = true /\
     run cfg (Flush time :: wait) s = Some s' /\ caller s' = Idle) /\
  (forall wait s',
     forallb feeder_event wait = true ->
     run cfg (Flush time :: wait) s = Some s' ->
     caller s' = Idle ->
     alsa_written_time s' = time /\ alsa_buffer_data_length s' = 0).
Proof.
  intros Hok Hc Hr. split.
  - destruct (alsa_flush_pcs cfg time s) as (Hp1 & Hr1 & Hidle & Hwait).
    destruct (decide (alsa_buffer_read_length s = 0)) as [Hrd|Hrd].
    + exists [], (alsa_flush cfg time s). cbn [run forallb].
      rewrite (step_Flush _ _ _ Hc). auto.
    + pose proof (ok_pump s Hok) as Hp.
      destruct (pump_thread s) as [|frames chunk|] eqn:Hpc; try done.
      destruct Hp as (_ & Hfr & _).
      assert (writei_answer frames 0 = true) as Hans.
      { unfold writei_answer. apply andb_true_iff.
        split; [done | by apply Z.leb_le]. }
      set (s1 := alsa_flush cfg time s) in *.
      set (s2 := pump_written chunk 0 0 s1).
      exists [Pump_written 0 0; Wake false], (flush_wait s2).
      assert (alsa_buffer_read_length s2 = 0) as Hrd2.
      { pose proof (alsa_flush_ring_ok cfg time s Hok) as Hok1.
        by destruct (pump_written_accepts chunk 0 0 s1 frames Hok1 Hp1 Hans)
          as (n & _ & _ & _ & _ & _ & _ & ? & _). }
      assert (caller s2 = Flushing) as Hc2.
      { subst s2. destruct (pump_written_caller chunk 0 0 s1) as [-> _]. auto. }
      split; [done|]. cbn [run].
      rewrite (step_Flush _ _ _ Hc).
      rewrite (step_Pump_written _ _ _ _ _ _ Hp1 Hans).
      rewrite (step_Wake_Flushing _ _ _ Hc2).
      split; [done|]. unfold flush_wait. by rewrite Hrd2.
  - intros wait s' Hfe Hrun Hc'. cbn [run] in Hrun.
    rewrite (step_Flush _ _ _ Hc) in Hrun.
    pose proof (run_flushed cfg time wait _ s' Hfe Hrun
                  (alsa_flush_ring_ok cfg time s Hok)
                  (alsa_flush_flushed cfg time s Hc)) as (Ht & _ & Hfl).
    split; [by apply alsa_written_time_ms|].
    destruct Hfl as [Hfl | (_ & Hd & _)]; [congruence | done].
Qed.

Lemma demo_playing_ok : ring_ok demo_playing.
Proof. split; cbn; try lia; done. Qed.

Lemma flush_sets_written_time_witness :
  exists s',
    run demo_cfg [Flush 5000; Pump_written 1 0; Wake false] demo_playing
      = Some s' /\
    caller s' = Idle /\
    alsa_written_time s' = 5000 /\ alsa_buffer_data_length s' = 0.
Proof.
  eexists. split; [vm_compute; reflexivity|]. split; [reflexivity|].
  apply (proj2 (flush_sets_written_time demo_cfg 5000 demo_playing
                  demo_playing_ok eq_refl ltac:(unfold int_range; lia))
           [Pump_written 1 0; Wake false]).
  - reflexivity.
  - vm_compute. reflexivity.
  - reflexivity.
Defined.

(** *** The written time *)

Lemma write_pass_time data s :
  ring_ok s -> alsa_time s <= alsa_time (write_pass data s).1.
Proof.
  intros Hok. destruct (MIN_writable s data Hok) as [Hw _].
  destruct Hok. unfold write_pass. cbn.
  unfold snd_pcm_bytes_to_frames. cbn.
  assert (0 <= cdiv (cdiv (MIN (alsa_buffer_length s - alsa_buffer_data_length s)
                             (Z.of_nat (length data))) (frame_bytes s)
                     * 1000000) (alsa_rate s)); [|lia].
  apply cdiv_nonneg; [|lia].
  apply Z.mul_nonneg_nonneg; [|lia]. apply cdiv_nonneg; lia.
Qed.

Lemma write_loop_time hw data s :
  ring_ok s -> alsa_time s <= alsa_time (write_loop hw data s).
Proof.
  intros Hok. pose proof (write_pass_time data s Hok) as Ht.
  unfold write_loop.
  destruct (write_pass data s) as [s1 [|b rest]]; cbn [fst] in Ht; [done|].
  destruct (alsa_paused s1); [by destruct hw | done].
Qed.

Lemma step_time cfg e s s' :
  sets_time e = false ->
  step cfg e s = Some s' ->
  ring_ok s -> alsa_time s <= alsa_time s'.
Proof.
  intros Hst Hstep Hok. destruct e; try done.
  - unfold step in Hstep. destruct (caller s); simplify_eq.
    apply (write_loop_time hw_paused data
             (set_io s (pcm_log s) (played s) (passed s ++ data))).
    ring_same.
  - unfold step in Hstep. destruct (caller s); simplify_eq.
    unfold alsa_drain, drain_loop.
    repeat case_match; try destruct hw_paused; cbn; lia.
  - unfold step in Hstep. destruct (caller s); simplify_eq.
    unfold alsa_close_audio. case_match; cbn; lia.
  - unfold step in Hstep. destruct (caller s); simplify_eq.
    + by apply write_loop_time.
    + unfold drain_loop.
      repeat case_match; try destruct hw_paused; cbn; lia.
    + unfold flush_wait. case_match; cbn; lia.
    + unfold close_join. case_match; cbn; lia.
  - assert (s' = alsa_pause pause st s) as ->
        by (unfold step in Hstep; destruct (caller s); by simplify_eq).
    unfold alsa_pause. case_match; cbn; lia.
  - apply step_Pump_turn_inv in Hstep as [_ ->].
    unfold pump_turn. repeat case_match; cbn; lia.
  - apply step_Pump_written_inv in Hstep as (frames & chunk & _ & _ & ->).
    destruct (pump_written_clock chunk written recovered s) as (_ & _ & ->).
    done.
Qed.

(** C5, as the code has it.  Through every interleaving without
    [alsa_flush] and [alsa_set_written_time] the written time does not
    decrease; each of these two sets it to the time it is given. *)
Theorem written_time_monotone cfg tr s s' :
  ring_ok s ->
  Forall (fun e => sets_time e = false) tr ->
  run cfg tr s = Some s' ->
  alsa_time s <= alsa_time s' /\
  (forall time s1, step cfg (Flush time) s' = Some s1 ->
     alsa_time s1 = time * 1000) /\
  (forall time s1, step cfg (Set_written_time time) s' = Some s1 ->
     alsa_time s1 = 1000 * time).
Proof.
  intros Hok Hnt Hrun. split.
  - revert s Hok Hrun.
    induction Hnt as [|e tr He Hnt IH]; intros s Hok Hrun; cbn in Hrun.
    + by simplify_eq.
    + destruct (step cfg e s) as [s1|] eqn:Hstep; [|done].
      pose proof (step_time cfg e s s1 He Hstep Hok).
      pose proof (IH s1 (step_ring_ok cfg e s s1 Hstep Hok) Hrun). lia.
  - split; intros time s1 Hstep; unfold step in Hstep;
      destruct (caller s'); simplify_eq; try done.
    unfold alsa_flush, flush_wait. by repeat case_match.
Qed.

Lemma written_time_monotone_witness :
  exists s',
    run demo_cfg
      [Pump_written 1 0; Write_audio false [x09; x0a]; Pause 1 (status_ok 5)]
      demo_playing = Some s' /\
    alsa_time s' = 2125000 /\
    alsa_time demo_playing <= alsa_time s'.
Proof.
  eexists. split; [vm_compute; reflexivity|]. split; [reflexivity|].
  apply (written_time_monotone demo_cfg
           [Pump_written 1 0; Write_audio false [x09; x0a];
            Pause 1 (status_ok 5)] demo_playing _ demo_playing_ok).
  - repeat constructor.
  - vm_compute. reflexivity.
Defined.

(** C5 as stated fails: [alsa_set_written_time] is no flush, and it takes
    the written time from 2000 ms back to 0. *)
Lemma set_written_time_rewinds :
  is_flush (Set_written_time 0) = false /\
  exists s',
    step demo_cfg (Set_written_time 0) demo_playing = Some s' /\
    alsa_time demo_playing = 2000000 /\ alsa_time s' = 0 /\
    alsa_written_time demo_playing = 2000 /\ alsa_written_time s' = 0.
Proof.
  split; [done|]. eexists. split; [vm_compute; reflexivity|].
  vm_compute. repeat split.
Qed.

(** ** Opening *)

(** C6.  After a successful [alsa_open_audio] the ring is as long as the
    software buffer time at the rate, in frames, turned into bytes; the
    software buffer time is the larger of half the target buffer time and
    the target minus the hardware buffer time; the hardware buffer time is
    the negotiated buffer size in frames times 1000 over the rate.  The two
    values stored in an [int] are converted as C does; within the range of
    [int] the conversions vanish. *)
Theorem open_buffer_length cfg a rate s :
  alsa_open_audio cfg a rate = Some s ->
  let target := output_buffer_size cfg in
  let hardware_ms := cdiv (get_params_frames a * 1000) rate in
  let software_ms ms := Z.max (cdiv target 2) (target - ms) in
  let bytes ms :=
    snd_pcm_frames_to_bytes s (cdiv (software_ms ms * rate) 1000) in
  alsa_buffer_length s = to_int (bytes (to_int hardware_ms)) /\
  (int_range hardware_ms -> int_range (bytes hardware_ms) ->
   alsa_buffer_length s = bytes hardware_ms).
Proof.
  intros Hopen. cbn zeta.
  destruct (alsa_open_audio_Some cfg a rate s Hopen)
    as (Hl & _ & _ & _ & _ & _ & Hf & _).
  unfold snd_pcm_frames_to_bytes. rewrite Hl, Hf.
  unfold soft_buffer, hard_buffer. rewrite MAX_max.
  split; [done|]. intros Hh Hb.
  rewrite (to_int_id _ Hh). by apply to_int_id.
Qed.

Lemma open_buffer_length_witness :
  alsa_open_audio demo_cfg demo_answers 8 = Some demo_open /\
  alsa_buffer_length demo_open = 8.
Proof.
  assert (alsa_open_audio demo_cfg demo_answers 8 = Some demo_open) as Hopen
      by (vm_compute; reflexivity).
  split; [exact Hopen|].
  rewrite (proj2 (open_buffer_length demo_cfg demo_answers 8 demo_open Hopen)).
  - vm_compute. reflexivity.
  - vm_compute. split; [discriminate | reflexivity].
  - vm_compute. split; [discriminate | reflexivity].
Defined.

(** ** Device errors in the pump *)

Lemma step_pump_exit cfg e s s' :
  step cfg e s = Some s' ->
  pump_thread s' = PumpExited ->
  pump_thread s = PumpExited \/ (e = Pump_turn /\ pump_quit s = true).
Proof.
  intros Hstep Hex. destruct e.
  - unfold step in Hstep. destruct (caller s); simplify_eq. left.
    revert Hex. unfold alsa_write_audio, write_loop.
    destruct (write_pass_clock data
                (set_io s (pcm_log s) (played s) (passed s ++ data))) as [Hp _].
    assert (pump_thread
              (write_pass data
                 (set_io s (pcm_log s) (played s) (passed s ++ data))).1
            = pump_thread s) as Hpt by done.
    destruct (write_pass data _) as [s1 [|b rest]]; cbn [fst] in *;
      rewrite <- Hpt; [done|].
    destruct (alsa_paused s1); [by destruct hw_paused | done].
  - unfold step in Hstep. destruct (caller s); simplify_eq. left.
    revert Hex. unfold alsa_drain, drain_loop.
    repeat case_match; try destruct hw_paused; done.
  - unfold step in Hstep. destruct (caller s); simplify_eq. left.
    revert Hex. unfold alsa_flush, flush_wait. repeat case_match; done.
  - unfold step in Hstep. destruct (caller s); simplify_eq. left.
    revert Hex. unfold alsa_close_audio. repeat case_match; done.
  - unfold step in Hstep. destruct (caller s); simplify_eq; left; revert Hex.
    + unfold write_loop.
      assert (pump_thread (write_pass rest s).1 = pump_thread s) as Hpt by done.
      destruct (write_pass rest s) as [s1 [|b rest']]; cbn [fst] in *;
        rewrite <- Hpt; [done|].
      destruct (alsa_paused s1); [by destruct hw_paused | done].
    + unfold drain_loop. repeat case_match; try destruct hw_paused; done.
    + unfold flush_wait. repeat case_match; done.
    + unfold close_join. destruct (pump_thread s) eqn:Hpc; cbn; congruence.
  - assert (s' = alsa_pause pause st s) as ->
        by (unfold step in Hstep; destruct (caller s); by simplify_eq).
    left. revert Hex. unfold alsa_pause. by case_match.
  - assert (s' = alsa_set_written_time time s) as ->
        by (unfold step in Hstep; destruct (caller s); by simplify_eq).
    by left.
  - apply step_Pump_turn_inv in Hstep as [Hpc ->]. right. split; [done|].
    revert Hex. unfold pump_turn. rewrite ?Hpc.
    destruct (pump_quit s); [done|]. repeat case_match; cbn; congruence.
  - apply step_Pump_written_inv in Hstep as (frames & chunk & _ & _ & ->).
    revert Hex. unfold pump_written. cbn zeta.
    destruct (to_int written <? 0);
      [destruct (negb (pump_quit s) && negb (alsa_paused s))|]; done.
Qed.

(** C7.  When [snd_pcm_writei] answers an error, then whatever
    [snd_pcm_recover] answers, and also when it is not called because of
    quit or pause, the ring is updated as for a write of zero frames: the
    start and the data length stay, the chunk is no longer in flight, nothing
    counts as played, and the pump is back at the head of its loop.  No
    event takes the pump out of its loop except its own test of
    [pump_quit]. *)
Theorem pump_write_error_continues cfg s frames chunk written recovered :
  ring_ok s ->
  pump_thread s = PumpWriting frames chunk ->
  - 2 ^ 31 <= written < 0 ->
  let s' := pump_written chunk written recovered s in
  step cfg (Pump_written written recovered) s = Some s' /\
  alsa_buffer_data_start s' = alsa_buffer_data_start s /\
  alsa_buffer_data_length s' = alsa_buffer_data_length s /\
  alsa_buffer_read_length s' = 0 /\
  played s' = played s /\
  (alsa_buffer_data_start s', alsa_buffer_data_length s',
   alsa_buffer_read_length s', played s')
  = (let z := pump_written chunk 0 recovered s in
     (alsa_buffer_data_start z, alsa_buffer_data_length z,
      alsa_buffer_read_length z, played z)) /\
  pump_thread s' = PumpLoop /\
  (forall e t t',
     step cfg e t = Some t' -> pump_thread t' = PumpExited ->
     pump_thread t = PumpExited \/ (e = Pump_turn /\ pump_quit t = true)).
Proof.
  intros Hok Hpc Hw. cbn zeta.
  assert (writei_answer frames written = true) as Hans.
  { pose proof (ok_pump s Hok) as Hp. rewrite Hpc in Hp.
    unfold writei_answer. apply andb_true_iff.
    split; apply Z.leb_le; lia. }
  assert (writei_answer frames 0 = true) as Hans0.
  { pose proof (ok_pump s Hok) as Hp. rewrite Hpc in Hp.
    unfold writei_answer. apply andb_true_iff.
    split; [done | apply Z.leb_le; lia]. }
  destruct (pump_written_accepts chunk written recovered s frames Hok Hpc Hans)
    as (n & _ & Hn & _ & _ & Hs & Hd & Hr & _ & _ & Hp & Hpl).
  destruct (pump_written_accepts chunk 0 recovered s frames Hok Hpc Hans0)
    as (n0 & _ & Hn0 & _ & _ & Hs0 & Hd0 & Hr0 & _ & _ & _ & Hpl0).
  cbn zeta in *.
  destruct (Z.ltb_spec written 0); [|lia].
  change (0 <? 0) with false in Hn0. cbn beta iota in Hn0.
  assert (n = 0) as -> by lia. assert (n0 = 0) as -> by lia.
  change (Z.to_nat 0) with 0%nat in *.
  rewrite take_0, app_nil_r in Hpl, Hpl0.
  rewrite Z.add_0_r in Hs, Hs0. rewrite Z.sub_0_r in Hd, Hd0.
  destruct Hok. rewrite decide_True in Hs, Hs0 by lia.
  rewrite (step_Pump_written _ _ _ _ _ _ Hpc Hans).
  rewrite Hs, Hd, Hr, Hpl, Hs0, Hd0, Hr0, Hpl0.
  repeat split; try done.
  apply step_pump_exit.
Qed.

Lemma pump_write_error_continues_witness :
  let s' := pump_written [x01; x02] (-32) (-32) demo_playing in
  step demo_cfg (Pump_written (-32) (-32)) demo_playing = Some s' /\
  alsa_buffer_data_start s' = 0 /\
  alsa_buffer_data_length s' = 8 /\
  alsa_buffer_read_length s' = 0 /\
  played s' = [] /\
  pump_thread s' = PumpLoop.
Proof.
  cbn zeta.
  destruct (pump_write_error_continues demo_cfg demo_playing 1 [x01; x02]
              (-32) (-32) demo_playing_ok eq_refl ltac:(lia))
    as (H1 & H2 & H3 & H4 & H5 & _ & H7 & _).
  repeat split; assumption.
Defined.

(** ** Writing nothing *)

Lemma write_copy_nil writable s : write_copy [] writable s = alsa_buffer s.
Proof.
  unfold write_copy, memcpy. case_match; by rewrite ?drop_nil, !take_nil.
Qed.

Lemma write_pass_nil s : ring_ok s -> write_pass [] s = (s, []).
Proof.
  intros []. unfold write_pass. cbn zeta.
  change (Z.of_nat (length [])) with 0.
  replace (MIN (alsa_buffer_length s - alsa_buffer_data_length s) 0) with 0
    by (rewrite MIN_min; lia).
  rewrite write_copy_nil. unfold snd_pcm_bytes_to_frames, cdiv. cbn.
  rewrite !Z.add_0_r. by destruct s.
Qed.

(** C8.  [alsa_write_audio] with no bytes returns at once ([step] leaves
    the caller [Idle]) and changes nothing at all: the ring, the clock, the
    pump and the device are as they were. *)
Theorem write_nothing cfg hw s :
  ring_ok s -> caller s = Idle ->
  step cfg (Write_audio hw []) s = Some s.
Proof.
  intros Hok Hc. rewrite (step_Write_audio _ _ _ _ Hc). f_equal.
  unfold alsa_write_audio, write_loop. rewrite write_pass_nil by ring_same.
  rewrite app_nil_r. destruct s; cbn in *. by rewrite Hc.
Qed.

Lemma write_nothing_witness :
  step demo_cfg (Write_audio false []) demo_playing = Some demo_playing.
Proof. exact (write_nothing demo_cfg false demo_playing demo_playing_ok eq_refl). Defined.

(** ** Mixer volume *)

Module MixerFacts.

Import Mixer.

Lemma alsa_open_mixer_range (a : mixer_answers simple_selem) e :
  alsa_open_mixer a = Some e -> vol_min e = 0 /\ vol_max e = 100.
Proof.
  unfold alsa_open_mixer. intros Hopen.
  destruct (alsa_config_mixer_element a); [|done]. cbn [negb] in Hopen.
  repeat apply CHECK_bind in Hopen as [_ Hopen].
  destruct (find_selem a) as [e0|]; [|done]. cbn in Hopen.
  by simplify_eq.
Qed.

Lemma alsa_soft_init_range (a : mixer_answers simple_selem) m e :
  mixer_ok m -> alsa_mixer (alsa_soft_init a m) = Some e ->
  vol_min e = 0 /\ vol_max e = 100.
Proof.
  unfold alsa_soft_init, mixer_ok. intros Hok Hm.
  destruct (initted m); [by apply Hok | by apply (alsa_open_mixer_range a)].
Qed.

Lemma alsa_soft_init_initted (a : mixer_answers simple_selem) m :
  initted (alsa_soft_init a m) = true.
Proof. unfold alsa_soft_init. by destruct (initted m) eqn:Hi. Qed.

(** C9.  With a mono element in the opened mixer, [alsa_set_volume (80,
    60)] sets the one playback channel to [MAX (80, 60)], that is 80, and
    when the element has a playback switch it turns the switch on, 80 being
    non-zero; [alsa_get_volume] then stores 80 through both pointers. *)
Theorem mono_set_then_get (a a' : mixer_answers simple_selem) m e :
  mixer_ok m ->
  alsa_mixer (alsa_soft_init a m) = Some e ->
  mono e = true ->
  let m1 := alsa_set_volume a 80 60 m in
  MAX 80 60 = 80 /\
  exists e1,
    alsa_mixer m1 = Some e1 /\
    vol_left e1 = 80 /\
    (pswitch e = true -> sw_left e1 = true) /\
    (pswitch e = false -> sw_left e1 = sw_left e) /\
    alsa_get_volume a' m1 = (80, 80, m1).
Proof.
  intros Hok Hm Hmono. cbn zeta. split; [done|].
  destruct (alsa_soft_init_range a m e Hok Hm) as [Hmin Hmax].
  pose proof (alsa_soft_init_initted a m) as Hi.
  assert (alsa_set_volume a 80 60 m
          = {| initted := true;
               alsa_mixer := Some (set_volume_of 80 60 e) |}) as ->.
  { unfold alsa_set_volume. by rewrite Hm, Hi. }
  exists (set_volume_of 80 60 e). split; [done|].
  unfold alsa_get_volume, alsa_soft_init. cbn [initted alsa_mixer].
  assert (to_int 80 = 80) as H80 by (apply to_int_id; unfold int_range; lia).
  destruct e as [mo sw swj lo hi vl vr sl sr]. cbn in Hmono, Hmin, Hmax.
  subst mo lo hi.
  destruct sw, swj; cbn -[to_int]; rewrite ?H80; repeat split; done.
Qed.

Lemma mono_set_then_get_witness :
  let m1 := alsa_set_volume demo_mixer_answers 80 60 mixer_initial in
  exists e1,
    alsa_mixer m1 = Some e1 /\
    vol_left e1 = 80 /\ sw_left e1 = true /\
    alsa_get_volume demo_mixer_answers m1 = (80, 80, m1).
Proof.
  cbn zeta.
  destruct (mono_set_then_get demo_mixer_answers demo_mixer_answers
              mixer_initial
              {| mono := true; pswitch := true; pswitch_joined := false;
                 vol_min := 0; vol_max := 100; vol_left := 12; vol_right := 0;
                 sw_left := false; sw_right := false |})
    as (_ & e1 & H1 & H2 & H3 & _ & H5).
  - intros Hi. discriminate Hi.
  - reflexivity.
  - reflexivity.
  - exists e1. repeat split; try assumption. by apply H3.
Defined.

End MixerFacts.

(** * Further properties *)

(** ** What no event changes *)

Lemma pump_written_fixed chunk written recovered s :
  let s' := pump_written chunk written recovered s in
  alsa_buffer s' = alsa_buffer s /\
  alsa_buffer_length s' = alsa_buffer_length s /\
  alsa_rate s' = alsa_rate s /\ frame_bytes s' = frame_bytes s /\
  pump_quit s' = pump_quit s.
Proof.
  unfold pump_written. cbn zeta.
  destruct (to_int written <? 0);
    [destruct (negb (pump_quit s) && negb (alsa_paused s))|]; done.
Qed.

Lemma step_fixed cfg e s s' :
  step cfg e s = Some s' ->
  alsa_buffer_length s' = alsa_buffer_length s /\
  alsa_rate s' = alsa_rate s /\ frame_bytes s' = frame_bytes s /\
  (pump_quit s = true -> pump_quit s' = true).
Proof.
  unfold step. intros Hstep.
  destruct e; repeat case_match; simplify_eq.
  - unfold alsa_write_audio, write_loop, write_pass. cbn zeta.
    repeat case_match; simplify_eq; try destruct hw_paused; done.
  - unfold alsa_drain, drain_loop.
    repeat case_match; try destruct hw_paused; done.
  - unfold alsa_flush, flush_wait. repeat case_match; done.
  - unfold alsa_close_audio. repeat case_match; done.
  - unfold write_loop, write_pass. cbn zeta.
    repeat case_match; simplify_eq; try destruct hw_paused; done.
  - unfold drain_loop. repeat case_match; try destruct hw_paused; done.
  - unfold flush_wait. repeat case_match; done.
  - unfold close_join. repeat case_match; done.
  - unfold alsa_pause. repeat case_match; done.
  - unfold alsa_pause. repeat case_match; done.
  - unfold alsa_pause. repeat case_match; done.
  - unfold alsa_pause. repeat case_match; done.
  - unfold alsa_pause. repeat case_match; done.
  - done.
  - done.
  - done.
  - done.
  - done.
  - unfold pump_turn. repeat case_match; done.
  - destruct (pump_written_fixed chunk written recovered s)
      as (_ & ? & ? & ? & Hq).
    cbn zeta in *. repeat split; try done. by rewrite Hq.
Qed.

Lemma run_fixed cfg tr s s' :
  run cfg tr s = Some s' ->
  alsa_buffer_length s' = alsa_buffer_length s /\
  alsa_rate s' = alsa_rate s /\ frame_bytes s' = frame_bytes s /\
  (pump_quit s = true -> pump_quit s' = true).
Proof.
  revert s. induction tr as [|e tr IH]; intros s Hrun; cbn in Hrun.
  - by simplify_eq.
  - destruct (step cfg e s) as [s1|] eqn:Hstep; [|done].
    destruct (step_fixed cfg e s s1 Hstep) as (Hl & Hr & Hf & Hq).
    destruct (IH s1 Hrun) as (Hl' & Hr' & Hf' & Hq').
    rewrite Hl', Hr', Hf'. repeat split; auto.
Qed.

(** ** The ring of an opened session *)

(** X1.  In a session opened with a positive rate, frame size and buffer
    length, whatever the threads do: the buffer keeps its length, the start
    stays inside it, the bytes in flight are among the bytes waiting and
    these fit the buffer, a chunk in flight does not reach past the end of
    the buffer, and bytes are in flight exactly while the pump is inside the
    device write. *)
Theorem opened_ring_bounds cfg a rate s0 tr s :
  alsa_open_audio cfg a rate = Some s0 ->
  0 < rate -> 0 < negotiated_frame_bytes a -> 0 < alsa_buffer_length s0 ->
  run cfg tr s0 = Some s ->
  alsa_buffer_length s = alsa_buffer_length s0 /\
  Z.of_nat (length (alsa_buffer s)) = alsa_buffer_length s0 /\
  0 <= alsa_buffer_data_start s < alsa_buffer_length s0 /\
  0 <= alsa_buffer_read_length s <= alsa_buffer_data_length s /\
  alsa_buffer_data_length s <= alsa_buffer_length s0 /\
  alsa_buffer_data_start s + alsa_buffer_read_length s
    <= alsa_buffer_length s0 /\
  (alsa_buffer_read_length s <> 0 <->
   exists frames chunk, pump_thread s = PumpWriting frames chunk).
Proof.
  intros Hopen Hrate Hfb Hlen Hrun.
  destruct (alsa_open_audio_ok cfg a rate s0 Hopen Hrate Hfb Hlen) as [Hok _].
  pose proof (run_ring_ok cfg tr s0 s Hrun Hok) as [].
  destruct (run_fixed cfg tr s0 s Hrun) as (Hl & _).
  rewrite <- Hl. repeat split; try lia.
  - destruct (pump_thread s); lia.
  - intros Hrd. destruct (pump_thread s) as [|frames chunk|]; eauto; lia.
  - intros (frames & chunk & Hp). rewrite Hp in ok_pump0. lia.
Qed.

Lemma opened_ring_bounds_witness :
  exists s,
    run demo_cfg (take 11 demo_trace) demo_open = Some s /\
    alsa_buffer_data_start s = 6 /\ alsa_buffer_data_length s = 4 /\
    alsa_buffer_read_length s = 2 /\
    0 <= alsa_buffer_data_start s < alsa_buffer_length demo_open.
Proof.
  eexists. split; [vm_compute; reflexivity|].
  split; [reflexivity|]. split; [reflexivity|]. split; [reflexivity|].
  refine (proj1 (proj2 (proj2 (opened_ring_bounds demo_cfg demo_answers 8
            demo_open (take 11 demo_trace) _ _ _ _ _ _)))).
  - vm_compute. reflexivity.
  - lia.
  - cbn. lia.
  - cbn. lia.
  - vm_compute. reflexivity.
Defined.

(** ** The byte stream from any state *)

Lemma delivery_same s s' :
  played s' = played s -> ring_contents s' = ring_contents s ->
  pending (caller s') = pending (caller s) ->
  delivery s' = delivery s.
Proof. unfold delivery. by intros -> -> ->. Qed.

Lemma step_delivery cfg e s s' :
  is_flush e = false -> caller s <> Flushing ->
  step cfg e s = Some s' ->
  ring_ok s ->
  delivery s' = delivery s ++ written_by [e] /\ caller s' <> Flushing.
Proof.
  intros Hnf Hc Hstep Hok.
  destruct e; try done.
  - (* Write_audio *)
    unfold step in Hstep. destruct (caller s) eqn:Hcal; simplify_eq.
    split; [|apply write_loop_caller].
    destruct (write_loop_stream hw_paused data
                (set_io s (pcm_log s) (played s) (passed s ++ data)))
      as (Hpl & _ & Hrc); [ring_same|].
    cbn zeta in *. unfold delivery, alsa_write_audio.
    rewrite Hpl, Hrc, Hcal. cbn. unfold ring_contents. cbn.
    by rewrite !app_nil_r, <- !(assoc_L (++)).
  - (* Drain *)
    unfold step in Hstep. destruct (caller s) eqn:Hcal; simplify_eq.
    split; [|apply drain_loop_caller]. cbn [written_by]. rewrite app_nil_r.
    apply delivery_same; unfold alsa_drain, drain_loop;
      repeat case_match; try destruct hw_paused; try done; by rewrite Hcal.
  - (* Close_audio *)
    unfold step in Hstep. destruct (caller s) eqn:Hcal; simplify_eq.
    cbn [written_by]. rewrite app_nil_r. split.
    + apply delivery_same; unfold alsa_close_audio;
        case_match; try done; by rewrite Hcal.
    + unfold alsa_close_audio. by case_match.
  - (* Wake *)
    unfold step in Hstep. cbn [written_by]. rewrite app_nil_r.
    destruct (caller s) eqn:Hcal; simplify_eq.
    + split; [|apply write_loop_caller].
      destruct (write_loop_stream hw_paused rest s Hok) as (Hpl & _ & Hrc).
      cbn zeta in *. unfold delivery. by rewrite Hpl, Hrc, Hcal.
    + split; [|apply drain_loop_caller].
      apply delivery_same; unfold drain_loop;
        repeat case_match; try destruct hw_paused; try done; by rewrite Hcal.
    + split.
      * apply delivery_same; unfold close_join;
          case_match; try done; by rewrite Hcal.
      * unfold close_join. case_match; cbn; by rewrite ?Hcal.
  - (* Pause *)
    assert (s' = alsa_pause pause st s) as ->
        by (unfold step in Hstep; destruct (caller s); by simplify_eq).
    clear Hstep. rewrite alsa_pause_caller. cbn [written_by]. rewrite app_nil_r.
    split; [|done].
    apply delivery_same; unfold alsa_pause; by case_match.
  - (* Set_written_time *)
    assert (s' = alsa_set_written_time time s) as ->
        by (unfold step in Hstep; destruct (caller s); by simplify_eq).
    cbn [written_by]. by rewrite app_nil_r.
  - (* Pump_turn *)
    apply step_Pump_turn_inv in Hstep as [_ ->].
    rewrite pump_turn_caller. cbn [written_by]. rewrite app_nil_r. split; [|done].
    apply delivery_same; unfold pump_turn; repeat case_match; done.
  - (* Pump_written *)
    apply step_Pump_written_inv in Hstep as (frames & chunk & Hpc & Hans & ->).
    pose proof (pump_written_contents chunk written recovered s frames
                  Hok Hpc Hans) as Hrc.
    destruct (pump_written_caller chunk written recovered s) as [Hca _].
    rewrite Hca. split; [|done]. cbn zeta in Hrc. cbn [written_by]. rewrite app_nil_r.
    unfold delivery. by rewrite Hca, !(assoc_L (++)), Hrc.
Qed.

Lemma run_delivery cfg tr s s' :
  ring_ok s -> caller s <> Flushing ->
  Forall (fun e => is_flush e = false) tr ->
  run cfg tr s = Some s' ->
  delivery s' = delivery s ++ written_by tr.
Proof.
  intros Hok Hc Hnf. revert s Hok Hc.
  induction Hnf as [|e tr He Hnf IH]; intros s Hok Hc Hrun; cbn in Hrun.
  - simplify_eq. by rewrite app_nil_r.
  - destruct (step cfg e s) as [s1|] eqn:Hstep; [|done].
    destruct (step_delivery cfg e s s1 He Hc Hstep Hok) as [Hd Hc1].
    rewrite (IH s1 (step_ring_ok cfg e s s1 Hstep Hok) Hc1 Hrun).
    rewrite Hd, <- (assoc_L (++)). f_equal.
    destruct e; cbn; by rewrite ?app_nil_r.
Qed.

(** X2.  From any well-formed state in which no flush is waiting, and so
    also after a flush has returned, a flush-free interleaving adds the bytes
    of its writes, in order, behind what was already played, queued or held
    by a blocked writer: later writes never overtake, drop or repeat
    anything. *)
Theorem stream_continues cfg tr s s' :
  ring_ok s -> caller s <> Flushing ->
  Forall (fun e => is_flush e = false) tr ->
  run cfg tr s = Some s' ->
  played s' ++ ring_contents s' ++ pending (caller s')
  = (played s ++ ring_contents s ++ pending (caller s)) ++ written_by tr.
Proof.
  intros Hok Hc Hnf Hrun.
  exact (run_delivery cfg tr s s' Hok Hc Hnf Hrun).
Qed.

Lemma stream_continues_witness :
  exists s',
    run demo_cfg
      [Pump_written 1 0; Write_audio false [x09; x0a; x0b];
       Pump_turn; Pump_written 1 0; Wake false] demo_playing = Some s' /\
    played s' ++ ring_contents s' ++ pending (caller s')
    = [x01; x02; x03; x04; x05; x06; x07; x08; x09; x0a; x0b].
Proof.
  eexists. split; [vm_compute; reflexivity|].
  rewrite (stream_continues demo_cfg
             [Pump_written 1 0; Write_audio false [x09; x0a; x0b];
              Pump_turn; Pump_written 1 0; Wake false] demo_playing _
             demo_playing_ok).
  - vm_compute. reflexivity.
  - discriminate.
  - repeat constructor.
  - vm_compute. reflexivity.
Defined.

(** ** The chunks of the pump *)

(** X3.  When the pump goes into a device write, the session is neither
    quit nor paused, the chunk it marks as in flight is not empty, at most a
    quarter of the buffer, within the waiting data and short of the end of
    the buffer; the frames it hands over are the whole frames of that chunk,
    taken from the front of the waiting data, at most a hundredth of a
    second of them under the delay workaround; the ring itself is left as it
    was. *)
Theorem pump_chunk_bounds cfg s frames chunk :
  ring_ok s ->
  pump_thread (pump_turn cfg s) = PumpWriting frames chunk ->
  pump_thread s = PumpLoop ->
  let s' := pump_turn cfg s in
  pump_quit s = false /\ alsa_paused s = false /\
  0 < alsa_buffer_read_length s' /\
  alsa_buffer_read_length s' <= cdiv (alsa_buffer_length s) 4 /\
  alsa_buffer_read_length s' <= alsa_buffer_data_length s /\
  alsa_buffer_data_start s + alsa_buffer_read_length s'
    <= alsa_buffer_length s /\
  frames = cdiv (alsa_buffer_read_length s') (frame_bytes s) /\
  Z.of_nat (length chunk) = frames * frame_bytes s /\
  chunk = take (Z.to_nat (frames * frame_bytes s)) (ring_contents s) /\
  (alsa_config_delay_workaround cfg = true ->
   frames <= cdiv (alsa_rate s) 100) /\
  ring_contents s' = ring_contents s /\
  alsa_buffer_data_start s' = alsa_buffer_data_start s /\
  alsa_buffer_data_length s' = alsa_buffer_data_length s.
Proof.
  intros Hok Hw Hpc. cbn zeta.
  pose proof (pump_turn_ring_ok cfg s Hpc Hok) as Hok'.
  pose proof (ok_pump _ Hok') as Hp. rewrite Hw in Hp.
  destruct Hp as (Hrd & Hfr & Hfb & Hend & Hchunk).
  pose proof (length_ring_contents _ Hok') as Hlen.
  pose proof (ok_read _ Hok') as Hread.
  revert Hw Hrd Hfr Hfb Hend Hchunk Hlen Hread.
  unfold pump_turn.
  destruct (pump_quit s); [intros Hw; discriminate Hw|].
  destruct (alsa_paused s); [by rewrite Hpc|].
  match goal with |- context [Z.eqb ?l 0] => set (len := l) end.
  assert (len <= cdiv (alsa_buffer_length s) 4 /\
          (alsa_config_delay_workaround cfg = true ->
           len <= cdiv (alsa_rate s) 100 * frame_bytes s)) as [Hq Hd].
  { destruct Hok. subst len.
    unfold snd_pcm_frames_to_bytes, snd_pcm_bytes_to_frames.
    pose proof (cdiv_mul_le (cdiv (alsa_buffer_length s) 4) (frame_bytes s)
                  ltac:(apply cdiv_nonneg; lia) ltac:(lia)).
    destruct (alsa_config_delay_workaround cfg); rewrite !MIN_min;
      split; try lia; done. }
  destruct (Z.eqb_spec len 0) as [|Hnz]; [by rewrite Hpc|].
  cbn. unfold snd_pcm_frames_to_bytes, snd_pcm_bytes_to_frames. cbn.
  intros Hw Hrd Hfr Hfb Hend Hchunk Hlen Hread. simplify_eq.
  destruct Hok.
  repeat split; try done; try lia.
  - rewrite length_take. unfold ring_contents in *. cbn in *. lia.
  - intros Hwa. specialize (Hd Hwa).
    unfold cdiv in *. apply Z.quot_le_upper_bound; lia.
Qed.

Lemma pump_chunk_bounds_witness :
  let s := set_pump (set_ring demo_playing (alsa_buffer demo_playing) 0 8 0)
             PumpLoop in
  pump_thread (pump_turn demo_cfg s) = PumpWriting 1 [x01; x02] /\
  alsa_buffer_read_length (pump_turn demo_cfg s) <= cdiv 8 4.
Proof.
  cbn zeta. split; [vm_compute; reflexivity|].
  refine (proj1 (proj2 (proj2 (proj2 (pump_chunk_bounds demo_cfg
            (set_pump (set_ring demo_playing (alsa_buffer demo_playing) 0 8 0)
               PumpLoop) 1 [x01; x02] _ _ _))))).
  - split; cbn; try lia; done.
  - vm_compute. reflexivity.
  - reflexivity.
Defined.

Lemma pump_written_handed chunk written recovered s :
  handed (pcm_log (pump_written chunk written recovered s))
  = handed (pcm_log s).
Proof.
  unfold pump_written. cbn zeta.
  destruct (to_int written <? 0);
    [destruct (negb (pump_quit s) && negb (alsa_paused s))|]; cbn; try done.
  by rewrite handed_app, app_nil_r.
Qed.

Lemma step_handed_paused cfg e s s' :
  alsa_paused s = true \/ pump_quit s = true ->
  is_flush e = false ->
  step cfg e s = Some s' ->
  handed (pcm_log s') = handed (pcm_log s).
Proof.
  intros Hp Hnf Hstep.
  pose proof (step_feed cfg e s s' Hstep) as Hf.
  destruct e; try done; try (by destruct Hf as (-> & _)).
  - apply step_Pump_turn_inv in Hstep as [_ ->]. unfold pump_turn.
    destruct (pump_quit s); [done|]. destruct Hp as [-> | ?]; done.
  - apply step_Pump_written_inv in Hstep as (frames & chunk & _ & _ & ->).
    apply pump_written_handed.
Qed.

(** X4.  While the session is paused (after open, flush or pause) no new
    chunk is handed to the device: through every interleaving that neither
    restarts playback nor takes a new snapshot, the chunks handed over so far
    stay the same. *)
Theorem paused_hands_nothing cfg tr s s' :
  alsa_paused s = true ->
  quiet cfg tr s = true ->
  run cfg tr s = Some s' ->
  handed (pcm_log s') = handed (pcm_log s).
Proof.
  revert s. induction tr as [|e tr IH]; intros s Hp Hq Hrun; cbn in *.
  - by simplify_eq.
  - destruct (step cfg e s) as [s1|] eqn:Hstep; [|done].
    apply andb_true_iff in Hq as [[Hr%negb_true_iff Hn%negb_true_iff]
                                    %andb_true_iff Hq].
    destruct (step_quiet cfg e s s1 Hstep Hr Hn) as [Hp1 _].
    rewrite (IH s1) by (done || by rewrite Hp1).
    apply (step_handed_paused cfg e s s1); auto.
    destruct e; try done.
Qed.

Lemma paused_hands_nothing_witness :
  exists s',
    run demo_cfg
      [Write_audio false [x01; x02; x03; x04]; Pump_turn;
       Pause 0 (status_ok 0); Pump_turn] demo_open = Some s' /\
    alsa_buffer_data_length s' = 4 /\
    handed (pcm_log s') = [].
Proof.
  eexists. split; [vm_compute; reflexivity|]. split; [reflexivity|].
  rewrite (paused_hands_nothing demo_cfg
             [Write_audio false [x01; x02; x03; x04]; Pump_turn;
              Pause 0 (status_ok 0); Pump_turn] demo_open).
  - reflexivity.
  - reflexivity.
  - vm_compute. reflexivity.
  - vm_compute. reflexivity.
Defined.

(** ** Partial frames *)

Lemma step_partial_frame cfg e s s' :
  feeder_event e = true ->
  step cfg e s = Some s' ->
  ring_ok s ->
  caller s = Draining ->
  0 < alsa_buffer_data_length s < frame_bytes s ->
  caller s' = Draining /\
  alsa_buffer_data_length s' = alsa_buffer_data_length s /\
  played s' = played s.
Proof.
  intros Hfe Hstep Hok Hc Hd. destruct e; try done.
  - (* Wake *)
    unfold step in Hstep. rewrite Hc in Hstep. simplify_eq.
    unfold drain_loop.
    destruct (Z.gtb_spec (alsa_buffer_data_length s) 0); [|lia].
    destruct (alsa_paused s); [by destruct hw_paused | done].
  - (* Pump_turn *)
    apply step_Pump_turn_inv in Hstep as [_ ->].
    rewrite pump_turn_caller. unfold pump_turn. by repeat case_match.
  - (* Pump_written *)
    apply step_Pump_written_inv in Hstep as (frames & chunk & Hpc & Hans & ->).
    destruct (pump_written_caller chunk written recovered s) as [-> _].
    destruct (pump_written_accepts chunk written recovered s frames
                Hok Hpc Hans)
      as (n & Hn & _ & _ & _ & _ & Hdl & _ & _ & _ & _ & Hpl).
    cbn zeta in *. rewrite Hdl, Hpl.
    pose proof (ok_pump s Hok) as Hp. rewrite Hpc in Hp.
    destruct Hok.
    assert (frames = 0) as -> by nia.
    assert (n = 0) as -> by lia.
    change (Z.to_nat 0) with 0%nat. rewrite take_0, app_nil_r.
    repeat split; [done | lia].
Qed.

(** X5.  Bytes short of a whole frame are never played: while fewer bytes
    than one frame wait in the ring, the pump offers the device no frame,
    the ring keeps them, and an [alsa_drain] that waits for the ring to empty
    does not return, however long the pump runs and however often the
    drain looks again. *)
Theorem partial_frame_blocks_drain cfg tr s s' :
  ring_ok s ->
  caller s = Draining ->
  0 < alsa_buffer_data_length s < frame_bytes s ->
  forallb feeder_event tr = true ->
  run cfg tr s = Some s' ->
  caller s' = Draining /\
  alsa_buffer_data_length s' = alsa_buffer_data_length s /\
  played s' = played s.
Proof.
  intros Hok Hc Hd Hfe. revert s Hok Hc Hd.
  induction tr as [|e tr IH]; intros s Hok Hc Hd Hrun; cbn in *.
  - by simplify_eq.
  - apply andb_true_iff in Hfe as [He Hfe].
    destruct (step cfg e s) as [s1|] eqn:Hstep; [|done].
    destruct (step_partial_frame cfg e s s1 He Hstep Hok Hc Hd)
      as (Hc1 & Hd1 & Hp1).
    destruct (step_fixed cfg e s s1 Hstep) as (_ & _ & Hf & _).
    destruct (IH Hfe s1 (step_ring_ok cfg e s s1 Hstep Hok) Hc1
                ltac:(rewrite Hd1, Hf; done) Hrun) as (? & ? & ?).
    repeat split; congruence.
Qed.

Lemma partial_frame_blocks_drain_witness :
  run demo_cfg [Write_audio false [x01]; Drain false] demo_open
    = Some demo_partial /\
  exists s',
    run demo_cfg
      [Pump_turn; Pump_written 0 0; Wake false; Pump_turn; Pump_written 0 0;
       Wake true] demo_partial = Some s' /\
    caller s' = Draining /\ played s' = [].
Proof.
  split; [vm_compute; reflexivity|].
  eexists. split; [vm_compute; reflexivity|].
  match goal with |- caller ?s' = _ /\ _ =>
    destruct (partial_frame_blocks_drain demo_cfg
                [Pump_turn; Pump_written 0 0; Wake false; Pump_turn;
                 Pump_written 0 0; Wake true] demo_partial s')
      as (H1 & _ & H3)
  end.
  - split; cbn; try lia; done.
  - reflexivity.
  - cbn. lia.
  - reflexivity.
  - vm_compute. reflexivity.
  - split; assumption.
Defined.

(** ** Drain *)

Lemma feeder_not_flush tr :
  forallb feeder_event tr = true -> Forall (fun e => is_flush e = false) tr.
Proof.
  induction tr as [|e tr IH]; cbn; [constructor|].
  intros [He Htr]%andb_true_iff. constructor; [by destruct e | auto].
Qed.

Lemma step_draining cfg e s s' :
  feeder_event e = true ->
  step cfg e s = Some s' ->
  ring_ok s ->
  caller s = Draining \/ (caller s = Idle /\ alsa_buffer_data_length s = 0) ->
  caller s' = Draining \/ (caller s' = Idle /\ alsa_buffer_data_length s' = 0).
Proof.
  intros Hfe Hstep Hok Hc. destruct e; try done.
  - (* Wake *)
    destruct Hc as [Hc | [Hc _]]; unfold step in Hstep; rewrite Hc in Hstep;
      simplify_eq.
    unfold drain_loop.
    destruct (Z.gtb_spec (alsa_buffer_data_length s) 0).
    + left. destruct (alsa_paused s); [by destruct hw_paused | done].
    + right. destruct Hok.
      destruct (alsa_config_drain_workaround cfg); cbn; split; try done; lia.
  - (* Pump_turn *)
    apply step_Pump_turn_inv in Hstep as [_ ->].
    rewrite pump_turn_caller.
    assert (alsa_buffer_data_length (pump_turn cfg s)
            = alsa_buffer_data_length s) as ->; [|done].
    unfold pump_turn. by repeat case_match.
  - (* Pump_written *)
    apply step_Pump_written_inv in Hstep as (frames & chunk & Hpc & Hans & ->).
    destruct (pump_written_caller chunk written recovered s) as [-> _].
    destruct Hc as [Hc | [Hc Hd]]; [by left|].
    pose proof (ok_pump s Hok) as Hp. rewrite Hpc in Hp.
    destruct Hok. lia.
Qed.

(** X6.  [alsa_drain] returns only with an empty ring: when its caller
    goes on, no data is waiting, and everything that was waiting when it was
    called has been taken by the device, in order, behind what was played
    before. *)
Theorem drain_returns_empty cfg hw tr s s' :
  ring_ok s -> caller s = Idle ->
  forallb feeder_event tr = true ->
  run cfg (Drain hw :: tr) s = Some s' ->
  caller s' = Idle ->
  alsa_buffer_data_length s' = 0 /\
  ring_contents s' = [] /\
  played s' = played s ++ ring_contents s.
Proof.
  intros Hok Hc Hfe Hrun Hc'.
  assert (alsa_buffer_data_length s' = 0) as Hd.
  { cbn [run] in Hrun.
    destruct (step cfg (Drain hw) s) as [s1|] eqn:Hstep; [|done].
    assert (caller s1 = Draining \/
            (caller s1 = Idle /\ alsa_buffer_data_length s1 = 0)) as Hinv.
    { unfold step in Hstep. rewrite Hc in Hstep. simplify_eq.
      unfold alsa_drain, drain_loop.
      destruct (Z.gtb_spec (alsa_buffer_data_length s) 0).
      - left. destruct (alsa_paused s); [by destruct hw | done].
      - right. destruct Hok.
        destruct (alsa_config_drain_workaround cfg); cbn; split; try done;
          lia. }
    pose proof (step_ring_ok cfg _ s s1 Hstep Hok) as Hok1.
    clear Hstep Hc Hok. revert s1 Hrun Hinv Hok1.
    induction tr as [|e tr IH]; intros s1 Hrun Hinv Hok1; cbn in *.
    - simplify_eq. destruct Hinv as [? | [_ ?]]; [congruence | done].
    - apply andb_true_iff in Hfe as [He Hfe].
      destruct (step cfg e s1) as [s2|] eqn:Hstep; [|done].
      apply (IH Hfe s2 Hrun); eauto using step_draining, step_ring_ok. }
  pose proof (run_delivery cfg (Drain hw :: tr) s s' Hok
                ltac:(by rewrite Hc)
                ltac:(constructor; [done | by apply feeder_not_flush]) Hrun)
    as Hst.
  unfold delivery in Hst.
  assert (written_by (Drain hw :: tr) = []) as Hw.
  { cbn. clear -Hfe. induction tr as [|e tr IH]; [done|].
    cbn in Hfe. apply andb_true_iff in Hfe as [He Hfe].
    destruct e; try done; cbn; auto. }
  assert (ring_contents s' = []) as Hr.
  { unfold ring_contents. by rewrite Hd. }
  rewrite Hw, Hc, Hc', Hr in Hst. cbn in Hst. rewrite !app_nil_r in Hst.
  done.
Qed.

Lemma drain_returns_empty_witness :
  exists s',
    run demo_cfg
      [Drain false; Pump_written 1 0; Pump_turn; Pump_written 1 0;
       Pump_turn; Pump_written 1 0; Pump_turn; Pump_written (-32) 0;
       Pump_turn; Pump_written 1 0; Wake false] demo_playing = Some s' /\
    caller s' = Idle /\
    played s' = [x01; x02; x03; x04; x05; x06; x07; x08].
Proof.
  eexists. split; [vm_compute; reflexivity|]. split; [reflexivity|].
  match goal with |- played ?s' = _ =>
    rewrite (proj2 (proj2 (drain_returns_empty demo_cfg false
               [Pump_written 1 0; Pump_turn; Pump_written 1 0;
                Pump_turn; Pump_written 1 0; Pump_turn; Pump_written (-32) 0;
                Pump_turn; Pump_written 1 0; Wake false] demo_playing s'
               demo_playing_ok eq_refl eq_refl
               ltac:(vm_compute; reflexivity) eq_refl)))
  end.
  vm_compute. reflexivity.
Defined.

Lemma pump_turn_writes cfg s :
  pump_quit s = false -> alsa_paused s = false ->
  pump_length cfg s <> 0 ->
  let frames := cdiv (pump_length cfg s) (frame_bytes s) in
  let chunk :=
    take (Z.to_nat (frames * frame_bytes s))
      (drop (Z.to_nat (alsa_buffer_data_start s)) (alsa_buffer s)) in
  pump_turn cfg s
  = set_pump
      (pcm_do
         (set_ring s (alsa_buffer s) (alsa_buffer_data_start s)
            (alsa_buffer_data_length s) (pump_length cfg s))
         (Pcm_writei chunk frames))
      (PumpWriting frames chunk).
Proof.
  intros Hq Hp Hnz. cbn zeta. unfold pump_turn. rewrite Hq, Hp.
  fold (pump_length cfg s). apply Z.eqb_neq in Hnz. by rewrite Hnz.
Qed.

Lemma MIN_cases a b : MIN a b = a \/ MIN a b = b.
Proof. unfold MIN. case_match; auto. Qed.

Lemma pump_length_whole cfg s :
  ring_ok s -> whole_frames s -> pump_can_feed cfg s ->
  0 < alsa_buffer_data_length s ->
  frame_bytes s <= pump_length cfg s /\ (frame_bytes s | pump_length cfg s).
Proof.
  intros [] (Hn & Hs & Hd) [Hfeed Hrate] Hpos.
  set (A := snd_pcm_frames_to_bytes s
              (snd_pcm_bytes_to_frames s (cdiv (alsa_buffer_length s) 4))).
  set (B := snd_pcm_frames_to_bytes s (cdiv (alsa_rate s) 100)).
  assert (frame_bytes s <= A /\ (frame_bytes s | A)) as [HA1 HA2].
  { subst A. unfold snd_pcm_frames_to_bytes, snd_pcm_bytes_to_frames, cdiv.
    split; [|apply Z.divide_factor_r].
    assert (1 <= alsa_buffer_length s ÷ 4 ÷ frame_bytes s); [|nia].
    apply Z.quot_le_lower_bound; [lia|].
    apply Z.quot_le_lower_bound; lia. }
  assert (frame_bytes s <= alsa_buffer_data_length s) as HD1
      by (apply Z.divide_pos_le; [lia | done]).
  assert (frame_bytes s
          <= alsa_buffer_length s - alsa_buffer_data_start s) as HS1.
  { apply Z.divide_pos_le; [lia|]. by apply Z.divide_sub_r. }
  assert ((frame_bytes s
           | alsa_buffer_length s - alsa_buffer_data_start s)) as HS2
      by (by apply Z.divide_sub_r).
  unfold pump_length. cbv zeta. fold A B.
  destruct (alsa_config_delay_workaround cfg) eqn:Hwa.
  - assert (frame_bytes s <= B /\ (frame_bytes s | B)) as [HB1 HB2].
    { subst B. unfold snd_pcm_frames_to_bytes, cdiv.
      split; [|apply Z.divide_factor_r].
      assert (1 <= alsa_rate s ÷ 100); [|nia].
      apply Z.quot_le_lower_bound; [lia|]. specialize (Hrate eq_refl). lia. }
    destruct (MIN_cases A (alsa_buffer_data_length s)) as [E1|E1];
    destruct (MIN_cases (MIN A (alsa_buffer_data_length s))
                (alsa_buffer_length s - alsa_buffer_data_start s)) as [E2|E2];
    destruct (MIN_cases
                (MIN (MIN A (alsa_buffer_data_length s))
                   (alsa_buffer_length s - alsa_buffer_data_start s)) B)
      as [E3|E3];
    rewrite E3, ?E2, ?E1; done.
  - destruct (MIN_cases A (alsa_buffer_data_length s)) as [E1|E1];
    destruct (MIN_cases (MIN A (alsa_buffer_data_length s))
                (alsa_buffer_length s - alsa_buffer_data_start s)) as [E2|E2];
    rewrite E2, ?E1; done.
Qed.

Lemma pump_round cfg s :
  feeding cfg s -> 0 < alsa_buffer_data_length s ->
  exists frames s2,
    run cfg [Pump_turn; Pump_written frames 0] s = Some s2 /\
    feeding cfg s2 /\
    0 <= alsa_buffer_data_length s2 < alsa_buffer_data_length s /\
    caller s2 = caller s /\
    played s2 ++ ring_contents s2 = played s ++ ring_contents s.
Proof.
  intros [Hok Hwh Hfeed Hq Hp Hpc] Hpos.
  destruct (pump_length_whole cfg s Hok Hwh Hfeed Hpos) as [Hlen1 Hlen2].
  pose proof (pump_length_nonneg cfg s Hok) as Hb. cbn zeta in Hb.
  fold (pump_length cfg s) in Hb. destruct Hb as (_ & Hb1 & Hb2).
  pose proof (ok_frame s Hok) as Hfb.
  pose proof (pump_turn_writes cfg s Hq Hp ltac:(lia)) as Hturn.
  cbn zeta in Hturn.
  set (frames := cdiv (pump_length cfg s) (frame_bytes s)) in *.
  set (chunk := take _ _) in Hturn.
  assert (frames * frame_bytes s = pump_length cfg s) as Hfr.
  { destruct Hlen2 as [k Hk]. subst frames. unfold cdiv.
    rewrite Hk, Z.quot_mul by lia. done. }
  assert (0 < frames) as Hfpos by nia.
  set (s1 := pump_turn cfg s) in *.
  assert (pump_thread s1 = PumpWriting frames chunk) as Hpc1
      by (by rewrite Hturn).
  pose proof (pump_turn_ring_ok cfg s Hpc Hok) as Hok1. fold s1 in Hok1.
  assert (writei_answer frames frames = true) as Hans.
  { unfold writei_answer. apply andb_true_iff.
    split; apply Z.leb_le; lia. }
  destruct (pump_written_accepts chunk frames 0 s1 frames Hok1 Hpc1 Hans)
    as (n & _ & Hn & Hb' & Hl' & Hs' & Hd' & Hr' & Hra' & Hf' & Hp' & _).
  cbn zeta in *.
  destruct (Z.ltb_spec frames 0); [lia|].
  assert (alsa_buffer s1 = alsa_buffer s /\
          alsa_buffer_length s1 = alsa_buffer_length s /\
          alsa_buffer_data_start s1 = alsa_buffer_data_start s /\
          alsa_buffer_data_length s1 = alsa_buffer_data_length s /\
          alsa_rate s1 = alsa_rate s /\ frame_bytes s1 = frame_bytes s /\
          pump_quit s1 = false /\ alsa_paused s1 = false /\
          played s1 = played s /\ caller s1 = caller s)
    as (E1 & E2 & E3 & E4 & E5 & E6 & E7 & E8 & E9 & E10).
  { rewrite Hturn. cbn. by rewrite Hq, Hp. }
  rewrite E6 in Hn. rewrite Hfr in Hn. subst n.
  destruct Hwh as (Hwn & Hws & Hwd).
  assert ((frame_bytes s
           | alsa_buffer_data_start (pump_written chunk frames 0 s1)))
    as Hdiv.
  { rewrite Hs', E3. clear Hs'. case_decide; [|apply Z.divide_0_r].
    by apply Z.divide_add_r. }
  clear Hs'.
  exists frames, (pump_written chunk frames 0 s1).
  split.
  { cbn [run]. unfold step at 1. rewrite Hpc.
    destruct (caller s); fold s1;
      by rewrite (step_Pump_written cfg _ _ _ _ _ Hpc1 Hans). }
  destruct (pump_written_fixed chunk frames 0 s1) as (_ & _ & _ & _ & Hq2).
  destruct (pump_written_clock chunk frames 0 s1) as (Hp2 & _ & _).
  destruct (pump_written_caller chunk frames 0 s1) as [Hc2 _].
  cbn zeta in *.
  split; [|split; [|split]].
  - split.
    + by eapply pump_written_ring_ok.
    + unfold whole_frames. rewrite Hl', Hd', Hf', E2, E4, E6.
      split_and!; [done | done | by apply Z.divide_sub_r].
    + destruct Hfeed. unfold pump_can_feed.
      by rewrite Hl', Hra', Hf', E2, E5, E6.
    + by rewrite Hq2.
    + by rewrite Hp2.
    + done.
  - rewrite Hd', E4. lia.
  - by rewrite Hc2.
  - rewrite (pump_written_contents chunk frames 0 s1 frames Hok1 Hpc1 Hans).
    rewrite E9. unfold ring_contents. by rewrite E1, E3, E4.
Qed.

Lemma run_app cfg tr1 tr2 s :
  run cfg (tr1 ++ tr2) s = run cfg tr1 s ≫= run cfg tr2.
Proof.
  revert s. induction tr1 as [|e tr1 IH]; intros s; cbn; [done|].
  destruct (step cfg e s); [apply IH | done].
Qed.

Lemma pump_drains cfg s :
  feeding cfg s ->
  exists tr s',
    forallb pump_event tr = true /\
    run cfg tr s = Some s' /\
    feeding cfg s' /\
    alsa_buffer_data_length s' = 0 /\
    caller s' = caller s /\
    played s' = played s ++ ring_contents s.
Proof.
  remember (Z.to_nat (alsa_buffer_data_length s)) as n eqn:Hn.
  revert s Hn. induction n as [n IH] using lt_wf_ind. intros s Hn Hfd.
  pose proof (ok_read s (fd_ok cfg s Hfd)) as Hrd.
  destruct (decide (alsa_buffer_data_length s = 0)) as [Hz|Hnz].
  - exists [], s. split_and!; try done.
    unfold ring_contents. rewrite Hz. change (Z.to_nat 0) with 0%nat.
    by rewrite window_nil, app_nil_r.
  - destruct (pump_round cfg s Hfd ltac:(lia))
      as (frames & s2 & Hrun & Hfd2 & Hlt & Hc2 & Hpl2).
    destruct (IH (Z.to_nat (alsa_buffer_data_length s2)) ltac:(lia) s2
                eq_refl Hfd2)
      as (tr & s' & Hpe & Hrun' & Hfd' & Hd' & Hc' & Hpl').
    exists ([Pump_turn; Pump_written frames 0] ++ tr), s'.
    split_and!; try done.
    + rewrite run_app, Hrun. exact Hrun'.
    + congruence.
    + by rewrite Hpl', Hpl2.
Qed.

Lemma pump_lands cfg s :
  running cfg s ->
  exists tr s2,
    forallb pump_event tr = true /\
    run cfg tr s = Some s2 /\
    feeding cfg s2 /\
    caller s2 = caller s /\
    played s2 ++ ring_contents s2 = played s ++ ring_contents s.
Proof.
  intros [Hok Hwh Hfeed Hq Hp Hpc].
  destruct (pump_thread s) as [|frames chunk|] eqn:Hpt; [| |done].
  { exists [], s. by split_and!. }
  pose proof (ok_pump s Hok) as Hpump. rewrite Hpt in Hpump.
  destruct Hpump as (Hrd & Hfr & Hfb & Hend & Hchunk).
  pose proof (ok_frame s Hok) as Hfpos.
  assert (writei_answer frames frames = true) as Hans.
  { unfold writei_answer. apply andb_true_iff.
    split; apply Z.leb_le; lia. }
  destruct (pump_written_accepts chunk frames 0 s frames Hok Hpt Hans)
    as (n & _ & Hn & Hb' & Hl' & Hs' & Hd' & Hr' & Hra' & Hf' & Hp' & _).
  cbn zeta in *.
  destruct (Z.ltb_spec frames 0); [lia|].
  destruct Hwh as (Hwn & Hws & Hwd).
  assert ((frame_bytes s | n)) as Hdn
      by (subst n; apply Z.divide_factor_r).
  assert ((frame_bytes s
           | alsa_buffer_data_start (pump_written chunk frames 0 s)))
    as Hdiv.
  { rewrite Hs'. clear Hs'. case_decide; [|apply Z.divide_0_r].
    by apply Z.divide_add_r. }
  clear Hs'.
  destruct (pump_written_fixed chunk frames 0 s) as (_ & _ & _ & _ & Hq2).
  destruct (pump_written_clock chunk frames 0 s) as (Hp2 & _ & _).
  destruct (pump_written_caller chunk frames 0 s) as [Hc2 _].
  cbn zeta in *.
  exists [Pump_written frames 0], (pump_written chunk frames 0 s).
  split; [done|]. split.
  { cbn [run]. by rewrite (step_Pump_written cfg _ _ _ _ _ Hpt Hans). }
  split; [|split].
  - split.
    + by eapply pump_written_ring_ok.
    + unfold whole_frames. rewrite Hl', Hd', Hf'.
      split_and!; [done | done | by apply Z.divide_sub_r].
    + destruct Hfeed. unfold pump_can_feed. by rewrite Hl', Hra', Hf'.
    + by rewrite Hq2.
    + by rewrite Hp2.
    + done.
  - done.
  - by apply (pump_written_contents chunk frames 0 s frames).
Qed.

Lemma drain_loop_fields cfg hw s :
  let s' := drain_loop cfg hw s in
  alsa_buffer s' = alsa_buffer s /\
  alsa_buffer_length s' = alsa_buffer_length s /\
  alsa_buffer_data_start s' = alsa_buffer_data_start s /\
  alsa_buffer_data_length s' = alsa_buffer_data_length s /\
  alsa_rate s' = alsa_rate s /\ frame_bytes s' = frame_bytes s /\
  pump_quit s' = pump_quit s /\ pump_thread s' = pump_thread s /\
  played s' = played s.
Proof.
  unfold drain_loop. repeat case_match; try destruct hw; done.
Qed.

Lemma pump_feeder tr :
  forallb pump_event tr = true -> forallb feeder_event tr = true.
Proof.
  induction tr as [|e tr IH]; cbn; [done|].
  intros [He Htr]%andb_true_iff. apply andb_true_iff.
  split; [by destruct e | auto].
Qed.

(** X7.  [alsa_drain] comes to an end when the ring holds whole frames, a
    quarter of it (and, under the delay workaround, a hundredth of a second)
    holds at least one frame, the pump thread has not left its loop, and the
    device takes what it is offered: wherever the pump is when the drain is
    called, at the head of its loop or inside a device write, there is a run
    of the pump after which the drain returns, with the ring empty and
    everything that waited played in order.  The drain starts playback
    itself when the session is still paused. *)
Theorem drain_completes cfg hw s :
  ring_ok s -> whole_frames s -> pump_can_feed cfg s ->
  pump_quit s = false -> pump_thread s <> PumpExited -> caller s = Idle ->
  exists tr s',
    forallb feeder_event tr = true /\
    run cfg (Drain hw :: tr) s = Some s' /\
    caller s' = Idle /\
    alsa_buffer_data_length s' = 0 /\
    played s' = played s ++ ring_contents s.
Proof.
  intros Hok Hwh Hfeed Hq Hpc Hc.
  assert (step cfg (Drain hw) s = Some (drain_loop cfg hw s)) as Hstep
      by (unfold step; by rewrite Hc).
  destruct (drain_loop_fields cfg hw s)
    as (E1 & E2 & E3 & E4 & E5 & E6 & E7 & E8 & E9).
  cbn zeta in *.
  destruct (Z.gtb_spec (alsa_buffer_data_length s) 0) as [Hpos|Hnpos].
  - assert (running cfg (drain_loop cfg hw s)) as Hrn.
    { split.
      - by apply drain_loop_ring_ok.
      - unfold whole_frames. by rewrite E2, E3, E4, E6.
      - unfold pump_can_feed. by rewrite E2, E5, E6.
      - congruence.
      - apply drain_loop_restarts. by apply Z.gtb_lt.
      - congruence. }
    assert (caller (drain_loop cfg hw s) = Draining) as Hc1.
    { unfold drain_loop. apply Z.gtb_lt in Hpos. rewrite Hpos.
      by destruct (alsa_paused s). }
    destruct (pump_lands cfg _ Hrn)
      as (tr0 & s1 & Hpe0 & Hrun0 & Hfd & Hc0 & Hpl0).
    destruct (pump_drains cfg _ Hfd)
      as (tr & s2 & Hpe & Hrun & Hfd2 & Hd2 & Hc2 & Hpl2).
    destruct (drain_loop_fields cfg hw s2)
      as (_ & _ & _ & F4 & _ & _ & _ & _ & F9).
    cbn zeta in *.
    exists ((tr0 ++ tr) ++ [Wake hw]), (drain_loop cfg hw s2).
    split; [|split; [|split; [|split]]].
    + rewrite !forallb_app, (pump_feeder tr0 Hpe0), (pump_feeder tr Hpe).
      done.
    + cbn [run]. rewrite Hstep, !run_app, Hrun0. cbn [mbind option_bind].
      rewrite Hrun. cbn. unfold step. by rewrite Hc2, Hc0, Hc1.
    + unfold drain_loop. rewrite Hd2. cbn.
      by destruct (alsa_config_drain_workaround cfg).
    + by rewrite F4.
    + rewrite F9, Hpl2, Hpl0, E9. unfold ring_contents.
      by rewrite E1, E3, E4.
  - pose proof (ok_read s Hok) as Hrd.
    assert (alsa_buffer_data_length s = 0) as Hz by lia.
    exists [], (drain_loop cfg hw s).
    split; [done|]. split; [cbn [run]; by rewrite Hstep|].
    split; [|split]; [| by rewrite E4 |].
    + unfold drain_loop. rewrite Hz. cbn.
      by destruct (alsa_config_drain_workaround cfg).
    + rewrite E9. unfold ring_contents. rewrite Hz.
      change (Z.to_nat 0) with 0%nat. by rewrite window_nil, app_nil_r.
Qed.

Lemma drain_completes_witness :
  exists tr s',
    forallb feeder_event tr = true /\
    run demo_cfg (Drain false :: tr) demo_playing = Some s' /\
    caller s' = Idle /\
    alsa_buffer_data_length s' = 0 /\
    played s' = [x01; x02; x03; x04; x05; x06; x07; x08].
Proof.
  refine (drain_completes demo_cfg false demo_playing _ _ _ _ _ _).
  - exact demo_playing_ok.
  - unfold whole_frames. cbn.
    split_and!; [by exists 4 | by exists 0 | by exists 4].
  - split; [cbn; lia | discriminate].
  - reflexivity.
  - discriminate.
  - reflexivity.
Defined.

(** ** Close *)

Lemma alsa_close_audio_fields cfg s :
  let s' := alsa_close_audio cfg s in
  pump_quit s' = true /\ caller s' = Closing /\
  pump_thread s' = pump_thread s /\ played s' = played s /\
  handed (pcm_log s') = handed (pcm_log s).
Proof.
  unfold alsa_close_audio. case_match; cbn; split_and!; try done.
  by rewrite handed_app, app_nil_r.
Qed.

Lemma step_closing cfg e s s' :
  step cfg e s = Some s' ->
  pump_quit s = true ->
  caller s = Closing \/ caller s = Closed ->
  (caller s' = Closing \/ caller s' = Closed) /\
  handed (pcm_log s') = handed (pcm_log s).
Proof.
  intros Hstep Hq Hc.
  assert (is_flush e = false) as Hnf.
  { destruct e; try done. unfold step in Hstep.
    destruct Hc as [Hc|Hc]; by rewrite Hc in Hstep. }
  split; [|apply (step_handed_paused cfg e s s'); auto].
  destruct e; try done; unfold step in Hstep.
  - destruct Hc as [Hc|Hc]; by rewrite Hc in Hstep.
  - destruct Hc as [Hc|Hc]; by rewrite Hc in Hstep.
  - destruct Hc as [Hc|Hc]; by rewrite Hc in Hstep.
  - destruct Hc as [Hc|Hc]; rewrite Hc in Hstep; simplify_eq.
    unfold close_join. destruct (pump_thread s); cbn; auto.
  - destruct Hc as [Hc|Hc]; rewrite Hc in Hstep; simplify_eq.
    rewrite alsa_pause_caller. auto.
  - destruct Hc as [Hc|Hc]; rewrite Hc in Hstep; simplify_eq. auto.
  - assert (s' = pump_turn cfg s) as ->
        by (destruct (caller s), (pump_thread s); by simplify_eq).
    by rewrite pump_turn_caller.
  - fold (step cfg (Pump_written written recovered) s) in Hstep.
    apply step_Pump_written_inv in Hstep as (frames & chunk & _ & _ & ->).
    by destruct (pump_written_caller chunk written recovered s) as [-> _].
Qed.

Lemma run_closing cfg tr s s' :
  run cfg tr s = Some s' ->
  pump_quit s = true ->
  caller s = Closing \/ caller s = Closed ->
  pump_quit s' = true /\ handed (pcm_log s') = handed (pcm_log s).
Proof.
  revert s. induction tr as [|e tr IH]; intros s Hrun Hq Hcc; cbn in Hrun.
  - by simplify_eq.
  - destruct (step cfg e s) as [s2|] eqn:Hstep; [|done].
    destruct (step_closing cfg e s s2 Hstep Hq Hcc) as [Hcc2 Hh2].
    destruct (step_fixed cfg e s s2 Hstep) as (_ & _ & _ & Hq2).
    destruct (IH s2 Hrun (Hq2 Hq) Hcc2) as [? ?].
    split; [done | congruence].
Qed.

(** X8.  [alsa_close_audio] comes to an end, at the latest when the
    device write in flight has returned and the pump has looked at
    [pump_quit] once more; and from the moment it is called no further chunk
    is handed to the device, whatever the threads do: data still waiting in
    the ring is dropped, not played. *)
Theorem close_returns cfg s :
  ring_ok s -> caller s = Idle ->
  (exists tr s',
     forallb feeder_event tr = true /\
     run cfg (Close_audio :: tr) s = Some s' /\
     caller s' = Closed /\ pump_thread s' = PumpExited) /\
  (forall tr s',
     run cfg (Close_audio :: tr) s = Some s' ->
     pump_quit s' = true /\
     handed (pcm_log s') = handed (pcm_log s)).
Proof.
  intros Hok Hc.
  assert (step cfg Close_audio s = Some (alsa_close_audio cfg s)) as Hstep
      by (unfold step; by rewrite Hc).
  destruct (alsa_close_audio_fields cfg s) as (Hq & Hc1 & Hp1 & _ & Hh1).
  cbn zeta in *. set (s1 := alsa_close_audio cfg s) in *.
  split.
  - assert (forall t, pump_quit t = true -> caller t = Closing ->
                      pump_thread t = PumpLoop ->
                      exists t', run cfg [Pump_turn; Wake false] t = Some t' /\
                                 caller t' = Closed /\
                                 pump_thread t' = PumpExited) as Hexit.
    { intros t Hqt Hct Hpt.
      exists (set_caller (pcm_do (set_pump t PumpExited) Pcm_close) Closed).
      split; [|done]. cbn [run].
      assert (step cfg Pump_turn t = Some (set_pump t PumpExited)) as ->.
      { unfold step. rewrite Hpt. unfold pump_turn. by rewrite Hqt. }
      unfold step. cbn. by rewrite Hct. }
    destruct (pump_thread s) as [|frames chunk|] eqn:Hpc.
    + destruct (Hexit s1 Hq Hc1 Hp1) as (t' & Hrun & ? & ?).
      exists [Pump_turn; Wake false], t'.
      split; [done|]. split; [|done]. cbn [run]. by rewrite Hstep.
    + pose proof (alsa_close_audio_ring_ok cfg s Hok) as Hok1. fold s1 in Hok1.
      assert (writei_answer frames 0 = true) as Hans.
      { pose proof (ok_pump s Hok) as Hp. rewrite Hpc in Hp.
        unfold writei_answer. apply andb_true_iff.
        split; [done | apply Z.leb_le; lia]. }
      set (s2 := pump_written chunk 0 0 s1).
      destruct (pump_written_fixed chunk 0 0 s1) as (_ & _ & _ & _ & Hq2).
      destruct (pump_written_caller chunk 0 0 s1) as [Hc2 _].
      destruct (pump_written_accepts chunk 0 0 s1 frames Hok1 Hp1 Hans)
        as (n & _ & _ & _ & _ & _ & _ & _ & _ & _ & Hp2 & _).
      cbn zeta in *. fold s2 in Hq2, Hc2, Hp2.
      destruct (Hexit s2 ltac:(congruence) ltac:(congruence) Hp2)
        as (t' & Hrun & ? & ?).
      exists (Pump_written 0 0 :: [Pump_turn; Wake false]), t'.
      split; [done|]. split; [|done].
      cbn [run]. rewrite Hstep.
      rewrite (step_Pump_written cfg _ _ _ _ _ Hp1 Hans). exact Hrun.
    + exists [Wake false], (close_join s1). split; [done|].
      cbn [run]. rewrite Hstep. unfold step. rewrite Hc1.
      split; [reflexivity|]. unfold close_join. by rewrite Hp1.
  - intros tr s' Hrun. cbn [run] in Hrun. rewrite Hstep in Hrun.
    rewrite <- Hh1. apply (run_closing cfg tr s1 s' Hrun Hq). auto.
Qed.

Lemma close_returns_witness :
  exists s',
    run demo_cfg
      [Close_audio; Pump_written 1 0; Pause 1 (status_ok 0); Pump_turn;
       Wake false] demo_playing = Some s' /\
    caller s' = Closed /\
    played s' = [x01; x02] /\
    handed (pcm_log s') = [x01; x02].
Proof.
  eexists. split; [vm_compute; reflexivity|].
  split; [reflexivity|]. split; [reflexivity|].
  match goal with |- handed (pcm_log ?s') = _ =>
    rewrite (proj2 (proj2 (close_returns demo_cfg demo_playing
                             demo_playing_ok eq_refl)
                      [Pump_written 1 0; Pause 1 (status_ok 0); Pump_turn;
                       Wake false] s' ltac:(vm_compute; reflexivity)))
  end.
  reflexivity.
Defined.

(** ** Writes that fit and writes that do not *)

Lemma write_pass_fields (data : list byte) s :
  ring_ok s ->
  let w := Z.min (alsa_buffer_length s - alsa_buffer_data_length s)
             (Z.of_nat (length data)) in
  let s' := (write_pass data s).1 in
  (write_pass data s).2 = drop (Z.to_nat w) data /\
  ring_contents s' = ring_contents s ++ take (Z.to_nat w) data /\
  alsa_buffer_data_length s' = alsa_buffer_data_length s + w /\
  alsa_time s' =
    alsa_time s + cdiv (cdiv w (frame_bytes s) * 1000000) (alsa_rate s) /\
  alsa_paused s' = alsa_paused s /\ pcm_log s' = pcm_log s /\
  played s' = played s /\ pump_thread s' = pump_thread s.
Proof.
  intros Hok. destruct (MIN_writable s data Hok) as [Hw Hfree].
  pose proof (window_write_copy data _ s Hok Hw Hfree) as Hwin.
  cbn zeta in *. rewrite <- MIN_min.
  unfold write_pass. cbn zeta. cbn [fst snd].
  split_and!; try done.
Qed.

(** X9.  A write that fits the free space of the ring returns without
    waiting: its bytes are behind those that waited, the written time has
    advanced by the length of its whole frames, and nothing else happens.  In
    particular a session that is paused for buffering stays paused and the
    device is not touched: playback does not start before a write has to
    wait. *)
Theorem write_fits cfg hw data s :
  ring_ok s -> caller s = Idle ->
  Z.of_nat (length data)
    <= alsa_buffer_length s - alsa_buffer_data_length s ->
  let s' := alsa_write_audio hw data s in
  step cfg (Write_audio hw data) s = Some s' /\
  caller s' = Idle /\
  ring_contents s' = ring_contents s ++ data /\
  alsa_buffer_data_length s' =
    alsa_buffer_data_length s + Z.of_nat (length data) /\
  alsa_time s' =
    alsa_time s +
    cdiv (cdiv (Z.of_nat (length data)) (frame_bytes s) * 1000000)
      (alsa_rate s) /\
  alsa_paused s' = alsa_paused s /\
  pcm_log s' = pcm_log s /\ played s' = played s.
Proof.
  intros Hok Hc Hfit. cbn zeta.
  rewrite (step_Write_audio cfg hw data s Hc). split; [done|].
  unfold alsa_write_audio.
  set (t := set_io s (pcm_log s) (played s) (passed s ++ data)).
  assert (ring_ok t) as Hokt by (subst t; ring_same).
  destruct (write_pass_fields data t Hokt)
    as (Hrest & Hring & Hdl & Htime & Hp & Hlog & Hpl & _).
  cbn zeta in *.
  replace (Z.min (alsa_buffer_length t - alsa_buffer_data_length t)
             (Z.of_nat (length data)))
    with (Z.of_nat (length data)) in * by (subst t; cbn; lia).
  rewrite Nat2Z.id in *. rewrite drop_all in Hrest. rewrite take_ge in Hring by done.
  unfold write_loop.
  destruct (write_pass data t) as [s1 rest]. cbn [fst snd] in *. subst rest.
  split_and!; done.
Qed.

Lemma write_fits_witness :
  let s' := alsa_write_audio false [x01; x02; x03] demo_open in
  caller s' = Idle /\ ring_contents s' = [x01; x02; x03] /\
  alsa_paused s' = true /\ alsa_time s' = 125000.
Proof.
  cbn zeta.
  destruct (write_fits demo_cfg false [x01; x02; x03] demo_open)
    as (_ & H1 & H2 & _ & H4 & H5 & _).
  - split; cbn; try lia; done.
  - reflexivity.
  - cbn. lia.
  - split_and!; [exact H1 | exact H2 | exact H5 | exact H4].
Defined.

(** X10.  A write longer than the free space fills the ring to the brim
    with the front of its data, starts playback if the session is paused
    (by [snd_pcm_pause] when the device is paused, by [snd_pcm_prepare]
    otherwise) and waits with the rest. *)
Theorem write_overflows cfg hw data s :
  ring_ok s -> caller s = Idle ->
  alsa_buffer_length s - alsa_buffer_data_length s
    < Z.of_nat (length data) ->
  let free := Z.to_nat (alsa_buffer_length s - alsa_buffer_data_length s) in
  let s' := alsa_write_audio hw data s in
  step cfg (Write_audio hw data) s = Some s' /\
  caller s' = Writing (drop free data) /\
  drop free data <> [] /\
  ring_contents s' = ring_contents s ++ take free data /\
  alsa_buffer_data_length s' = alsa_buffer_length s /\
  alsa_paused s' = false /\
  pcm_log s' =
    pcm_log s ++
    (if alsa_paused s
     then [if hw then Pcm_pause 0 else Pcm_prepare] else []) /\
  played s' = played s.
Proof.
  intros Hok Hc Hover. cbn zeta.
  rewrite (step_Write_audio cfg hw data s Hc). split; [done|].
  unfold alsa_write_audio.
  set (t := set_io s (pcm_log s) (played s) (passed s ++ data)).
  assert (ring_ok t) as Hokt by (subst t; ring_same).
  destruct (write_pass_fields data t Hokt)
    as (Hrest & Hring & Hdl & _ & Hp & Hlog & Hpl & _).
  cbn zeta in *.
  pose proof (ok_data s Hok) as Hd.
  replace (Z.min (alsa_buffer_length t - alsa_buffer_data_length t)
             (Z.of_nat (length data)))
    with (alsa_buffer_length s - alsa_buffer_data_length s) in *
    by (subst t; cbn; lia).
  assert (drop (Z.to_nat (alsa_buffer_length s - alsa_buffer_data_length s))
            data <> []) as Hne.
  { intros Hnil. apply (f_equal length) in Hnil.
    rewrite length_drop in Hnil. cbn in Hnil. lia. }
  split; [|split; [done|]].
  all: unfold write_loop;
    destruct (write_pass data t) as [s1 rest]; cbn [fst snd] in *;
    subst rest;
    destruct (drop (Z.to_nat (alsa_buffer_length s - alsa_buffer_data_length s))
                data) as [|b rest] eqn:Hdrop; [done|].
  - done.
  - assert (alsa_paused s = alsa_paused s1) as -> by (by rewrite Hp).
    destruct (alsa_paused s1) eqn:Hps; [destruct hw|]; cbn;
      rewrite ?Hring, ?Hdl, ?Hlog, ?Hpl; subst t; cbn;
      rewrite ?app_nil_r; split_and!; try done; lia.
Qed.

Lemma write_overflows_witness :
  let s' :=
    alsa_write_audio true [x01; x02; x03; x04; x05; x06; x07; x08; x09]
      demo_open in
  caller s' = Writing [x09] /\
  alsa_buffer_data_length s' = 8 /\
  alsa_paused s' = false /\
  pcm_log s' = [Pcm_set_buffer_time_max 500000; Pcm_pause 0].
Proof.
  cbn zeta.
  destruct (write_overflows demo_cfg true
              [x01; x02; x03; x04; x05; x06; x07; x08; x09] demo_open)
    as (_ & H1 & _ & _ & H4 & H5 & H6 & _).
  - split; cbn; try lia; done.
  - reflexivity.
  - cbn. lia.
  - split_and!; [exact H1 | exact H4 | exact H5 | exact H6].
Defined.

(** ** A waiting write goes on *)

Lemma min_divide a b c : (c | a) -> (c | b) -> (c | Z.min a b).
Proof. intros. by destruct (Z.min_spec a b) as [[_ ->]|[_ ->]]. Qed.

Lemma ring_contents_empty s :
  alsa_buffer_data_length s = 0 -> ring_contents s = [].
Proof.
  intros Hz. unfold ring_contents. rewrite Hz.
  change (Z.to_nat 0) with 0%nat. apply window_nil.
Qed.

Lemma write_loop_blocked cfg hw data s :
  ring_ok s -> whole_frames s -> pump_can_feed cfg s ->
  pump_quit s = false -> pump_thread s <> PumpExited ->
  (frame_bytes s | Z.of_nat (length data)) ->
  let s' := write_loop hw data s in
  played s' = played s /\
  ring_contents s' ++ pending (caller s') = ring_contents s ++ data /\
  (caller s' = Idle \/
   exists rest,
     caller s' = Writing rest /\ running cfg s' /\
     (frame_bytes s' | Z.of_nat (length rest)) /\
     (alsa_buffer_data_length s < alsa_buffer_length s ->
      (length rest < length data)%nat)).
Proof.
  intros Hok (Hwn & Hws & Hwd) [Hfeed Hrate] Hq Hpc Hdiv. cbn zeta.
  destruct (write_loop_stream hw data s Hok) as (Hpl & _ & Hrc).
  cbn zeta in *. split; [done|]. split; [done|]. clear Hpl Hrc.
  pose proof (write_loop_ring_ok hw data s Hok) as Hok'.
  destruct (write_pass_fields data s Hok)
    as (Hrest & _ & Hdl & _ & _ & _ & _ & Hpt).
  cbn zeta in *.
  set (w := Z.min (alsa_buffer_length s - alsa_buffer_data_length s)
              (Z.of_nat (length data))) in *.
  assert (alsa_buffer_length (write_pass data s).1 = alsa_buffer_length s /\
          alsa_buffer_data_start (write_pass data s).1
          = alsa_buffer_data_start s /\
          alsa_rate (write_pass data s).1 = alsa_rate s /\
          frame_bytes (write_pass data s).1 = frame_bytes s /\
          pump_quit (write_pass data s).1 = pump_quit s)
    as (E1 & E2 & E3 & E4 & E5) by done.
  assert ((frame_bytes s | w)) as Hw
      by (apply min_divide; [by apply Z.divide_sub_r | done]).
  pose proof (ok_data s Hok) as Hd.
  revert Hok'. unfold write_loop.
  destruct (write_pass data s) as [s1 rest]. cbn [fst snd] in *.
  intros Hok'. destruct rest as [|b rest]; [by left|]. right.
  exists (b :: rest).
  set (s2 := if alsa_paused s1 then start_playback hw s1 else s1) in *.
  assert (alsa_buffer_length s2 = alsa_buffer_length s1 /\
          alsa_buffer_data_start s2 = alsa_buffer_data_start s1 /\
          alsa_buffer_data_length s2 = alsa_buffer_data_length s1 /\
          alsa_rate s2 = alsa_rate s1 /\ frame_bytes s2 = frame_bytes s1 /\
          pump_quit s2 = pump_quit s1 /\ pump_thread s2 = pump_thread s1 /\
          alsa_paused s2 = false)
    as (F1 & F2 & F3 & F4 & F5 & F6 & F7 & F8).
  { subst s2. destruct (alsa_paused s1) eqn:Hp; [destruct hw|]; done. }
  assert (Z.of_nat (length (b :: rest)) = Z.of_nat (length data) - w)
    as Hlen.
  { rewrite Hrest, length_drop. subst w. lia. }
  split; [done|]. split; [|split].
  - split.
    + exact Hok'.
    + unfold whole_frames. cbn. rewrite F1, F2, F3, F5, E1, E2, E4, Hdl.
      split_and!; [done | done | by apply Z.divide_add_r].
    + unfold pump_can_feed. cbn. rewrite F1, F4, F5, E1, E3, E4. done.
    + cbn. congruence.
    + cbn. congruence.
    + cbn. congruence.
  - change (frame_bytes (set_caller s2 (Writing (b :: rest))))
      with (frame_bytes s2).
    rewrite F5, E4, Hlen.
    by apply Z.divide_sub_r.
  - intros Hfree. cbn [length] in *. subst w. lia.
Qed.

Lemma writer_finishes cfg (hw : bool) rest s :
  running cfg s -> caller s = Writing rest ->
  (frame_bytes s | Z.of_nat (length rest)) ->
  exists tr s',
    forallb feeder_event tr = true /\
    run cfg tr s = Some s' /\
    caller s' = Idle /\
    played s' ++ ring_contents s' = played s ++ ring_contents s ++ rest.
Proof.
  remember (length rest) as n eqn:Hn.
  revert rest s Hn. induction n as [n IH] using lt_wf_ind.
  intros rest s Hn Hrn Hc Hdiv. rewrite Hn in Hdiv.
  destruct (pump_lands cfg s Hrn)
    as (tr0 & s1 & Hpe0 & Hrun0 & Hfd & Hc0 & Hpl0).
  destruct (pump_drains cfg s1 Hfd)
    as (tr & s2 & Hpe & Hrun & Hfd2 & Hd2 & Hc2 & Hpl2).
  assert (run cfg (tr0 ++ tr) s = Some s2) as Hrun2
      by (by rewrite run_app, Hrun0).
  destruct (run_fixed cfg _ s s2 Hrun2) as (_ & _ & Hfb & _).
  destruct Hfd2 as [Hok2 Hwh2 Hfeed2 Hq2 Hp2 Hpc2].
  pose proof (ok_length s2 Hok2) as Hlen2.
  rewrite <- Hfb in Hdiv.
  destruct (write_loop_blocked cfg hw rest s2 Hok2 Hwh2 Hfeed2 Hq2
              ltac:(by rewrite Hpc2) Hdiv)
    as (Hpl3 & Hrc3 & Hcase).
  cbn zeta in *.
  assert (run cfg ((tr0 ++ tr) ++ [Wake hw]) s
          = Some (write_loop hw rest s2)) as Hrun3.
  { rewrite run_app, Hrun2. cbn. unfold step. by rewrite Hc2, Hc0, Hc. }
  assert (forallb feeder_event ((tr0 ++ tr) ++ [Wake hw]) = true) as Hfe3.
  { by rewrite !forallb_app, (pump_feeder tr0 Hpe0), (pump_feeder tr Hpe). }
  assert (played s2 = played s ++ ring_contents s) as Hpl
      by (by rewrite Hpl2, Hpl0).
  rewrite (ring_contents_empty s2 Hd2) in Hrc3. cbn [app] in Hrc3.
  set (s3 := write_loop hw rest s2) in *.
  destruct Hcase as [Hidle|(rest' & Hc3 & Hrn3 & Hdiv3 & Hless)].
  - exists ((tr0 ++ tr) ++ [Wake hw]), s3.
    split_and!; try done.
    rewrite Hidle in Hrc3. cbn [pending] in Hrc3.
    rewrite app_nil_r in Hrc3.
    by rewrite Hpl3, Hpl, Hrc3, (assoc_L (++)).
  - destruct (IH (length rest') ltac:(subst n; apply Hless; lia) rest'
                s3 eq_refl Hrn3 Hc3 Hdiv3)
      as (tr' & s' & Hfe' & Hrun' & Hc' & Hpl').
    exists (((tr0 ++ tr) ++ [Wake hw]) ++ tr'), s'.
    split_and!; try done.
    + by rewrite forallb_app, Hfe3, Hfe'.
    + rewrite run_app, Hrun3. exact Hrun'.
    + rewrite Hc3 in Hrc3. cbn [pending] in Hrc3.
      rewrite Hpl', Hrc3, Hpl3, Hpl. by rewrite (assoc_L (++)).
Qed.

(** X19.  [alsa_write_audio] comes to an end when the ring and the data
    hold whole frames, a quarter of the ring (and, under the delay
    workaround, a hundredth of a second) holds at least one frame, the pump
    thread has not left its loop, and the device takes what it is offered: a
    write that fits returns at once, and for one that has to wait, wherever
    the pump is when the write is called, at the head of its loop or inside
    a device write, there is a run of the pump and of wake-ups after which
    it returns, with all its bytes played or waiting in the ring behind
    those that were there before, in order.  The write starts playback
    itself when the session is still paused. *)
Theorem write_completes cfg hw data s :
  ring_ok s -> whole_frames s -> pump_can_feed cfg s ->
  pump_quit s = false -> pump_thread s <> PumpExited -> caller s = Idle ->
  (frame_bytes s | Z.of_nat (length data)) ->
  exists tr s',
    forallb feeder_event tr = true /\
    run cfg (Write_audio hw data :: tr) s = Some s' /\
    caller s' = Idle /\
    played s' ++ ring_contents s' = played s ++ ring_contents s ++ data.
Proof.
  intros Hok Hwh Hfeed Hq Hpc Hc Hdiv.
  pose proof (step_Write_audio cfg hw data s Hc) as Hstep.
  unfold alsa_write_audio in Hstep.
  set (t := set_io s (pcm_log s) (played s) (passed s ++ data)) in *.
  assert (ring_ok t) as Hokt by (subst t; ring_same).
  destruct (write_loop_blocked cfg hw data t Hokt Hwh Hfeed Hq Hpc Hdiv)
    as (Hpl & Hrc & Hcase).
  cbn zeta in *.
  assert (played t = played s /\ ring_contents t = ring_contents s)
    as [Ept Erc] by done.
  rewrite Ept in Hpl. rewrite Erc in Hrc.
  set (s1 := write_loop hw data t) in *.
  destruct Hcase as [Hidle|(rest & Hc1 & Hrn1 & Hdiv1 & _)].
  - exists [], s1. split; [done|].
    split; [cbn [run]; by rewrite Hstep|]. split; [done|].
    rewrite Hidle in Hrc. cbn [pending] in Hrc. rewrite app_nil_r in Hrc.
    by rewrite Hpl, Hrc.
  - destruct (writer_finishes cfg hw rest s1 Hrn1 Hc1 Hdiv1)
      as (tr & s' & Hfe & Hrun & Hc' & Hpl').
    exists tr, s'. split; [done|].
    split; [cbn [run]; by rewrite Hstep|]. split; [done|].
    rewrite Hc1 in Hrc. cbn [pending] in Hrc. by rewrite Hpl', Hrc, Hpl.
Qed.

Lemma write_completes_witness :
  exists tr s',
    forallb feeder_event tr = true /\
    run demo_cfg (Write_audio false [x09; x0a; x0b; x0c] :: tr)
      demo_playing = Some s' /\
    caller s' = Idle /\
    played s' ++ ring_contents s'
    = [x01; x02; x03; x04; x05; x06; x07; x08; x09; x0a; x0b; x0c].
Proof.
  refine (write_completes demo_cfg false [x09; x0a; x0b; x0c]
            demo_playing _ _ _ _ _ _ _).
  - exact demo_playing_ok.
  - unfold whole_frames. cbn.
    split_and!; [by exists 4 | by exists 0 | by exists 4].
  - split; [cbn; lia | discriminate].
  - reflexivity.
  - discriminate.
  - reflexivity.
  - by exists 2.
Defined.

(** ** The clock *)

(** X11.  [alsa_set_written_time] and [alsa_written_time] round-trip for
    every [int], negative ones included; setting the written time touches
    neither the ring nor the pause state, so a paused session goes on
    answering its snapshot as output time. *)
Theorem set_written_time_round_trip cfg time s :
  int_range time -> caller s <> Closed ->
  let s' := alsa_set_written_time time s in
  step cfg (Set_written_time time) s = Some s' /\
  alsa_written_time s' = time /\
  ring_contents s' = ring_contents s /\
  alsa_paused s' = alsa_paused s /\
  (alsa_paused s = true ->
   forall st, alsa_output_time st s' = alsa_output_time st s).
Proof.
  intros Hr Hc. cbn zeta. split_and!; try done.
  - unfold step. by destruct (caller s).
  - apply alsa_written_time_ms; [done|]. cbn. lia.
  - intros Hp st. unfold alsa_output_time. cbn. by rewrite Hp.
Qed.

Lemma set_written_time_round_trip_witness :
  alsa_written_time (alsa_set_written_time (-1500) demo_playing) = -1500.
Proof.
  refine (proj1 (proj2 (set_written_time_round_trip demo_cfg (-1500)
                          demo_playing _ _))).
  - unfold int_range. lia.
  - discriminate.
Defined.

(** X12.  While playing, the output time is never ahead of the written
    time: with a device that reports a delay that is not negative, and both
    times within the range of [int], [alsa_output_time] is at most
    [alsa_written_time]. *)
Theorem output_time_not_ahead st s :
  ring_ok s -> alsa_paused s = false ->
  0 <= status_error st -> 0 <= status_delay st ->
  int_range (cdiv (alsa_time s) 1000) ->
  int_range
    (cdiv
       (alsa_time s -
        cdiv
          ((snd_pcm_bytes_to_frames s
              (alsa_buffer_data_length s - alsa_buffer_read_length s)
            + status_delay st) * 1000000)
          (alsa_rate s))
       1000) ->
  alsa_output_time st s <= alsa_written_time s.
Proof.
  intros Hok Hp Hst Hd Hr1 Hr2.
  unfold alsa_output_time, real_output_time, alsa_written_time.
  rewrite Hp, (CHECK_ok _ Hst), !to_int_id by done.
  destruct Hok. unfold cdiv, snd_pcm_bytes_to_frames, cdiv in *.
  apply Z.quot_le_mono; [lia|].
  assert (0 <= (alsa_buffer_data_length s - alsa_buffer_read_length s)
               ÷ frame_bytes s) by (apply Z.quot_pos; lia).
  assert (0 <= ((alsa_buffer_data_length s - alsa_buffer_read_length s)
                ÷ frame_bytes s + status_delay st) * 1000000
               ÷ alsa_rate s) by (apply Z.quot_pos; lia).
  lia.
Qed.

Lemma output_time_not_ahead_witness :
  alsa_output_time (status_ok 5) demo_playing
  <= alsa_written_time demo_playing.
Proof.
  apply (output_time_not_ahead (status_ok 5) demo_playing demo_playing_ok).
  - reflexivity.
  - cbn. lia.
  - cbn. lia.
  - vm_compute. split; [discriminate | reflexivity].
  - vm_compute. split; [discriminate | reflexivity].
Defined.

(** ** Open *)

(** X13.  [alsa_open_audio] returns 1 exactly when none of its nine
    checked device calls answers an error and the rate is not 0: with a rate
    of 0 a call that gets past the nine checks divides by zero and does not
    return.  The session it returns is buffering: paused, with an empty
    ring, written time and output time 0, and nothing handed to the device
    yet. *)
Theorem open_succeeds_iff cfg a rate :
  ((exists s, alsa_open_audio cfg a rate = Some s) <->
   (0 <= open_error a /\ 0 <= hw_params_any_error a /\
    0 <= set_access_error a /\ 0 <= set_format_error a /\
    0 <= set_channels_error a /\ 0 <= set_rate_error a /\
    0 <= set_buffer_time_max_error a /\ 0 <= hw_params_error a /\
    0 <= get_params_error a) /\
   rate <> 0) /\
  (forall s, alsa_open_audio cfg a rate = Some s ->
     alsa_paused s = true /\ ring_contents s = [] /\
     alsa_written_time s = 0 /\
     (forall st, alsa_output_time st s = 0) /\
     handed (pcm_log s) = [] /\ played s = []).
Proof.
  split; [split|].
  - intros [s Hopen]. unfold alsa_open_audio in Hopen.
    repeat (apply CHECK_bind in Hopen as [? Hopen]).
    apply divisor_bind in Hopen as [? _]. split_and!; done.
  - intros ((H1 & H2 & H3 & H4 & H5 & H6 & H7 & H8 & H9) & Hrate).
    unfold alsa_open_audio.
    rewrite !CHECK_ok by done. rewrite (divisor_ok rate Hrate). cbn. eauto.
  - intros s Hopen.
    destruct (alsa_open_audio_Some cfg a rate s Hopen)
      as (_ & _ & _ & Hd & _ & _ & _ & Ht & Hp & Hpt & _ & _ & _ & Hpl & _).
    assert (handed (pcm_log s) = []) as Hh.
    { unfold alsa_open_audio in Hopen.
      repeat (apply CHECK_bind in Hopen as [_ Hopen]).
      apply divisor_bind in Hopen as [_ Hopen]. by simplify_eq. }
    split_and!; try done.
    + unfold ring_contents. by rewrite Hd.
    + unfold alsa_written_time. by rewrite Ht.
    + intros st. unfold alsa_output_time. by rewrite Hp.
Qed.

(** ** More about the mixer *)

Module MixerMore.

Import Mixer.

Section AnyElement.

Context {E : Type} `{Selem E}.

Lemma to_int_0 : to_int 0 = 0.
Proof. reflexivity. Qed.

(** X14.  Without a mixer, because none is configured or because opening
    it failed, [alsa_get_volume] answers (0, 0) and [alsa_set_volume] does
    nothing; and the mixer is opened at most once: after the first volume
    call the answers of the system no longer matter, so a failed open is not
    tried again. *)
Theorem no_mixer_is_quiet (a a' : mixer_answers E) (m : mixer_state E)
  (left right : Z) :
  alsa_mixer (alsa_soft_init a m) = None ->
  let m1 := alsa_soft_init a m in
  alsa_get_volume a m = (0, 0, m1) /\
  alsa_set_volume a left right m = m1 /\
  alsa_get_volume a' m1 = (0, 0, m1) /\
  alsa_set_volume a' left right m1 = m1.
Proof.
  intros Hm. cbn zeta.
  assert (alsa_soft_init a' (alsa_soft_init a m) = alsa_soft_init a m) as Hi.
  { unfold alsa_soft_init. by destruct (initted m) eqn:Hin; cbn; rewrite ?Hin. }
  unfold alsa_get_volume, alsa_set_volume. rewrite Hi, Hm, to_int_0. done.
Qed.

(** X15.  [alsa_open_mixer] leaves no mixer exactly when no element name
    is configured, or one of the four calls that open and load the mixer
    fails, or the element is not found, or its volume range cannot be set to
    0..100. *)
Theorem open_mixer_none_iff (a : mixer_answers E) :
  alsa_open_mixer a = None <->
  alsa_config_mixer_element a = false \/
  mixer_open_error a < 0 \/ mixer_attach_error a < 0 \/
  selem_register_error a < 0 \/ mixer_load_error a < 0 \/
  find_selem a = None \/
  exists e, find_selem a = Some e /\
            (snd_mixer_selem_set_playback_volume_range e 0 100).1 < 0.
Proof.
  unfold alsa_open_mixer.
  destruct (alsa_config_mixer_element a); cbn [negb]; [|by intuition].
  unfold CHECK.
  destruct (Z.ltb_spec (mixer_open_error a) 0); cbn; [by intuition|].
  destruct (Z.ltb_spec (mixer_attach_error a) 0); cbn; [by intuition|].
  destruct (Z.ltb_spec (selem_register_error a) 0); cbn; [by intuition|].
  destruct (Z.ltb_spec (mixer_load_error a) 0); cbn; [by intuition|].
  destruct (find_selem a) as [e|]; cbn; [|by intuition].
  destruct (snd_mixer_selem_set_playback_volume_range e 0 100)
    as [error e1] eqn:Hr.
  destruct (Z.ltb_spec error 0); cbn.
  - split; [|done]. intros _. do 6 right. exists e. by rewrite Hr.
  - split; [done|].
    intros [?|[?|[?|[?|[?|[?|(e' & ? & Hlt)]]]]]]; try done; try lia.
    simplify_eq. rewrite Hr in Hlt. cbn in Hlt. lia.
Qed.

(** X16.  When the left channel of a stereo element is read but the read
    of the right channel fails, [alsa_get_volume] stores the left value and
    0 for the right one. *)
Theorem get_volume_right_fails (a : mixer_answers E) (m : mixer_state E)
  (e : E) (v : Z) :
  alsa_mixer (alsa_soft_init a m) = Some e ->
  0 <= (snd_mixer_handle_events e).1 ->
  let e1 := (snd_mixer_handle_events e).2 in
  snd_mixer_selem_is_playback_mono e1 = false ->
  0 <= (snd_mixer_selem_get_playback_volume e1 SND_MIXER_SCHN_FRONT_LEFT).1 ->
  (snd_mixer_selem_get_playback_volume e1 SND_MIXER_SCHN_FRONT_LEFT).2 = v ->
  (snd_mixer_selem_get_playback_volume e1 SND_MIXER_SCHN_FRONT_RIGHT).1 < 0 ->
  (alsa_get_volume a m).1 = (to_int v, 0).
Proof.
  intros Hm Hev. cbn zeta. intros Hmono Hl Hv Hr.
  unfold alsa_get_volume. rewrite Hm. unfold get_volume_of.
  destruct (snd_mixer_handle_events e) as [c0 e1]. cbn [fst snd] in *.
  rewrite (CHECK_ok _ Hev), Hmono.
  destruct (snd_mixer_selem_get_playback_volume e1 SND_MIXER_SCHN_FRONT_LEFT)
    as [c1 v1].
  destruct (snd_mixer_selem_get_playback_volume e1 SND_MIXER_SCHN_FRONT_RIGHT)
    as [c2 v2].
  cbn [fst snd] in *. subst v1.
  by rewrite (CHECK_ok _ Hl), (CHECK_failed _ Hr), to_int_0.
Qed.

End AnyElement.

Import HalfMixer.

Lemma no_mixer_is_quiet_witness :
  alsa_get_volume HalfMixer.no_answers
    {| initted := false; alsa_mixer := Some 7 |}
  = (0, 0, {| initted := true; alsa_mixer := None |}).
Proof.
  exact (proj1 (no_mixer_is_quiet HalfMixer.no_answers HalfMixer.no_answers
                  {| initted := false; alsa_mixer := Some 7 |} 3 4 eq_refl)).
Defined.

Lemma get_volume_right_fails_witness :
  (alsa_get_volume HalfMixer.no_answers (HalfMixer.half_mixer 42)).1
  = (42, 0).
Proof.
  change (42, 0) with (to_int 42, 0).
  apply (get_volume_right_fails HalfMixer.no_answers
           (HalfMixer.half_mixer 42) 42 42).
  - reflexivity.
  - cbn. lia.
  - reflexivity.
  - cbn. lia.
  - reflexivity.
  - vm_compute. reflexivity.
Defined.

End MixerMore.

Module MixerRoundTrip.

Import Mixer MixerFacts.

Lemma leb_in_range lo hi v :
  lo <= v <= hi -> (lo <=? v) && (v <=? hi) = true.
Proof. intros. apply andb_true_iff. split; apply Z.leb_le; lia. Qed.

Lemma nonzero_on v : negb (nonzero v =? 0) = negb (v =? 0).
Proof. unfold nonzero. by destruct (v =? 0). Qed.

Lemma set_volume_opened (a : mixer_answers simple_selem) m e left right :
  alsa_mixer (alsa_soft_init a m) = Some e ->
  alsa_set_volume a left right m
  = {| initted := true; alsa_mixer := Some (set_volume_of left right e) |}.
Proof.
  intros Hm. unfold alsa_set_volume.
  by rewrite Hm, alsa_soft_init_initted.
Qed.

Lemma set_volume_of_stereo sw swj vl vr sl sr left right :
  0 <= left <= 100 -> 0 <= right <= 100 ->
  set_volume_of left right
    {| mono := false; pswitch := sw; pswitch_joined := swj;
       vol_min := 0; vol_max := 100; vol_left := vl; vol_right := vr;
       sw_left := sl; sw_right := sr |}
  = {| mono := false; pswitch := sw; pswitch_joined := swj;
       vol_min := 0; vol_max := 100; vol_left := left; vol_right := right;
       sw_left :=
         if sw then
           if swj then negb (MAX left right =? 0) else negb (left =? 0)
         else sl;
       sw_right :=
         if sw then if swj then sr else negb (right =? 0) else sr |}.
Proof.
  intros Hl Hr.
  unfold set_volume_of, checked, and_then.
  cbn [snd_mixer_selem_is_playback_mono snd_mixer_selem_set_playback_volume
       snd_mixer_selem_has_playback_switch
       snd_mixer_selem_has_playback_switch_joined
       snd_mixer_selem_set_playback_switch snd_mixer_handle_events
       simple_selem_ops mono].
  unfold simple_set_volume at 1 2.
  cbn [has_channel mono negb vol_min vol_max andb].
  rewrite !(leb_in_range 0 100 left) by done. cbn -[nonzero MAX Z.leb].
  unfold simple_set_volume. cbn -[nonzero MAX Z.leb].
  rewrite !(leb_in_range 0 100 right) by done. cbn -[nonzero MAX Z.leb].
  destruct sw, swj; cbn -[nonzero MAX]; rewrite ?nonzero_on; done.
Qed.

Lemma set_volume_of_mono sw swj vl vr sl sr left right :
  0 <= left <= 100 -> 0 <= right <= 100 ->
  set_volume_of left right
    {| mono := true; pswitch := sw; pswitch_joined := swj;
       vol_min := 0; vol_max := 100; vol_left := vl; vol_right := vr;
       sw_left := sl; sw_right := sr |}
  = {| mono := true; pswitch := sw; pswitch_joined := swj;
       vol_min := 0; vol_max := 100; vol_left := Z.max left right;
       vol_right := vr;
       sw_left := if sw then negb (Z.max left right =? 0) else sl;
       sw_right := sr |}.
Proof.
  intros Hl Hr.
  unfold set_volume_of, checked, and_then. rewrite !MAX_max.
  cbn [snd_mixer_selem_is_playback_mono snd_mixer_selem_set_playback_volume
       snd_mixer_selem_has_playback_switch
       snd_mixer_selem_has_playback_switch_joined
       snd_mixer_selem_set_playback_switch snd_mixer_handle_events
       simple_selem_ops mono].
  unfold simple_set_volume, SND_MIXER_SCHN_MONO.
  cbn [has_channel mono negb vol_min vol_max andb].
  rewrite !(leb_in_range 0 100 (Z.max left right)) by lia.
  cbn -[nonzero Z.max Z.leb].
  destruct sw, swj; cbn -[nonzero Z.max]; rewrite ?nonzero_on; done.
Qed.

(** X17.  On a stereo element of the opened mixer, [alsa_set_volume] with
    both values within 0..100 followed by [alsa_get_volume] gives the two
    values back, each on its own channel.  An element with a switch has it
    set from the values: a joined switch is on unless both are 0, separate
    switches are on for the channels whose value is not 0; an element
    without a switch keeps its state. *)
Theorem stereo_set_then_get (a a' : mixer_answers simple_selem) m e
  left right :
  mixer_ok m ->
  alsa_mixer (alsa_soft_init a m) = Some e ->
  mono e = false ->
  0 <= left <= 100 -> 0 <= right <= 100 ->
  let m1 := alsa_set_volume a left right m in
  alsa_get_volume a' m1 = (left, right, m1) /\
  mixer_ok m1 /\
  exists e1,
    alsa_mixer m1 = Some e1 /\
    (pswitch e = true -> pswitch_joined e = true ->
     sw_left e1 = negb (MAX left right =? 0)) /\
    (pswitch e = true -> pswitch_joined e = false ->
     sw_left e1 = negb (left =? 0) /\ sw_right e1 = negb (right =? 0)) /\
    (pswitch e = false ->
     sw_left e1 = sw_left e /\ sw_right e1 = sw_right e).
Proof.
  intros Hok Hm Hmono Hl Hr. cbn zeta.
  destruct (alsa_soft_init_range a m e Hok Hm) as [Hmin Hmax].
  rewrite (set_volume_opened a m e left right Hm).
  assert (to_int left = left /\ to_int right = right) as [Hil Hir]
      by (split; apply to_int_id; unfold int_range; lia).
  destruct e as [mo sw swj lo hi vl vr sl sr]. cbn in Hmono, Hmin, Hmax.
  subst mo lo hi.
  rewrite set_volume_of_stereo by done.
  unfold alsa_get_volume, alsa_soft_init, mixer_ok. cbn [initted alsa_mixer].
  unfold get_volume_of. cbn -[to_int MAX]. rewrite Hil, Hir.
  split; [done|]. split; [intros _ e' He'; by simplify_eq|].
  eexists. split; [reflexivity|]. cbn -[MAX].
  split_and!; try (by intros -> ->); by intros ->.
Qed.

Lemma stereo_set_then_get_witness :
  let m1 := alsa_set_volume demo_mixer_answers 0 70
              StereoMixer.stereo_mixer in
  alsa_get_volume demo_mixer_answers m1 = (0, 70, m1) /\
  exists e1,
    alsa_mixer m1 = Some e1 /\ sw_left e1 = false /\ sw_right e1 = true.
Proof.
  cbn zeta.
  destruct (stereo_set_then_get demo_mixer_answers demo_mixer_answers
              StereoMixer.stereo_mixer StereoMixer.stereo_selem 0 70)
    as (H1 & _ & e1 & H2 & _ & H3 & _).
  - intros _ e He. by injection He as <-.
  - reflexivity.
  - reflexivity.
  - lia.
  - lia.
  - split; [exact H1|]. exists e1. split; [exact H2|].
    exact (H3 eq_refl eq_refl).
Defined.

(** X18.  On a mono element of the opened mixer, [alsa_set_volume] with
    both values within 0..100 followed by [alsa_get_volume] gives the
    larger of the two values for both channels; an element with a switch is
    muted exactly when both values are 0. *)
Theorem mono_takes_the_larger (a a' : mixer_answers simple_selem) m e
  left right :
  mixer_ok m ->
  alsa_mixer (alsa_soft_init a m) = Some e ->
  mono e = true ->
  0 <= left <= 100 -> 0 <= right <= 100 ->
  let m1 := alsa_set_volume a left right m in
  alsa_get_volume a' m1 = (Z.max left right, Z.max left right, m1) /\
  exists e1,
    alsa_mixer m1 = Some e1 /\
    (pswitch e = true ->
     sw_left e1 = negb ((left =? 0) && (right =? 0))) /\
    (pswitch e = false -> sw_left e1 = sw_left e).
Proof.
  intros Hok Hm Hmono Hl Hr. cbn zeta.
  destruct (alsa_soft_init_range a m e Hok Hm) as [Hmin Hmax].
  rewrite (set_volume_opened a m e left right Hm).
  assert (to_int (Z.max left right) = Z.max left right) as Hi
      by (apply to_int_id; unfold int_range; lia).
  assert (negb (Z.max left right =? 0)
          = negb ((left =? 0) && (right =? 0))) as Hmute.
  { destruct (Z.eqb_spec (Z.max left right) 0), (Z.eqb_spec left 0),
      (Z.eqb_spec right 0); cbn; try done; lia. }
  destruct e as [mo sw swj lo hi vl vr sl sr]. cbn in Hmono, Hmin, Hmax.
  subst mo lo hi.
  rewrite set_volume_of_mono by done.
  unfold alsa_get_volume, alsa_soft_init. cbn [initted alsa_mixer].
  unfold get_volume_of. cbn -[to_int Z.max]. rewrite Hi.
  split; [done|].
  eexists. split; [reflexivity|]. cbn -[Z.max].
  split; intros ->; by rewrite ?Hmute.
Qed.

Lemma mono_takes_the_larger_witness :
  let m1 := alsa_set_volume demo_mixer_answers 0 0 mixer_initial in
  alsa_get_volume demo_mixer_answers m1 = (0, 0, m1) /\
  exists e1, alsa_mixer m1 = Some e1 /\ sw_left e1 = false.
Proof.
  cbn zeta.
  destruct (mono_takes_the_larger demo_mixer_answers demo_mixer_answers
              mixer_initial
              {| mono := true; pswitch := true; pswitch_joined := false;
                 vol_min := 0; vol_max := 100; vol_left := 12; vol_right := 0;
                 sw_left := false; sw_right := false |} 0 0)
    as (H1 & e1 & H2 & H3 & _).
  - intros Hi. discriminate Hi.
  - reflexivity.
  - reflexivity.
  - lia.
  - lia.
  - split; [exact H1|]. exists e1. split; [exact H2|]. exact (H3 eq_refl).
Defined.

End MixerRoundTrip.
